(** * Prana BLE ventilation unit: protocol codec, notification reassembly
      and state request.

    Shallow embedding of [protocol.py] (command tables, [PranaState.update],
    [PranaState.unpack]) and of the notification and request paths of
    [coordinator.py], followed by the properties stated about them.

    Conventions.
    - A [bytes]/[bytearray] value is a [list byte]; an element read from it
      is a Python [int], here a [Z] in [0, 255].
    - A Python exception is a value of [PyExc]; code that may raise returns
      [result A = PyExc + A].
    - [PranaState.update] assigns the attributes of [self] one by one, so it
      is embedded in a state-and-exception monad over [PranaState].
    - Python [float] is IEEE 754 binary64, embedded as the primitive
      [float]. *)

From Stdlib Require Import ZArith Lia Bool Floats Uint63.
From Stdlib Require Import Init.Byte.
From stdpp Require Import base list gmap strings.

Open Scope Z_scope.

(* ------------------------------------------------------------------ *)
(** ** Python values and exceptions                                      *)
(* ------------------------------------------------------------------ *)

Inductive PyExc : Type :=
| ValueError (msg : string)
| IndexError
| TypeError
| OverflowError
| StructError.

Definition result (A : Type) : Type := (PyExc + A)%type.

Definition rbind {A B : Type} (m : result A) (k : A -> result B) : result B :=
  match m with
  | inl e => inl e
  | inr a => k a
  end.

Notation "x <~ m ; k" := (rbind m (fun x => k))
  (at level 20, m at level 100, k at level 200, only parsing).

#[global] Instance byte_eq_dec : EqDecision byte := Byte.byte_eq_dec.

Definition byte_to_Z (b : byte) : Z := Z.of_N (Byte.to_N b).

(** [bytes(ints)]: every element must be in [range(0, 256)]. *)
Fixpoint bytes_of_ints (l : list Z) : result (list byte) :=
  match l with
  | [] => inr []
  | x :: r =>
      if (0 <=? x) && (x <? 256) then
        match Byte.of_N (Z.to_N x) with
        | Some b => bs <~ bytes_of_ints r ; inr (b :: bs)
        | None => inl (ValueError "bytes must be in range(0, 256)")
        end
      else inl (ValueError "bytes must be in range(0, 256)")
  end.

(** [data[i]] for a non-negative index [i]. *)
Definition getitem (data : list byte) (i : nat) : result Z :=
  match data !! i with
  | Some b => inr (byte_to_Z b)
  | None => inl IndexError
  end.

(** [bool(n)] for an [int]. *)
Definition py_bool (n : Z) : bool := negb (n =? 0).

(** [struct.unpack_from(">h", data, key)[0]]: two bytes, big endian, read as
    a two's-complement 16-bit integer; [struct.error] when fewer than two
    bytes are left at [key]. *)
Definition signed16 (u : Z) : Z := if u <? 32768 then u else u - 65536.

Definition unpack_from_be_h (data : list byte) (key : nat) : result Z :=
  match data !! key, data !! S key with
  | Some hi, Some lo => inr (signed16 (byte_to_Z hi * 256 + byte_to_Z lo))
  | _, _ => inl StructError
  end.

(** [float(n)] for the integers that occur here ([0 <= n < 2^53], exact). *)
Definition float_of_int (n : Z) : float := PrimFloat.of_uint63 (Uint63.of_Z n).

(** [a / b] on two [int]s (true division, a [float]). *)
Definition truediv (a b : Z) : float :=
  PrimFloat.div (float_of_int a) (float_of_int b).

(** [int(f)]: truncation toward zero; infinities and NaN raise. *)
Definition int_of_float (f : float) : result Z :=
  match Prim2SF f with
  | S754_zero _ => inr 0
  | S754_finite s m e =>
      let v := if 0 <=? e then Z.pos m * 2 ^ e else Z.pos m / 2 ^ (- e) in
      inr (if s then - v else v)
  | S754_infinity _ => inl OverflowError
  | S754_nan => inl (ValueError "cannot convert float NaN to integer")
  end.

(** [int(log2(v) + 1)] for [1 <= v <= 255].  [math.log2] has no counterpart
    among the primitive float operations; on this range the double it
    returns lies in [[k, k+1)] for [k] the position of the highest set bit
    of [v] (and is exactly [k] at a power of two), so adding [1.0] and
    truncating gives [k + 1]. *)
Definition int_log2_plus_1 (v : Z) : Z := Z.log2 v + 1.

(** [range(n)] and a dictionary built key by key, in order. *)
Definition range (n : Z) : list Z := Z.of_nat <$> seq 0 (Z.to_nat n).

Fixpoint dict_build {V : Type} (items : list (Z * result V)) (acc : gmap Z V)
  : result (gmap Z V) :=
  match items with
  | [] => inr acc
  | (k, rv) :: r => v <~ rv ; dict_build r (<[k := v]> acc)
  end.

(* ------------------------------------------------------------------ *)
(** ** protocol.py: commands and command tables                         *)
(* ------------------------------------------------------------------ *)

Definition COMMAND_PREFIX : list byte := [xbe; xef].

Definition STATE_INDEX_POWER : nat := 10.
Definition STATE_INDEX_POWER_IN : nat := 28.
Definition STATE_INDEX_POWER_OUT : nat := 32.
Definition STATE_INDEX_BRIGHTNESS : nat := 12.
Definition STATE_INDEX_MINI_HEATING : nat := 14.
Definition STATE_INDEX_NIGHT_MODE : nat := 16.
Definition STATE_INDEX_BOOST_MODE : nat := 18.
Definition STATE_INDEX_AUTO_MODE : nat := 20.
Definition STATE_INDEX_FLOWS_LOCKED : nat := 22.
Definition STATE_INDEX_SPEED : nat := 26.
Definition STATE_INDEX_SPEED_IN : nat := 30.
Definition STATE_INDEX_SPEED_OUT : nat := 34.
Definition STATE_INDEX_WINTER_MODE : nat := 42.
Definition STATE_INDEX_TEMP_IN : nat := 48.
Definition STATE_INDEX_TEMP_OUTSIDE : nat := 51.
Definition STATE_INDEX_TEMP_OUT : nat := 54.
Definition STATE_INDEX_HUMIDITY : nat := 60.
Definition STATE_INDEX_CO2 : nat := 61.
Definition STATE_INDEX_TVOC : nat := 63.
Definition STATE_INDEX_PRESSURE : nat := 77.
Definition STATE_INDEX_DISPLAY : nat := 99.

Definition MAX_BRIGHTNESS : Z := 6.
Definition MAX_SPEED : Z := 10.

(** A command object: its payload and, for a display command, its name. *)
Record PranaCommand : Type := mkCommand {
  payload : list byte;
  name : option string
}.

(** [PranaCommand.__init__]: the payload is the prefix followed by
    [bytes] of the integers given. *)
Definition PranaCommand_init (command : list Z) : result PranaCommand :=
  bs <~ bytes_of_ints command ; inr (mkCommand (COMMAND_PREFIX ++ bs) None).

Definition REQUEST_STATE : result PranaCommand :=
  PranaCommand_init [0x05; 0x01; 0x00; 0x00; 0x00; 0x00; 0x5A].

Definition SET_BYTE : Z := 0x04.

Definition PranaSetCommand (last_byte : Z) : result PranaCommand :=
  PranaCommand_init [SET_BYTE; last_byte].

Definition PranaDisplayCommand (nm : string) (last_byte : Z) : result PranaCommand :=
  c <~ PranaSetCommand last_byte ; inr (mkCommand (payload c) (Some nm)).

Definition BRIGHTNESS : result (gmap Z PranaCommand) :=
  dict_build ((fun i => (i, PranaSetCommand (0x6E + i))) <$> range (MAX_BRIGHTNESS + 1)) ∅.

Definition DISPLAY : result (gmap Z PranaCommand) :=
  dict_build
    [ (0x0, PranaDisplayCommand "fan" 0x62);
      (0x1, PranaDisplayCommand "temp_in" 0x5B);
      (0x2, PranaDisplayCommand "temp_out" 0x5C);
      (0x3, PranaDisplayCommand "co2" 0x5D);
      (0x4, PranaDisplayCommand "tvoc" 0x5E);
      (0x5, PranaDisplayCommand "humidity" 0x5F);
      (0x6, PranaDisplayCommand "efficiency" 0x60);
      (0x7, PranaDisplayCommand "pressure" 0x61);
      (0x9, PranaDisplayCommand "date" 0x63);
      (0xA, PranaDisplayCommand "time" 0x64) ] ∅.

Definition TOGGLE : result PranaCommand := PranaSetCommand 0x0A.
Definition TOGGLE_IN : result PranaCommand := PranaSetCommand 0x0D.
Definition TOGGLE_OUT : result PranaCommand := PranaSetCommand 0x10.

Definition SPEED_IN : result (gmap Z PranaCommand) :=
  dict_build
    ((fun i => (i, if i =? 0 then TOGGLE_IN else PranaSetCommand (30 + i)))
       <$> range (MAX_SPEED + 1)) ∅.

Definition SPEED_OUT : result (gmap Z PranaCommand) :=
  dict_build
    ((fun i => (i, if i =? 0 then TOGGLE_OUT else PranaSetCommand (40 + i)))
       <$> range (MAX_SPEED + 1)) ∅.

Definition SPEED : result (gmap Z PranaCommand) :=
  dict_build
    ((fun i => (i, if i =? 0 then TOGGLE else PranaSetCommand (50 + i)))
       <$> range (MAX_SPEED + 1)) ∅.

Definition FLOWS_LOCK_TOGGLE : result PranaCommand := PranaSetCommand 0x09.
Definition WINTER_MODE_TOGGLE : result PranaCommand := PranaSetCommand 0x16.
Definition MINI_HEATING_TOGGLE : result PranaCommand := PranaSetCommand 0x05.

(* ------------------------------------------------------------------ *)
(** ** protocol.py: the parsed device state                             *)
(* ------------------------------------------------------------------ *)

Record PranaState : Type := mkPranaState {
  power : option bool;
  speed : option Z;
  power_in : option bool;
  speed_in : option Z;
  power_out : option bool;
  speed_out : option Z;
  mode : option string;
  brightness : option Z;
  display : option string;
  flows_locked : option bool;
  mini_heating : option bool;
  winter_mode : option bool;
  temp_in : option float;
  temp_out : option float;
  temp_outside : option float;
  humidity : option Z;
  pressure : option Z;
  tvoc : option Z;
  co2 : option Z
}.

Definition set_power (v : option bool) (s : PranaState) : PranaState :=
  mkPranaState v (speed s) (power_in s) (speed_in s) (power_out s) (speed_out s) (mode s) (brightness s) (display s) (flows_locked s) (mini_heating s) (winter_mode s) (temp_in s) (temp_out s) (temp_outside s) (humidity s) (pressure s) (tvoc s) (co2 s).
Definition set_speed (v : option Z) (s : PranaState) : PranaState :=
  mkPranaState (power s) v (power_in s) (speed_in s) (power_out s) (speed_out s) (mode s) (brightness s) (display s) (flows_locked s) (mini_heating s) (winter_mode s) (temp_in s) (temp_out s) (temp_outside s) (humidity s) (pressure s) (tvoc s) (co2 s).
Definition set_power_in (v : option bool) (s : PranaState) : PranaState :=
  mkPranaState (power s) (speed s) v (speed_in s) (power_out s) (speed_out s) (mode s) (brightness s) (display s) (flows_locked s) (mini_heating s) (winter_mode s) (temp_in s) (temp_out s) (temp_outside s) (humidity s) (pressure s) (tvoc s) (co2 s).
Definition set_speed_in (v : option Z) (s : PranaState) : PranaState :=
  mkPranaState (power s) (speed s) (power_in s) v (power_out s) (speed_out s) (mode s) (brightness s) (display s) (flows_locked s) (mini_heating s) (winter_mode s) (temp_in s) (temp_out s) (temp_outside s) (humidity s) (pressure s) (tvoc s) (co2 s).
Definition set_power_out (v : option bool) (s : PranaState) : PranaState :=
  mkPranaState (power s) (speed s) (power_in s) (speed_in s) v (speed_out s) (mode s) (brightness s) (display s) (flows_locked s) (mini_heating s) (winter_mode s) (temp_in s) (temp_out s) (temp_outside s) (humidity s) (pressure s) (tvoc s) (co2 s).
Definition set_speed_out (v : option Z) (s : PranaState) : PranaState :=
  mkPranaState (power s) (speed s) (power_in s) (speed_in s) (power_out s) v (mode s) (brightness s) (display s) (flows_locked s) (mini_heating s) (winter_mode s) (temp_in s) (temp_out s) (temp_outside s) (humidity s) (pressure s) (tvoc s) (co2 s).
Definition set_mode (v : option string) (s : PranaState) : PranaState :=
  mkPranaState (power s) (speed s) (power_in s) (speed_in s) (power_out s) (speed_out s) v (brightness s) (display s) (flows_locked s) (mini_heating s) (winter_mode s) (temp_in s) (temp_out s) (temp_outside s) (humidity s) (pressure s) (tvoc s) (co2 s).
Definition set_brightness (v : option Z) (s : PranaState) : PranaState :=
  mkPranaState (power s) (speed s) (power_in s) (speed_in s) (power_out s) (speed_out s) (mode s) v (display s) (flows_locked s) (mini_heating s) (winter_mode s) (temp_in s) (temp_out s) (temp_outside s) (humidity s) (pressure s) (tvoc s) (co2 s).
Definition set_display (v : option string) (s : PranaState) : PranaState :=
  mkPranaState (power s) (speed s) (power_in s) (speed_in s) (power_out s) (speed_out s) (mode s) (brightness s) v (flows_locked s) (mini_heating s) (winter_mode s) (temp_in s) (temp_out s) (temp_outside s) (humidity s) (pressure s) (tvoc s) (co2 s).
Definition set_flows_locked (v : option bool) (s : PranaState) : PranaState :=
  mkPranaState (power s) (speed s) (power_in s) (speed_in s) (power_out s) (speed_out s) (mode s) (brightness s) (display s) v (mini_heating s) (winter_mode s) (temp_in s) (temp_out s) (temp_outside s) (humidity s) (pressure s) (tvoc s) (co2 s).
Definition set_mini_heating (v : option bool) (s : PranaState) : PranaState :=
  mkPranaState (power s) (speed s) (power_in s) (speed_in s) (power_out s) (speed_out s) (mode s) (brightness s) (display s) (flows_locked s) v (winter_mode s) (temp_in s) (temp_out s) (temp_outside s) (humidity s) (pressure s) (tvoc s) (co2 s).
Definition set_winter_mode (v : option bool) (s : PranaState) : PranaState :=
  mkPranaState (power s) (speed s) (power_in s) (speed_in s) (power_out s) (speed_out s) (mode s) (brightness s) (display s) (flows_locked s) (mini_heating s) v (temp_in s) (temp_out s) (temp_outside s) (humidity s) (pressure s) (tvoc s) (co2 s).
Definition set_temp_in (v : option float) (s : PranaState) : PranaState :=
  mkPranaState (power s) (speed s) (power_in s) (speed_in s) (power_out s) (speed_out s) (mode s) (brightness s) (display s) (flows_locked s) (mini_heating s) (winter_mode s) v (temp_out s) (temp_outside s) (humidity s) (pressure s) (tvoc s) (co2 s).
Definition set_temp_out (v : option float) (s : PranaState) : PranaState :=
  mkPranaState (power s) (speed s) (power_in s) (speed_in s) (power_out s) (speed_out s) (mode s) (brightness s) (display s) (flows_locked s) (mini_heating s) (winter_mode s) (temp_in s) v (temp_outside s) (humidity s) (pressure s) (tvoc s) (co2 s).
Definition set_temp_outside (v : option float) (s : PranaState) : PranaState :=
  mkPranaState (power s) (speed s) (power_in s) (speed_in s) (power_out s) (speed_out s) (mode s) (brightness s) (display s) (flows_locked s) (mini_heating s) (winter_mode s) (temp_in s) (temp_out s) v (humidity s) (pressure s) (tvoc s) (co2 s).
Definition set_humidity (v : option Z) (s : PranaState) : PranaState :=
  mkPranaState (power s) (speed s) (power_in s) (speed_in s) (power_out s) (speed_out s) (mode s) (brightness s) (display s) (flows_locked s) (mini_heating s) (winter_mode s) (temp_in s) (temp_out s) (temp_outside s) v (pressure s) (tvoc s) (co2 s).
Definition set_pressure (v : option Z) (s : PranaState) : PranaState :=
  mkPranaState (power s) (speed s) (power_in s) (speed_in s) (power_out s) (speed_out s) (mode s) (brightness s) (display s) (flows_locked s) (mini_heating s) (winter_mode s) (temp_in s) (temp_out s) (temp_outside s) (humidity s) v (tvoc s) (co2 s).
Definition set_tvoc (v : option Z) (s : PranaState) : PranaState :=
  mkPranaState (power s) (speed s) (power_in s) (speed_in s) (power_out s) (speed_out s) (mode s) (brightness s) (display s) (flows_locked s) (mini_heating s) (winter_mode s) (temp_in s) (temp_out s) (temp_outside s) (humidity s) (pressure s) v (co2 s).
Definition set_co2 (v : option Z) (s : PranaState) : PranaState :=
  mkPranaState (power s) (speed s) (power_in s) (speed_in s) (power_out s) (speed_out s) (mode s) (brightness s) (display s) (flows_locked s) (mini_heating s) (winter_mode s) (temp_in s) (temp_out s) (temp_outside s) (humidity s) (pressure s) (tvoc s) v.

(** [PranaState()]: every attribute is [None]. *)
Definition PranaState_init : PranaState :=
  mkPranaState None None None None None None None None None None
               None None None None None None None None None.

(** *** The monad of [update]: it mutates [self] and may raise.  An
    exception leaves the attributes assigned so far in place. *)

Definition St (A : Type) : Type := PranaState -> result A * PranaState.

Definition ret {A : Type} (a : A) : St A := fun s => (inr a, s).

Definition raise {A : Type} (e : PyExc) : St A := fun s => (inl e, s).

Definition bind {A B : Type} (m : St A) (k : A -> St B) : St B :=
  fun s =>
    match m s with
    | (inr a, s') => k a s'
    | (inl e, s') => (inl e, s')
    end.

Definition lift {A : Type} (r : result A) : St A := fun s => (r, s).

Definition assign (f : PranaState -> PranaState) : St unit :=
  fun s => (inr tt, f s).

Definition attr {A : Type} (f : PranaState -> A) : St A :=
  fun s => (inr (f s), s).

Notation "x <- m ; k" := (bind m (fun x => k))
  (at level 20, m at level 100, k at level 200, only parsing).

(** [PranaState.unpack]. *)
Definition unpack (data : list byte) (key : nat) : result Z :=
  v <~ unpack_from_be_h data key ; inr (Z.land v 0x3FFF).

(** The [if]/[elif] chain that sets [self.mode]. *)
Definition update_mode (data : list byte) : St unit :=
  a <- lift (getitem data STATE_INDEX_AUTO_MODE) ;
  if a =? 1 then assign (set_mode (Some "auto"%string))
  else
    a' <- lift (getitem data STATE_INDEX_AUTO_MODE) ;
    if a' =? 2 then assign (set_mode (Some "auto_plus"%string))
    else
      b <- lift (getitem data STATE_INDEX_BOOST_MODE) ;
      if b =? 1 then assign (set_mode (Some "boost"%string))
      else
        n <- lift (getitem data STATE_INDEX_NIGHT_MODE) ;
        if n =? 1 then assign (set_mode (Some "night"%string))
        else assign (set_mode None).

(** The [if self.flows_locked] statement that sets [self.speed]. *)
Definition update_speed (data : list byte) : St unit :=
  locked <- attr flows_locked ;
  if default false locked then
    v <- lift (getitem data STATE_INDEX_SPEED) ;
    q <- lift (int_of_float (truediv v 10)) ;
    assign (set_speed (Some q))
  else
    si <- attr speed_in ;
    so <- attr speed_out ;
    match si, so with
    | Some i, Some o => assign (set_speed (Some (Z.max i o)))
    | _, _ => raise TypeError
    end.

(** [PranaState.update]. *)
Definition update (data : list byte) : St unit :=
  if bool_decide (take 2 data ≠ COMMAND_PREFIX)
  then raise (ValueError "Unexpected payload prefix")
  else
    p <- lift (getitem data STATE_INDEX_POWER) ;
    _ <- assign (set_power (Some (py_bool p))) ;
    p_in <- lift (getitem data STATE_INDEX_POWER_IN) ;
    _ <- assign (set_power_in (Some (py_bool p_in))) ;
    p_out <- lift (getitem data STATE_INDEX_POWER_OUT) ;
    _ <- assign (set_power_out (Some (py_bool p_out))) ;
    mh <- lift (getitem data STATE_INDEX_MINI_HEATING) ;
    _ <- assign (set_mini_heating (Some (mh =? 1))) ;
    wm <- lift (getitem data STATE_INDEX_WINTER_MODE) ;
    _ <- assign (set_winter_mode (Some (wm =? 1))) ;
    _ <- update_mode data ;
    fl <- lift (getitem data STATE_INDEX_FLOWS_LOCKED) ;
    _ <- assign (set_flows_locked (Some (py_bool fl))) ;
    s_in <- lift (getitem data STATE_INDEX_SPEED_IN) ;
    q_in <- lift (int_of_float (truediv s_in 10)) ;
    _ <- assign (set_speed_in (Some q_in)) ;
    s_out <- lift (getitem data STATE_INDEX_SPEED_OUT) ;
    q_out <- lift (int_of_float (truediv s_out 10)) ;
    _ <- assign (set_speed_out (Some q_out)) ;
    _ <- update_speed data ;
    brightness_value <- lift (getitem data STATE_INDEX_BRIGHTNESS) ;
    _ <- assign (set_brightness
                   (Some (if brightness_value =? 0 then 0
                          else int_log2_plus_1 brightness_value))) ;
    code <- lift (getitem data STATE_INDEX_DISPLAY) ;
    table <- lift DISPLAY ;
    _ <- assign (set_display (table !! code ≫= name)) ;
    h <- lift (getitem data STATE_INDEX_HUMIDITY) ;
    _ <- assign (set_humidity (Some (h - 128))) ;
    pr <- lift (unpack data STATE_INDEX_PRESSURE) ;
    _ <- assign (set_pressure (Some pr)) ;
    t_in <- lift (unpack data STATE_INDEX_TEMP_IN) ;
    _ <- assign (set_temp_in (Some (PrimFloat.div (float_of_int t_in) (float_of_int 10)))) ;
    t_outside <- lift (unpack data STATE_INDEX_TEMP_OUTSIDE) ;
    _ <- assign (set_temp_outside (Some (PrimFloat.div (float_of_int t_outside) (float_of_int 10)))) ;
    t_out <- lift (unpack data STATE_INDEX_TEMP_OUT) ;
    _ <- assign (set_temp_out (Some (PrimFloat.div (float_of_int t_out) (float_of_int 10)))) ;
    c <- lift (unpack data STATE_INDEX_CO2) ;
    _ <- assign (set_co2 (Some c)) ;
    v <- lift (unpack data STATE_INDEX_TVOC) ;
    assign (set_tvoc (Some v)).

(* ------------------------------------------------------------------ *)
(** ** coordinator.py: notification reassembly and the state request     *)
(* ------------------------------------------------------------------ *)

(** Exceptions seen in the coordinator. *)
Inductive CoExc : Type :=
| BleakError (msg : string)
| TimeoutError
| UpdateFailed (msg : string)
| Raised (e : PyExc).

(** A [BleakClient] object, by identity. *)
Definition client : Type := nat.

(** What the coordinator asks of a client's transport, in order. *)
Inductive TransportOp : Type :=
| OpWrite (c : client) (bytes : list byte)
| OpStopNotify (c : client)
| OpDisconnect (c : client).

(** The state of an [asyncio.Future]. *)
Inductive Future : Type :=
| Pending
| Resolved (frame : list byte)
| Failed (e : CoExc)
| Cancelled.

Definition done (f : Future) : bool :=
  match f with
  | Pending => false
  | _ => true
  end.

(** The attributes of [PranaCoordinator] the request path touches, and the
    log of transport calls made. *)
Record Coordinator : Type := mkCoordinator {
  _ble_client : option client;
  _notify_buffer : list byte;
  _notify_future : option Future;
  data : PranaState;
  transport : list TransportOp
}.

Definition set_ble_client (v : option client) (st : Coordinator) : Coordinator :=
  mkCoordinator v (_notify_buffer st) (_notify_future st) (data st) (transport st).
Definition set_notify_buffer (v : list byte) (st : Coordinator) : Coordinator :=
  mkCoordinator (_ble_client st) v (_notify_future st) (data st) (transport st).
Definition set_notify_future (v : option Future) (st : Coordinator) : Coordinator :=
  mkCoordinator (_ble_client st) (_notify_buffer st) v (data st) (transport st).
Definition set_data (v : PranaState) (st : Coordinator) : Coordinator :=
  mkCoordinator (_ble_client st) (_notify_buffer st) (_notify_future st) v (transport st).
Definition call (ops : list TransportOp) (st : Coordinator) : Coordinator :=
  mkCoordinator (_ble_client st) (_notify_buffer st) (_notify_future st) (data st)
                (transport st ++ ops).

Definition _EXPECTED_STATE_BYTES : nat := 100.

(** [_fail_pending_notification]. *)
Definition _fail_pending_notification (err : CoExc) (st : Coordinator) : Coordinator :=
  let st1 :=
    match _notify_future st with
    | Some f => if negb (done f) then set_notify_future (Some (Failed err)) st else st
    | None => st
    end in
  set_notify_buffer [] st1.

(** [_invalidate_client]: the two suppressed transport calls are logged. *)
Definition _invalidate_client (c : option client) (st : Coordinator) : Coordinator :=
  let '(c', st1) :=
    match c with
    | Some x =>
        if bool_decide (_ble_client st ≠ Some x) then (None, st)
        else (Some x, set_ble_client None st)
    | None => (_ble_client st, set_ble_client None st)
    end in
  match c' with
  | None => st1
  | Some x => call [OpStopNotify x; OpDisconnect x] st1
  end.

(** [_ble_notification_handler]. *)
Definition _ble_notification_handler (chunk : list byte) (st : Coordinator) : Coordinator :=
  match _notify_future st with
  | None => st
  | Some future =>
      if done future then st
      else if bool_decide (chunk = []) then st
      else if bool_decide (_notify_buffer st = [])
              && bool_decide (take 1 chunk ≠ take 1 COMMAND_PREFIX) then st
      else
        let st1 := set_notify_buffer (_notify_buffer st ++ chunk) st in
        if bool_decide (length COMMAND_PREFIX <= length (_notify_buffer st1))%nat
           && bool_decide (take (length COMMAND_PREFIX) (_notify_buffer st1) ≠ COMMAND_PREFIX)
        then set_notify_buffer [] st1
        else if bool_decide (_EXPECTED_STATE_BYTES <= length (_notify_buffer st1))%nat
        then
          let st2 :=
            if negb (done future)
            then set_notify_future (Some (Resolved (_notify_buffer st1))) st1
            else st1 in
          set_notify_buffer [] st2
        else st1
  end.

(** [_handle_ble_disconnect]. *)
Definition _handle_ble_disconnect (c : client) (st : Coordinator) : Coordinator :=
  let st1 :=
    if bool_decide (_ble_client st = Some c) then set_ble_client None st else st in
  _fail_pending_notification (BleakError "Device disconnected") st1.

(** What the event loop may run while the request is suspended. *)
Inductive Event : Type :=
| Notification (chunk : list byte)
| Disconnected (c : client).

Definition handle (ev : Event) (st : Coordinator) : Coordinator :=
  match ev with
  | Notification chunk => _ble_notification_handler chunk st
  | Disconnected c => _handle_ble_disconnect c st
  end.

(** The callbacks that run during an [await]. *)
Definition run_events (evs : list Event) (st : Coordinator) : Coordinator :=
  foldl (fun acc ev => handle ev acc) st evs.

Definition future_done (st : Coordinator) : bool :=
  match _notify_future st with
  | Some f => done f
  | None => true
  end.

(** [asyncio.wait_for(future, _NOTIFY_TIMEOUT)].  While the task is
    suspended the event loop runs callbacks.  [evs] are the callbacks that
    run until the task resumes or the timeout fires, whichever comes
    first; a callback that is already queued when the future becomes done
    still runs before the task resumes, so [evs] is run to its end ([evs]
    is empty when the wait returns without suspending).  If the future is
    still pending after them the timeout fires, which cancels the future,
    and [late] are the callbacks that run between the cancellation and the
    task resuming.  The timeout is taken not to fire once the future is
    done. *)
Definition wait_for (evs late : list Event) (st : Coordinator) : Coordinator :=
  let st1 := run_events evs st in
  if future_done st1 then st1
  else run_events late (set_notify_future (Some Cancelled) st1).

(** The environment of one request: the callbacks that run while the write
    is awaited, whether the write raises [BleakError], the callbacks that
    run while the response is awaited, and those that run after a timeout
    before the task resumes. *)
Record Env : Type := mkEnv {
  during_write : list Event;
  write_error : option string;
  during_wait : list Event;
  after_timeout : list Event
}.


Definition request_payload : list byte :=
  match REQUEST_STATE with
  | inr c => payload c
  | inl _ => []
  end.

(** The tail of [_async_request_state_locked], after the [try] statement:
    decode the payload into [self.data]. *)
Definition decode_payload (frame : list byte) (st : Coordinator)
  : (CoExc + PranaState) * Coordinator :=
  match update frame (data st) with
  | (inr _, d) => (inr d, set_data d st)
  | (inl (ValueError msg), d) =>
      (inl (UpdateFailed ("Invalid state payload: " +:+ msg)), set_data d st)
  | (inl e, d) => (inl (Raised e), set_data d st)
  end.

(** The two [except] clauses, each followed by the [finally] clause. *)
Definition on_timeout (c : client) (st : Coordinator)
  : (CoExc + PranaState) * Coordinator :=
  let st1 := _fail_pending_notification TimeoutError st in
  let st2 := _invalidate_client (Some c) st1 in
  (inl (UpdateFailed "Timeout while waiting for Prana BLE state"),
   set_notify_future None st2).

Definition on_bleak_error (c : client) (msg : string) (st : Coordinator)
  : (CoExc + PranaState) * Coordinator :=
  let st1 := _fail_pending_notification (BleakError msg) st in
  let st2 := _invalidate_client (Some c) st1 in
  (inl (UpdateFailed ("BLE error while requesting state: " +:+ msg)),
   set_notify_future None st2).

(** [_async_request_state_locked].  The future created at the start is the
    one held in [_notify_future] until the [finally] clause, so its state is
    read there, when the task resumes.  [wait_for] returns with the future
    done: resolved (the payload, never [None], goes on to be decoded),
    cancelled by the timeout, or failed with the exception it re-raises; a
    pending or absent future cannot come out of it and is given an
    arbitrary outcome. *)
Definition _async_request_state_locked (c : client) (env : Env) (st : Coordinator)
  : (CoExc + PranaState) * Coordinator :=
  let st1 := set_notify_buffer [] (set_notify_future (Some Pending) st) in
  let st2 := call [OpWrite c request_payload] (run_events (during_write env) st1) in
  match write_error env with
  | Some msg => on_bleak_error c msg st2
  | None =>
      let st3 := wait_for (during_wait env) (after_timeout env) st2 in
      match _notify_future st3 with
      | Some (Resolved frame) => decode_payload frame (set_notify_future None st3)
      | Some Cancelled => on_timeout c st3
      | Some (Failed (BleakError msg)) => on_bleak_error c msg st3
      | Some (Failed TimeoutError) => on_timeout c st3
      | Some (Failed e) => (inl e, set_notify_future None st3)
      | Some Pending | None => (inl (Raised TypeError), set_notify_future None st3)
      end
  end.
(* ------------------------------------------------------------------ *)
(** ** Vocabulary for the statements                                    *)
(* ------------------------------------------------------------------ *)

(** The element at [i], for an index known to be in range. *)
Definition at_index (data : list byte) (i : nat) : Z :=
  byte_to_Z (nth i data x00).

(** The unsigned big-endian halfword at [key]. *)
Definition halfword (data : list byte) (key : nat) : Z :=
  at_index data key * 256 + at_index data (S key).

(** A frame as the device sends it: the prefix, and at least the hundred
    bytes the offsets reach into. *)
Definition valid_frame (data : list byte) : Prop :=
  take 2 data = COMMAND_PREFIX /\ (100 <= length data)%nat.

Definition mode_of (data : list byte) : option string :=
  if at_index data STATE_INDEX_AUTO_MODE =? 1 then Some "auto"%string
  else if at_index data STATE_INDEX_AUTO_MODE =? 2 then Some "auto_plus"%string
  else if at_index data STATE_INDEX_BOOST_MODE =? 1 then Some "boost"%string
  else if at_index data STATE_INDEX_NIGHT_MODE =? 1 then Some "night"%string
  else None.

Definition field14 (data : list byte) (key : nat) : Z :=
  Z.land (signed16 (halfword data key)) 0x3FFF.

Definition tenths (u : Z) : float :=
  PrimFloat.div (float_of_int u) (float_of_int 10).

Definition display_name (code : Z) : option string :=
  match DISPLAY with
  | inr table => table !! code ≫= name
  | inl _ => None
  end.

(** The attributes [update] leaves on a valid frame, each as a function of
    the frame bytes (see [update_valid]). *)
Definition decoded (data : list byte) : PranaState :=
  let s_in := at_index data STATE_INDEX_SPEED_IN / 10 in
  let s_out := at_index data STATE_INDEX_SPEED_OUT / 10 in
  let locked := py_bool (at_index data STATE_INDEX_FLOWS_LOCKED) in
  let raw := at_index data STATE_INDEX_BRIGHTNESS in
  {| power := Some (py_bool (at_index data STATE_INDEX_POWER));
     speed := Some (if locked then at_index data STATE_INDEX_SPEED / 10
                    else Z.max s_in s_out);
     power_in := Some (py_bool (at_index data STATE_INDEX_POWER_IN));
     speed_in := Some s_in;
     power_out := Some (py_bool (at_index data STATE_INDEX_POWER_OUT));
     speed_out := Some s_out;
     mode := mode_of data;
     brightness := Some (if raw =? 0 then 0 else int_log2_plus_1 raw);
     display := display_name (at_index data STATE_INDEX_DISPLAY);
     flows_locked := Some locked;
     mini_heating := Some (at_index data STATE_INDEX_MINI_HEATING =? 1);
     winter_mode := Some (at_index data STATE_INDEX_WINTER_MODE =? 1);
     temp_in := Some (tenths (field14 data STATE_INDEX_TEMP_IN));
     temp_out := Some (tenths (field14 data STATE_INDEX_TEMP_OUT));
     temp_outside := Some (tenths (field14 data STATE_INDEX_TEMP_OUTSIDE));
     humidity := Some (at_index data STATE_INDEX_HUMIDITY - 128);
     pressure := Some (field14 data STATE_INDEX_PRESSURE);
     tvoc := Some (field14 data STATE_INDEX_TVOC);
     co2 := Some (field14 data STATE_INDEX_CO2) |}.

(** A frame of zeroes behind the prefix, with the bytes at the given
    offsets set. *)
Definition frame_with (bytes : list (nat * byte)) : list byte :=
  foldr (fun '(i, b) acc => <[i := b]> acc) (COMMAND_PREFIX ++ replicate 98 x00) bytes.

(** Speeds 3 and 5 with the flows unlocked, brightness byte 8, halfword
    [00 C8] at the inlet temperature, humidity byte 160. *)
Definition sample_frame : list byte :=
  frame_with [ (STATE_INDEX_BRIGHTNESS, x08); (STATE_INDEX_SPEED_IN, x1e);
               (STATE_INDEX_SPEED_OUT, x32); (S STATE_INDEX_TEMP_IN, xc8);
               (STATE_INDEX_HUMIDITY, xa0) ].

(** A frame with the auto byte at 2 and the boost and night bytes set. *)
Definition all_flags_frame : list byte :=
  frame_with [ (STATE_INDEX_AUTO_MODE, x02); (STATE_INDEX_BOOST_MODE, x01);
               (STATE_INDEX_NIGHT_MODE, x01) ].

(** Feeding chunks to the notification handler, in order. *)
Definition feed (chunks : list (list byte)) (st : Coordinator) : Coordinator :=
  foldl (fun acc chunk => _ble_notification_handler chunk acc) st chunks.

(** Every value [u] with [lo <= u < lo + n] passes the test [p]. *)
Fixpoint all_from (n : nat) (lo : Z) (p : Z -> bool) : bool :=
  match n with
  | O => true
  | S n' => p lo && all_from n' (lo + 1) p
  end.

Definition tenths_not_negative (u : Z) : bool := PrimFloat.leb 0 (tenths u).

(* ------------------------------------------------------------------ *)
(** ** protocol.py: the preset table                                    *)
(* ------------------------------------------------------------------ *)

(** A dictionary with string keys, built item by item. *)
Fixpoint str_dict_build {V : Type} (items : list (string * result V))
    (acc : gmap string V) : result (gmap string V) :=
  match items with
  | [] => inr acc
  | (k, rv) :: r => v <~ rv ; str_dict_build r (<[k := v]> acc)
  end.

Definition MODE : result (gmap string PranaCommand) :=
  str_dict_build
    [ ("auto"%string, PranaDisplayCommand "auto" 0x43);
      ("auto_plus"%string, PranaDisplayCommand "auto_plus" 0x44);
      ("night"%string, PranaDisplayCommand "night" 0x06);
      ("boost"%string, PranaDisplayCommand "boost" 0x07) ] ∅.

(* ------------------------------------------------------------------ *)
(** ** coordinator.py: connecting, sending, polling and shutting down   *)
(* ------------------------------------------------------------------ *)

(** What [_ensure_client] meets outside the coordinator: whether a client
    reports itself connected, whether the device is found at the address,
    what [establish_connection] gives (a [BleakError] message or the new
    client), and whether [start_notify] raises [BleakError].  The calls
    that open a session are represented by these outcomes; the calls that
    release one are logged in [transport]. *)
Record ConnEnv : Type := mkConnEnv {
  is_connected : client -> bool;
  device_found : bool;
  established : string + client;
  start_notify_error : option string
}.

(** The part of [_ensure_client] that opens a new session. *)
Definition open_session (address : string) (env : ConnEnv) (st : Coordinator)
  : (CoExc + client) * Coordinator :=
  if negb (device_found env)
  then (inl (BleakError ("Unable to find BLE device with address " +:+ address)), st)
  else
    match established env with
    | inl msg => (inl (BleakError msg), set_ble_client None st)
    | inr new_client =>
        match start_notify_error env with
        | Some msg =>
            (inl (BleakError msg),
             call [OpStopNotify new_client; OpDisconnect new_client]
                  (set_ble_client None st))
        | None =>
            (inr new_client,
             set_ble_client (Some new_client) (set_notify_buffer [] st))
        end
    end.

(** [_ensure_client]; [address] is [self.address]. *)
Definition _ensure_client (address : string) (env : ConnEnv) (st : Coordinator)
  : (CoExc + client) * Coordinator :=
  if bool_decide (address = EmptyString)
  then (inl (BleakError "No BLE address configured for Prana device"), st)
  else
    match _ble_client st with
    | Some c =>
        if is_connected env c then (inr c, st)
        else open_session address env (set_ble_client None (call [OpDisconnect c] st))
    | None => open_session address env st
    end.

(** [_async_update_data]: connect, acquire the operation lock, request the
    state.  [_ensure_client] has returned before the task enters
    [async with self._operation_lock], and the task is suspended there for
    as long as another operation holds the lock.  [while_locked] is what
    the other tasks and the callbacks have made of the coordinator by the
    time the lock is acquired (the identity when the lock is free): the
    stored handle may by then no longer be the client that was returned. *)
Definition _async_update_data (address : string) (cenv : ConnEnv)
    (while_locked : Coordinator -> Coordinator) (env : Env)
    (st : Coordinator) : (CoExc + PranaState) * Coordinator :=
  match _ensure_client address cenv st with
  | (inl (BleakError err), st1) =>
      (inl (UpdateFailed ("Failed to connect to Prana BLE device: " +:+ err)), st1)
  | (inl e, st1) => (inl e, st1)
  | (inr c, st1) => _async_request_state_locked c env (while_locked st1)
  end.

(** [async_shutdown]. *)
Definition async_shutdown (st : Coordinator) : Coordinator :=
  _invalidate_client None
    (_fail_pending_notification (BleakError "Coordinator shutdown") st).

(** [async_send_command], up to the refresh it ends with: [inr tt] stands
    for reaching [await self.async_refresh()].  As in [_async_update_data]
    the task may be suspended at the operation lock after [_ensure_client]
    has returned, and [while_locked] is what the coordinator has become
    when the lock is acquired.  [evs] are the callbacks that run while the
    write is awaited. *)
Definition async_send_command (address : string) (cenv : ConnEnv)
    (while_locked : Coordinator -> Coordinator)
    (command : PranaCommand) (evs : list Event) (write_failure : option string)
    (st : Coordinator) : (CoExc + unit) * Coordinator :=
  match _ensure_client address cenv st with
  | (inl (BleakError err), st1) =>
      (inl (UpdateFailed ("Failed to connect before sending command: " +:+ err)), st1)
  | (inl e, st1) => (inl e, st1)
  | (inr c, st1) =>
      let st2 := call [OpWrite c (payload command)]
                      (run_events evs (while_locked st1)) in
      match write_failure with
      | Some err =>
          (inl (UpdateFailed ("BLE error while sending command: " +:+ err)),
           _invalidate_client (Some c) st2)
      | None => (inr tt, st2)
      end
  end.

(** The accumulator between two calls of the handler: shorter than a
    frame, and the prefix as far as it reaches. *)
Definition accumulator_ok (buf : list byte) : Prop :=
  (length buf < 100)%nat /\
  (buf ≠ [] -> take 1 buf = take 1 COMMAND_PREFIX) /\
  ((2 <= length buf)%nat -> take 2 buf = COMMAND_PREFIX).

(** The future of a request while callbacks run: pending, resolved with a
    valid frame and the accumulator cleared, or failed by a [BleakError]
    with the accumulator cleared. *)
Definition future_ok (st : Coordinator) : Prop :=
  _notify_future st = Some Pending \/
  (exists frame, _notify_future st = Some (Resolved frame) /\ valid_frame frame /\
                 _notify_buffer st = []) \/
  (exists msg, _notify_future st = Some (Failed (BleakError msg)) /\
               _notify_buffer st = []).

(* ------------------------------------------------------------------ *)
(** ** The entities: fan.py, number.py, select.py                        *)
(* ------------------------------------------------------------------ *)

(** Exceptions of the entity layer, beside those of the codec. *)
Inductive EntityExc : Type :=
| AttributeError (attr : string)
| ZeroDivisionError
| Py (e : PyExc).

(** A Python value read with [getattr]. *)
Inductive PyVal : Type :=
| VNone
| VBool (b : bool)
| VInt (n : Z)
| VFloat (f : float)
| VStr (s : string).

Definition py_opt {A : Type} (inj : A -> PyVal) (o : option A) : PyVal :=
  match o with
  | Some a => inj a
  | None => VNone
  end.

(** [getattr(state, attr)] on a [PranaState]. *)
Definition getattr (s : PranaState) (attr : string) : EntityExc + PyVal :=
  if bool_decide (attr = "power"%string) then inr (py_opt VBool (power s))
  else if bool_decide (attr = "speed"%string) then inr (py_opt VInt (speed s))
  else if bool_decide (attr = "power_in"%string) then inr (py_opt VBool (power_in s))
  else if bool_decide (attr = "speed_in"%string) then inr (py_opt VInt (speed_in s))
  else if bool_decide (attr = "power_out"%string) then inr (py_opt VBool (power_out s))
  else if bool_decide (attr = "speed_out"%string) then inr (py_opt VInt (speed_out s))
  else if bool_decide (attr = "mode"%string) then inr (py_opt VStr (mode s))
  else if bool_decide (attr = "brightness"%string) then inr (py_opt VInt (brightness s))
  else if bool_decide (attr = "display"%string) then inr (py_opt VStr (display s))
  else if bool_decide (attr = "flows_locked"%string) then inr (py_opt VBool (flows_locked s))
  else if bool_decide (attr = "mini_heating"%string) then inr (py_opt VBool (mini_heating s))
  else if bool_decide (attr = "winter_mode"%string) then inr (py_opt VBool (winter_mode s))
  else if bool_decide (attr = "temp_in"%string) then inr (py_opt VFloat (temp_in s))
  else if bool_decide (attr = "temp_out"%string) then inr (py_opt VFloat (temp_out s))
  else if bool_decide (attr = "temp_outside"%string)
       then inr (py_opt VFloat (temp_outside s))
  else if bool_decide (attr = "humidity"%string) then inr (py_opt VInt (humidity s))
  else if bool_decide (attr = "pressure"%string) then inr (py_opt VInt (pressure s))
  else if bool_decide (attr = "tvoc"%string) then inr (py_opt VInt (tvoc s))
  else if bool_decide (attr = "co2"%string) then inr (py_opt VInt (co2 s))
  else inl (AttributeError attr).

(** Truth value of what [getattr] gives here ([None], [bool], [int]). *)
Definition truthy (v : PyVal) : bool :=
  match v with
  | VNone => false
  | VBool b => b
  | VInt n => negb (n =? 0)
  | VFloat f => negb (PrimFloat.eqb f 0)
  | VStr s => negb (bool_decide (s = EmptyString))
  end.

(** [float(n)] for an [int] of either sign (exact below [2^53]). *)
Definition py_float (n : Z) : float :=
  if n <? 0 then PrimFloat.opp (float_of_int (- n)) else float_of_int n.

(** [round(f)] for a [float]: the nearest integer, ties to the even one;
    infinities and NaN raise. *)
Definition py_round (f : float) : result Z :=
  match Prim2SF f with
  | S754_zero _ => inr 0
  | S754_finite s m e =>
      let v :=
        if 0 <=? e then Z.pos m * 2 ^ e
        else
          let d := 2 ^ (- e) in
          let q := Z.pos m / d in
          let r := Z.pos m mod d in
          if 2 * r <? d then q
          else if d <? 2 * r then q + 1
          else if Z.even q then q else q + 1 in
      inr (if s then - v else v)
  | S754_infinity _ => inl OverflowError
  | S754_nan => inl (ValueError "cannot convert float NaN to integer")
  end.

(** One of the three fan entities: its key, its speed table and the
    configured number of speeds ([coordinator.max_speed], an [int] as the
    coordinator declares it; the arithmetic below converts it to [float]
    wherever Python does). *)
Record PranaFanEntity : Type := mkFan {
  key : string;
  speed_cmd : gmap Z PranaCommand;
  _attr_speed_count : Z
}.

(** The three descriptions of [FAN_ENTITY_DESCRIPTIONS], as entities with
    the given number of speeds. *)
Definition fan_entities (max_speed : Z) : result (list PranaFanEntity) :=
  main <~ SPEED ; t_in <~ SPEED_IN ; t_out <~ SPEED_OUT ;
  inr [ mkFan EmptyString main max_speed; mkFan "in" t_in max_speed;
        mkFan "out" t_out max_speed ].

Definition _get_key (self : PranaFanEntity) (base : string) : string :=
  if bool_decide (key self = EmptyString) then base
  else base +:+ "_" +:+ key self.

Definition is_on (self : PranaFanEntity) (state : PranaState) : EntityExc + PyVal :=
  getattr state (_get_key self "power").

Definition _current_speed_level (self : PranaFanEntity) (state : PranaState)
  : EntityExc + PyVal :=
  getattr state (_get_key self "speed").

(** The [percentage] property. *)
Definition percentage (self : PranaFanEntity) (state : PranaState)
  : EntityExc + option Z :=
  match _current_speed_level self state with
  | inl e => inl e
  | inr VNone => inr None
  | inr (VInt speed) =>
      if _attr_speed_count self <=? 0 then inr (Some 0)
      else
        match py_round (PrimFloat.mul
                          (PrimFloat.div (py_float speed)
                                         (py_float (_attr_speed_count self)))
                          (py_float 100)) with
        | inl e => inl (Py e)
        | inr r => inr (Some (Z.max 0 (Z.min 100 r)))
        end
  | inr _ => inl (Py TypeError)
  end.

(** [_percentage_to_level]. *)
Definition _percentage_to_level (self : PranaFanEntity) (pct : Z) : result Z :=
  if (pct <=? 0) || (_attr_speed_count self =? 0) then inr 0
  else
    let pct := Z.max 0 (Z.min pct 100) in
    r <~ py_round (PrimFloat.mul (PrimFloat.div (py_float pct) (py_float 100))
                                 (py_float (_attr_speed_count self))) ;
    inr (Z.max 1 r).

(** What an entity method hands to [coordinator.async_send_command]:
    nothing, or the argument of the call (which is [None] when a table has
    no entry for the key). *)
Inductive Sent : Type :=
| Nothing
| Command (argument : option PranaCommand).

(** [async_turn_off]. *)
Definition fan_async_turn_off (self : PranaFanEntity) (state : PranaState)
  : EntityExc + Sent :=
  match is_on self state with
  | inl e => inl e
  | inr v => if truthy v then inr (Command (speed_cmd self !! 0)) else inr Nothing
  end.

(** [async_set_percentage]. *)
Definition async_set_percentage (self : PranaFanEntity) (state : PranaState)
    (pct : Z) : EntityExc + Sent :=
  match _percentage_to_level self pct with
  | inl e => inl (Py e)
  | inr level =>
      if level =? 0 then fan_async_turn_off self state
      else inr (Command (speed_cmd self !! level))
  end.

(** [async_set_preset_mode]. *)
Definition async_set_preset_mode (preset_mode : string) : EntityExc + Sent :=
  match MODE with
  | inl e => inl (Py e)
  | inr table =>
      match table !! preset_mode with
      | None => inl (Py (ValueError ("Unsupported preset mode " +:+ preset_mode)))
      | Some c => inr (Command (Some c))
      end
  end.

(** [async_turn_on]. *)
Definition fan_async_turn_on (self : PranaFanEntity) (state : PranaState)
    (pct : option Z) (preset_mode : option string) : EntityExc + Sent :=
  match preset_mode, pct with
  | Some m, _ => async_set_preset_mode m
  | None, Some p => async_set_percentage self state p
  | None, None =>
      match is_on self state with
      | inl e => inl e
      | inr v => if truthy v then inr Nothing else inr (Command (speed_cmd self !! 0))
      end
  end.

(** number.py, [async_set_native_value]; [show] stands for the formatting
    of a [float] in the message. *)
Definition async_set_native_value (show : float -> string) (value : float)
  : EntityExc + Sent :=
  match int_of_float value, BRIGHTNESS with
  | inl e, _ => inl (Py e)
  | _, inl e => inl (Py e)
  | inr n, inr table =>
      match table !! n with
      | None => inl (Py (ValueError ("Unsupported brightness " +:+ show value)))
      | Some c => inr (Command (Some c))
      end
  end.

(** [sorted(d.items())] for a dictionary with integer keys: the items in
    ascending order of the key. *)
Fixpoint insert_item {V : Type} (item : Z * V) (items : list (Z * V)) : list (Z * V) :=
  match items with
  | [] => [item]
  | x :: r => if item.1 <=? x.1 then item :: x :: r else x :: insert_item item r
  end.

Definition sorted_items {V : Type} (d : gmap Z V) : list (Z * V) :=
  foldr insert_item [] (map_to_list d).

(** select.py, the loop of [_build_display_mappings]. *)
Fixpoint display_mappings_loop (items : list (Z * PranaCommand))
    (options : list string) (label_to_command : gmap string PranaCommand)
  : EntityExc + (list string * gmap string PranaCommand) :=
  match items with
  | [] => inr (options, label_to_command)
  | (raw_key, command) :: r =>
      match name command with
      | None => inl (AttributeError "name")
      | Some nm =>
          display_mappings_loop r (options ++ [nm]) (<[nm := command]> label_to_command)
      end
  end.

Definition _build_display_mappings
  : EntityExc + (list string * gmap string PranaCommand) :=
  match DISPLAY with
  | inl e => inl (Py e)
  | inr table => display_mappings_loop (sorted_items table) [] ∅
  end.

(** [async_select_option]. *)
Definition async_select_option (option : string) : EntityExc + Sent :=
  match _build_display_mappings with
  | inl e => inl e
  | inr (_, DISPLAY_TO_COMMAND) =>
      match DISPLAY_TO_COMMAND !! option with
      | None => inl (Py (ValueError ("Unsupported display option: " +:+ option)))
      | Some c => inr (Command (Some c))
      end
  end.

(** Every value [u] with [lo <= u < lo + n] passes the test [p count] for
    every [count] from 1 to 10. *)
Definition all_counts (p : Z -> Z -> bool) (n : nat) (lo : Z) : bool :=
  forallb (fun count => all_from n lo (p count)) [1; 2; 3; 4; 5; 6; 7; 8; 9; 10].

(** The commands of a table, and of a table with string keys. *)
Definition table_commands (t : result (gmap Z PranaCommand)) : list PranaCommand :=
  match t with
  | inr m => (map_to_list m).*2
  | inl _ => []
  end.

Definition str_table_commands (t : result (gmap string PranaCommand))
  : list PranaCommand :=
  match t with
  | inr m => (map_to_list m).*2
  | inl _ => []
  end.

Definition single_command (c : result PranaCommand) : list PranaCommand :=
  match c with
  | inr x => [x]
  | inl _ => []
  end.

(** Every command the module defines: the speed tables (which hold the
    three fan toggles at level 0), brightness, display, presets, the
    three switch toggles and the state request. *)
Definition all_commands : list PranaCommand :=
  table_commands SPEED ++ table_commands SPEED_IN ++ table_commands SPEED_OUT
  ++ table_commands BRIGHTNESS ++ table_commands DISPLAY ++ str_table_commands MODE
  ++ single_command FLOWS_LOCK_TOGGLE ++ single_command WINTER_MODE_TOGGLE
  ++ single_command MINI_HEATING_TOGGLE ++ single_command REQUEST_STATE.

(** The arithmetic of [percentage] and of [_percentage_to_level] for a
    positive number of speeds, as functions of the numbers alone. *)
Definition percentage_of_level (count speed : Z) : result Z :=
  r <~ py_round (PrimFloat.mul (PrimFloat.div (py_float speed) (py_float count))
                               (py_float 100)) ;
  inr (Z.max 0 (Z.min 100 r)).

Definition level_of_percentage (count pct : Z) : result Z :=
  _percentage_to_level (mkFan EmptyString ∅ count) pct.

(** The checks run over every number of speeds from 1 to 10. *)
Definition percentage_check (count speed : Z) : bool :=
  match percentage_of_level count speed with
  | inr p =>
      (0 <=? p) && (p <=? 100) && Bool.eqb (p =? 0) (speed =? 0)
      && implb (count <=? speed) (p =? 100)
  | inl _ => false
  end.

Definition level_check (count pct : Z) : bool :=
  match level_of_percentage count pct with
  | inr level => (1 <=? level) && (level <=? count) && implb (pct =? 100) (level =? count)
  | inl _ => false
  end.

Definition round_trip_check (count level : Z) : bool :=
  implb (level <=? count)
    match percentage_of_level count level with
    | inr p =>
        match level_of_percentage count p with
        | inr level' => level' =? level
        | inl _ => false
        end
    | inl _ => false
    end.

(** The dictionary a table definition evaluates to. *)
Definition table_of {K : Type} `{Countable K} {V : Type} (r : result (gmap K V))
  : gmap K V :=
  match r with
  | inr m => m
  | inl _ => ∅
  end.

(** The three fans with their tables, each with the opcode base of its
    speed levels and the opcode of its toggle. *)
Definition fans_with_opcodes (count : Z) : list (PranaFanEntity * Z * Z) :=
  [ (mkFan EmptyString (table_of SPEED) count, 50, 0x0A);
    (mkFan "in" (table_of SPEED_IN) count, 30, 0x0D);
    (mkFan "out" (table_of SPEED_OUT) count, 40, 0x10) ].

(** entity.py, the [native_value] property: [None] without data, else the
    attribute named by the key of the entity description. *)
Definition native_value (data : option PranaState) (key : string)
  : EntityExc + PyVal :=
  match data with
  | None => inr VNone
  | Some state => getattr state key
  end.

(** sensor.py, the keys of [SENSOR_DESCRIPTIONS]. *)
Definition SENSOR_DESCRIPTIONS : list string :=
  [ "temp_in"; "temp_out"; "temp_outside"; "humidity"; "pressure"; "co2"; "tvoc";
    "speed"; "speed_in"; "speed_out" ]%string.

(** switch.py, the key and the toggle command of each description. *)
Record PranaSwitchEntityDescription : Type := mkSwitch {
  switch_key : string;
  toggle_cmd : PranaCommand
}.

Definition SWITCH_ENTITY_DESCRIPTIONS : result (list PranaSwitchEntityDescription) :=
  heating <~ MINI_HEATING_TOGGLE ;
  winter <~ WINTER_MODE_TOGGLE ;
  lock <~ FLOWS_LOCK_TOGGLE ;
  inr [ mkSwitch "mini_heating" heating; mkSwitch "winter_mode" winter;
        mkSwitch "flows_locked" lock ].

Definition switch_is_on (self : PranaSwitchEntityDescription)
    (data : option PranaState) : EntityExc + PyVal :=
  native_value data (switch_key self).

Definition switch_async_turn_on (self : PranaSwitchEntityDescription)
    (data : option PranaState) : EntityExc + Sent :=
  match switch_is_on self data with
  | inl e => inl e
  | inr v => if truthy v then inr Nothing else inr (Command (Some (toggle_cmd self)))
  end.

Definition switch_async_turn_off (self : PranaSwitchEntityDescription)
    (data : option PranaState) : EntityExc + Sent :=
  match switch_is_on self data with
  | inl e => inl e
  | inr v => if truthy v then inr (Command (Some (toggle_cmd self))) else inr Nothing
  end.

(** The keys of the switches with the opcode of their toggle. *)
Definition switch_opcodes : list (string * Z) :=
  [ ("mini_heating", 0x05); ("winter_mode", 0x16); ("flows_locked", 0x09) ]%string.

(** The option names of the display select, in the order of the codes. *)
Definition display_labels : list string :=
  [ "fan"; "temp_in"; "temp_out"; "co2"; "tvoc"; "humidity"; "efficiency";
    "pressure"; "date"; "time" ]%string.

(** The opcode of each preset. *)
Definition preset_opcodes : list (string * Z) :=
  [ ("auto", 0x43); ("auto_plus", 0x44); ("night", 0x06); ("boost", 0x07) ]%string.

(* ------------------------------------------------------------------ *)
(** ** Facts about the Python primitives                                *)
(* ------------------------------------------------------------------ *)

Ltac unfold_indices :=
  unfold STATE_INDEX_POWER, STATE_INDEX_POWER_IN, STATE_INDEX_POWER_OUT,
    STATE_INDEX_BRIGHTNESS, STATE_INDEX_MINI_HEATING, STATE_INDEX_NIGHT_MODE,
    STATE_INDEX_BOOST_MODE, STATE_INDEX_AUTO_MODE, STATE_INDEX_FLOWS_LOCKED,
    STATE_INDEX_SPEED, STATE_INDEX_SPEED_IN, STATE_INDEX_SPEED_OUT,
    STATE_INDEX_WINTER_MODE, STATE_INDEX_TEMP_IN, STATE_INDEX_TEMP_OUTSIDE,
    STATE_INDEX_TEMP_OUT, STATE_INDEX_HUMIDITY, STATE_INDEX_CO2,
    STATE_INDEX_TVOC, STATE_INDEX_PRESSURE, STATE_INDEX_DISPLAY in *.

(** Reading an attribute back after a chain of assignments. *)
Ltac simpl_state :=
  cbv [set_power set_speed set_power_in set_speed_in set_power_out
       set_speed_out set_mode set_brightness set_display set_flows_locked
       set_mini_heating set_winter_mode set_temp_in set_temp_out
       set_temp_outside set_humidity set_pressure set_tvoc set_co2
       power speed power_in speed_in power_out speed_out mode brightness
       display flows_locked mini_heating winter_mode temp_in temp_out
       temp_outside humidity pressure tvoc co2].

Lemma byte_to_Z_range (b : byte) : 0 <= byte_to_Z b <= 255.
Proof.
  unfold byte_to_Z. pose proof (Byte.to_N_bounded b). lia.
Qed.

(** On a byte, true division by ten followed by [int] is the integer
    quotient: the rounding of the double never reaches the next integer. *)
Lemma int_of_float_truediv_byte (b : byte) :
  int_of_float (truediv (byte_to_Z b) 10) = inr (byte_to_Z b / 10).
Proof. destruct b; vm_compute; reflexivity. Qed.

Lemma DISPLAY_is_dict : exists table, DISPLAY = inr table.
Proof. eexists. vm_compute. reflexivity. Qed.

Lemma lookup_in_range (data : list byte) (i : nat) :
  (i < length data)%nat -> data !! i = Some (nth i data x00).
Proof.
  revert i. induction data as [|b data IH]; intros i Hi; simpl in Hi.
  - lia.
  - destruct i as [|i]; simpl; [reflexivity|]. apply IH. lia.
Qed.

Lemma getitem_in_range (data : list byte) (i : nat) :
  (i < length data)%nat -> getitem data i = inr (at_index data i).
Proof.
  intros Hi. unfold getitem, at_index. now rewrite lookup_in_range.
Qed.

Lemma getitem_out_of_range (data : list byte) (i : nat) :
  (length data <= i)%nat -> getitem data i = inl IndexError.
Proof.
  intros Hi. unfold getitem. now rewrite lookup_ge_None_2.
Qed.

Lemma at_index_range (data : list byte) (i : nat) : 0 <= at_index data i <= 255.
Proof. apply byte_to_Z_range. Qed.

Lemma at_index_lookup (data : list byte) (i : nat) (b : byte) :
  data !! i = Some b -> at_index data i = byte_to_Z b.
Proof.
  intros H. unfold at_index.
  rewrite lookup_in_range in H by (eapply lookup_lt_Some; eassumption).
  now injection H as ->.
Qed.

Lemma at_index_truediv (data : list byte) (i : nat) :
  int_of_float (truediv (at_index data i) 10) = inr (at_index data i / 10).
Proof. apply int_of_float_truediv_byte. Qed.

Lemma unpack_in_range (data : list byte) (key : nat) :
  (S key < length data)%nat -> unpack data key = inr (field14 data key).
Proof.
  intros Hk. unfold unpack, unpack_from_be_h.
  rewrite !lookup_in_range by lia. reflexivity.
Qed.

Lemma halfword_range (data : list byte) (key : nat) :
  0 <= halfword data key < 65536.
Proof.
  unfold halfword.
  pose proof (at_index_range data key). pose proof (at_index_range data (S key)).
  lia.
Qed.

(** [signed16] is the two's-complement reading: in range, and congruent to
    the unsigned halfword modulo [2^16]. *)
Lemma signed16_spec (u : Z) :
  0 <= u < 65536 ->
  -32768 <= signed16 u < 32768 /\ signed16 u mod 65536 = u.
Proof.
  intros Hu. unfold signed16. destruct (Z.ltb_spec u 32768).
  - split; [lia|]. apply Z.mod_small; lia.
  - split; [lia|].
    replace (u - 65536) with (u + (-1) * 65536) by lia.
    rewrite Z_mod_plus_full. apply Z.mod_small; lia.
Qed.

(** Masking after sign extension keeps the low fourteen bits of the
    unsigned halfword. *)
Lemma land_signed16 (u : Z) :
  0 <= u < 65536 -> Z.land (signed16 u) 0x3FFF = u mod 16384.
Proof.
  intros Hu. change 0x3FFF with (Z.ones 14). rewrite Z.land_ones by lia.
  change (2 ^ 14) with 16384. unfold signed16.
  destruct (u <? 32768); [reflexivity|].
  replace (u - 65536) with (u + (-4) * 16384) by lia.
  now rewrite Z_mod_plus_full.
Qed.

Lemma field14_range (data : list byte) (key : nat) :
  0 <= field14 data key <= 16383.
Proof.
  unfold field14. rewrite land_signed16 by apply halfword_range.
  pose proof (Z.mod_pos_bound (halfword data key) 16384). lia.
Qed.

Lemma all_from_spec (p : Z -> bool) (n : nat) (lo : Z) :
  all_from n lo p = true ->
  forall u, lo <= u < lo + Z.of_nat n -> p u = true.
Proof.
  revert lo. induction n as [|n IH]; intros lo Hall u Hu.
  - lia.
  - simpl in Hall. apply andb_true_iff in Hall as [Hlo Hrest].
    destruct (Z.eq_dec u lo) as [->|Hne]; [exact Hlo|].
    apply (IH (lo + 1) Hrest). lia.
Qed.

(** A tenth of a fourteen-bit value is a non-negative double. *)
Lemma tenths_field_not_negative (u : Z) :
  0 <= u <= 16383 -> PrimFloat.leb 0 (tenths u) = true.
Proof.
  intros Hu.
  assert (Hall : all_from (Z.to_nat 16384) 0 tenths_not_negative = true)
    by (vm_compute; reflexivity).
  apply (all_from_spec _ _ _ Hall). rewrite Z2Nat.id; lia.
Qed.

(* ------------------------------------------------------------------ *)
(** ** The outcome of [update]                                          *)
(* ------------------------------------------------------------------ *)

Lemma update_mode_valid (data : list byte) :
  (20 < length data)%nat ->
  update_mode data = assign (set_mode (mode_of data)).
Proof.
  intros Hlen. unfold update_mode, mode_of. unfold_indices.
  rewrite !getitem_in_range by lia.
  unfold bind, lift.
  destruct (at_index data 20 =? 1); [reflexivity|].
  destruct (at_index data 20 =? 2); [reflexivity|].
  destruct (at_index data 18 =? 1); [reflexivity|].
  destruct (at_index data 16 =? 1); reflexivity.
Qed.

(** On a valid frame [update] returns normally, whatever the attributes
    were before, and leaves [decoded data]. *)
Lemma update_valid (data : list byte) (s : PranaState) :
  valid_frame data -> update data s = (inr tt, decoded data).
Proof.
  intros [Hpre Hlen]. unfold update.
  rewrite bool_decide_eq_false_2 by (intros Hne; apply Hne, Hpre).
  rewrite update_mode_valid by lia.
  destruct DISPLAY_is_dict as [table Htable].
  unfold decoded, display_name, update_speed. rewrite Htable.
  unfold_indices.
  rewrite !getitem_in_range, !unpack_in_range by lia.
  cbv [bind lift assign attr].
  repeat (rewrite at_index_truediv; cbv beta iota).
  unfold default, from_option; simpl_state.
  destruct (py_bool (at_index data 22));
    repeat (rewrite at_index_truediv; cbv beta iota);
    simpl_state; reflexivity.
Qed.

Lemma take_2_prefix_length (data : list byte) :
  take 2 data = COMMAND_PREFIX -> (2 <= length data)%nat.
Proof.
  intros H. apply (f_equal length) in H. rewrite length_take in H.
  change (length COMMAND_PREFIX) with 2%nat in H. lia.
Qed.

(** With the prefix in place and fewer than a hundred bytes, the first
    read past the end raises [IndexError]; nothing else is raised before. *)
Lemma update_short (data : list byte) (s : PranaState) :
  take 2 data = COMMAND_PREFIX -> (length data < 100)%nat ->
  fst (update data s) = inl IndexError.
Proof.
  intros Hpre Hlen. unfold update.
  rewrite bool_decide_eq_false_2 by (intros Hne; apply Hne, Hpre).
  unfold update_speed. unfold_indices.
  destruct (le_lt_dec (length data) 10) as [H10|H10].
  { rewrite (getitem_out_of_range data 10) by lia. reflexivity. }
  rewrite (getitem_in_range data 10) by lia.
  destruct (le_lt_dec (length data) 28) as [H28|H28].
  { rewrite (getitem_out_of_range data 28) by lia. reflexivity. }
  rewrite (getitem_in_range data 28) by lia.
  destruct (le_lt_dec (length data) 32) as [H32|H32].
  { rewrite (getitem_out_of_range data 32) by lia. reflexivity. }
  rewrite (getitem_in_range data 32), (getitem_in_range data 14) by lia.
  destruct (le_lt_dec (length data) 42) as [H42|H42].
  { rewrite (getitem_out_of_range data 42) by lia. reflexivity. }
  rewrite update_mode_valid by lia.
  rewrite (getitem_in_range data 42), (getitem_in_range data 22),
    (getitem_in_range data 30), (getitem_in_range data 34),
    (getitem_in_range data 12) by lia.
  rewrite (getitem_out_of_range data 99) by lia.
  rewrite (getitem_in_range data 26) by lia.
  cbv [bind lift assign attr].
  repeat (rewrite at_index_truediv; cbv beta iota).
  unfold default, from_option; simpl_state.
  destruct (py_bool (at_index data 22));
    repeat (rewrite at_index_truediv; cbv beta iota); reflexivity.
Qed.

Lemma update_bad_prefix (data : list byte) (s : PranaState) :
  take 2 data ≠ COMMAND_PREFIX ->
  update data s = (inl (ValueError "Unexpected payload prefix"), s).
Proof.
  intros Hne. unfold update. now rewrite bool_decide_eq_true_2.
Qed.

Lemma sample_frame_valid : valid_frame sample_frame.
Proof. split; [reflexivity | vm_compute; lia]. Qed.

Example sample_frame_decoded :
  update sample_frame PranaState_init =
  (inr tt,
   {| power := Some false; speed := Some 5; power_in := Some false;
      speed_in := Some 3; power_out := Some false; speed_out := Some 5;
      mode := None; brightness := Some 4; display := Some "fan"%string;
      flows_locked := Some false; mini_heating := Some false;
      winter_mode := Some false; temp_in := Some 20%float;
      temp_out := Some 0%float; temp_outside := Some 0%float;
      humidity := Some 32; pressure := Some 0; tvoc := Some 0;
      co2 := Some 0 |}).
Proof. vm_compute. reflexivity. Qed.

(* ------------------------------------------------------------------ *)
(** ** The notification handler, one chunk at a time                    *)
(* ------------------------------------------------------------------ *)

Lemma take_1_prefix (chunk rest : list byte) :
  chunk ≠ [] -> take 1 (chunk ++ rest) = take 1 chunk.
Proof. destruct chunk; [congruence | reflexivity]. Qed.

(** A chunk that does not begin with [BE] (or is empty) is dropped while
    the accumulator is empty. *)
Lemma handler_stray (chunk : list byte) cl d tr :
  take 1 chunk ≠ take 1 COMMAND_PREFIX ->
  _ble_notification_handler chunk (mkCoordinator cl [] (Some Pending) d tr)
  = mkCoordinator cl [] (Some Pending) d tr.
Proof.
  intros Hne. unfold _ble_notification_handler. simpl.
  case_bool_decide; [reflexivity|].
  rewrite bool_decide_eq_true_2 by exact Hne. reflexivity.
Qed.

(** A chunk that is taken up: it is appended, and the accumulator is
    emitted whole once it holds a hundred bytes. *)
Lemma handler_step (chunk buf : list byte) cl d tr :
  chunk ≠ [] ->
  (buf = [] -> take 1 chunk = take 1 COMMAND_PREFIX) ->
  ((2 <= length (buf ++ chunk))%nat -> take 2 (buf ++ chunk) = COMMAND_PREFIX) ->
  _ble_notification_handler chunk (mkCoordinator cl buf (Some Pending) d tr)
  = if bool_decide (100 <= length (buf ++ chunk))%nat
    then mkCoordinator cl [] (Some (Resolved (buf ++ chunk))) d tr
    else mkCoordinator cl (buf ++ chunk) (Some Pending) d tr.
Proof.
  intros Hne Hfirst Hpre. unfold _ble_notification_handler. simpl.
  rewrite (bool_decide_eq_false_2 (chunk = [])) by exact Hne.
  replace (bool_decide (buf = []) && bool_decide (take 1 chunk ≠ take 1 COMMAND_PREFIX))
    with false.
  2:{ symmetry. apply andb_false_iff.
      destruct (decide (buf = [])) as [Hb|Hb].
      - right. apply bool_decide_eq_false_2. intros H. apply H, Hfirst, Hb.
      - left. now apply bool_decide_eq_false_2. }
  replace (bool_decide (2 <= length (buf ++ chunk))%nat
           && bool_decide (take 2 (buf ++ chunk) ≠ COMMAND_PREFIX)) with false.
  2:{ symmetry. apply andb_false_iff.
      destruct (decide (2 <= length (buf ++ chunk))%nat) as [Hl|Hl].
      - right. apply bool_decide_eq_false_2. intros H. apply H, Hpre, Hl.
      - left. now apply bool_decide_eq_false_2. }
  unfold _EXPECTED_STATE_BYTES. case_bool_decide; reflexivity.
Qed.

(** A chunk that leaves the accumulator with two bytes or more that are
    not the prefix resets it; nothing is emitted. *)
Lemma handler_prefix_mismatch (chunk buf : list byte) cl d tr :
  chunk ≠ [] ->
  (buf = [] -> take 1 chunk = take 1 COMMAND_PREFIX) ->
  (2 <= length (buf ++ chunk))%nat ->
  take 2 (buf ++ chunk) ≠ COMMAND_PREFIX ->
  _ble_notification_handler chunk (mkCoordinator cl buf (Some Pending) d tr)
  = mkCoordinator cl [] (Some Pending) d tr.
Proof.
  intros Hne Hfirst Hlen Hpre. unfold _ble_notification_handler. simpl.
  rewrite (bool_decide_eq_false_2 (chunk = [])) by exact Hne.
  replace (bool_decide (buf = []) && bool_decide (take 1 chunk ≠ take 1 COMMAND_PREFIX))
    with false.
  2:{ symmetry. apply andb_false_iff.
      destruct (decide (buf = [])) as [Hb|Hb].
      - right. apply bool_decide_eq_false_2. intros H. apply H, Hfirst, Hb.
      - left. now apply bool_decide_eq_false_2. }
  rewrite (bool_decide_eq_true_2 _ Hlen), (bool_decide_eq_true_2 _ Hpre).
  reflexivity.
Qed.

(** Whatever the chunk, a pending request either stays pending or is
    resolved with the whole accumulator, which then is a valid frame; the
    client handle, the decoded state and the transport are not touched. *)
Lemma handler_pending (chunk : list byte) (st : Coordinator) :
  _notify_future st = Some Pending ->
  _ble_client (_ble_notification_handler chunk st) = _ble_client st /\
  data (_ble_notification_handler chunk st) = data st /\
  transport (_ble_notification_handler chunk st) = transport st /\
  (_notify_future (_ble_notification_handler chunk st) = Some Pending \/
   _notify_future (_ble_notification_handler chunk st)
     = Some (Resolved (_notify_buffer st ++ chunk)) /\
   valid_frame (_notify_buffer st ++ chunk) /\
   _notify_buffer (_ble_notification_handler chunk st) = []).
Proof.
  intros Hf. unfold _ble_notification_handler, _EXPECTED_STATE_BYTES.
  rewrite Hf. cbn [done].
  repeat case_bool_decide; cbn [andb negb done];
    try (repeat split; auto; fail).
  all: do 3 (split; [reflexivity|]); right.
  all: split; [reflexivity|]; split; [|reflexivity]; split; [|assumption].
  all: destruct (decide (take 2 (_notify_buffer st ++ chunk) = COMMAND_PREFIX));
    [assumption|].
  all: simpl in *; first [contradiction | lia].
Qed.

(** Once the future is done (or there is none) a chunk changes nothing. *)
Lemma handler_not_waiting (chunk : list byte) (st : Coordinator) :
  future_done st = true -> _ble_notification_handler chunk st = st.
Proof.
  unfold future_done, _ble_notification_handler.
  destruct (_notify_future st) as [f|]; [|reflexivity].
  now intros ->.
Qed.

(* ------------------------------------------------------------------ *)
(** ** Reassembly of a frame from its chunks                            *)
(* ------------------------------------------------------------------ *)

Lemma feed_strays (strays : list (list byte)) cl d tr :
  Forall (fun chunk => take 1 chunk ≠ take 1 COMMAND_PREFIX) strays ->
  feed strays (mkCoordinator cl [] (Some Pending) d tr)
  = mkCoordinator cl [] (Some Pending) d tr.
Proof.
  induction 1 as [|chunk strays Hchunk _ IH]; [reflexivity|].
  unfold feed in *. simpl. now rewrite handler_stray.
Qed.

Section Reassembly.

Variable frame : list byte.
Hypothesis frame_valid : valid_frame frame.
Hypothesis frame_length : length frame = 100%nat.

(** The conditions of [handler_step] hold along a frame being fed. *)
Lemma chunk_of_frame (buf chunk rest : list byte) :
  chunk ≠ [] -> buf ++ chunk ++ rest = frame ->
  (buf = [] -> take 1 chunk = take 1 COMMAND_PREFIX) /\
  ((2 <= length (buf ++ chunk))%nat -> take 2 (buf ++ chunk) = COMMAND_PREFIX) /\
  ((100 <= length (buf ++ chunk))%nat -> rest = [] /\ buf ++ chunk = frame).
Proof.
  intros Hne Hsplit. destruct frame_valid as [Hpre _].
  split; [|split].
  - intros ->. simpl in Hsplit.
    rewrite <- (take_1_prefix chunk rest Hne), Hsplit, <- Hpre.
    now rewrite take_take.
  - intros Hlen. rewrite <- Hpre, <- Hsplit, app_assoc.
    now rewrite (take_app_le (buf ++ chunk) rest 2 Hlen).
  - intros Hlen.
    assert (rest = []) as ->.
    { apply (f_equal length) in Hsplit.
      rewrite app_assoc, length_app in Hsplit.
      destruct rest; [reflexivity | simpl in Hsplit; lia]. }
    split; [reflexivity|]. now rewrite app_nil_r in Hsplit.
Qed.

Lemma concat_nonempty_nil (chunks : list (list byte)) :
  Forall (fun chunk => chunk ≠ []) chunks -> concat chunks = [] -> chunks = [].
Proof.
  intros Hall Hnil. destruct Hall as [|chunk chunks Hne _]; [reflexivity|].
  simpl in Hnil. destruct chunk; [congruence | discriminate].
Qed.

(** Feeding the rest of a frame to the handler resolves the future with
    exactly the frame and leaves the accumulator empty. *)
Lemma feed_rest (chunks : list (list byte)) :
  Forall (fun chunk => chunk ≠ []) chunks ->
  forall buf cl d tr,
    chunks ≠ [] -> buf ++ concat chunks = frame ->
    feed chunks (mkCoordinator cl buf (Some Pending) d tr)
    = mkCoordinator cl [] (Some (Resolved frame)) d tr.
Proof.
  induction 1 as [|chunk chunks Hne Hall IH]; intros buf cl d tr Hnil Hsplit;
    [congruence|].
  simpl in Hsplit.
  destruct (chunk_of_frame buf chunk (concat chunks) Hne Hsplit)
    as (Hfirst & Hpre & Hfull).
  unfold feed in *. simpl. rewrite handler_step by assumption.
  case_bool_decide as Hlen.
  - destruct (Hfull Hlen) as [Hrest ->].
    now rewrite (concat_nonempty_nil chunks Hall Hrest).
  - apply IH.
    + intros ->. simpl in Hsplit. rewrite app_nil_r in Hsplit.
      rewrite Hsplit, frame_length in Hlen. lia.
    + now rewrite <- app_assoc.
Qed.

End Reassembly.

(* ------------------------------------------------------------------ *)
(** ** Decoding reads the first hundred bytes only                      *)
(* ------------------------------------------------------------------ *)

Lemma at_index_take (data : list byte) (n i : nat) :
  (i < n)%nat -> at_index (take n data) i = at_index data i.
Proof.
  intros Hi. unfold at_index. now rewrite !nth_lookup, lookup_take_lt.
Qed.

Lemma take_100_valid (data : list byte) :
  valid_frame data -> valid_frame (take 100 data).
Proof.
  intros [Hpre Hlen]. split.
  - rewrite take_take. exact Hpre.
  - rewrite length_take. lia.
Qed.

Lemma decoded_take_100 (data : list byte) :
  decoded (take 100 data) = decoded data.
Proof.
  unfold decoded, mode_of, field14, halfword. unfold_indices.
  now rewrite !at_index_take by lia.
Qed.

Lemma update_take_100 (data : list byte) (s : PranaState) :
  valid_frame data -> update (take 100 data) s = update data s.
Proof.
  intros Hv.
  now rewrite (update_valid _ s (take_100_valid data Hv)),
    (update_valid _ s Hv), decoded_take_100.
Qed.

(* ------------------------------------------------------------------ *)
(** ** Callbacks: what they keep and what they can change               *)
(* ------------------------------------------------------------------ *)


Lemma handler_keeps (chunk : list byte) (st : Coordinator) :
  transport (_ble_notification_handler chunk st) = transport st /\
  data (_ble_notification_handler chunk st) = data st.
Proof.
  unfold _ble_notification_handler.
  destruct (_notify_future st) as [f|]; [|now split].
  destruct (done f); [now split|]. cbn [negb].
  repeat case_bool_decide; now split.
Qed.

Lemma handle_keeps (ev : Event) (st : Coordinator) :
  transport (handle ev st) = transport st /\ data (handle ev st) = data st.
Proof.
  destruct ev as [chunk|c]; [apply handler_keeps|].
  unfold handle, _handle_ble_disconnect, _fail_pending_notification.
  case_bool_decide; simpl;
    (destruct (_notify_future st) as [f|]; [destruct (done f)|]); now split.
Qed.

Lemma run_events_cons (ev : Event) (evs : list Event) (st : Coordinator) :
  run_events (ev :: evs) st = run_events evs (handle ev st).
Proof. reflexivity. Qed.

Lemma run_events_keeps (evs : list Event) :
  forall st, transport (run_events evs st) = transport st /\
             data (run_events evs st) = data st.
Proof.
  induction evs as [|ev evs IH]; intros st; [now split|].
  rewrite run_events_cons.
  destruct (IH (handle ev st)) as [Ht Hd]. rewrite Ht, Hd.
  apply handle_keeps.
Qed.






(** The future of a request under callbacks. *)
Lemma handle_future_ok (ev : Event) (st : Coordinator) :
  future_ok st ->
  future_ok (handle ev st) /\
  transport (handle ev st) = transport st /\ data (handle ev st) = data st.
Proof.
  intros Hok. destruct ev as [chunk|c]; simpl.
  - destruct Hok as [Hp|Hdone].
    + destruct (handler_pending chunk st Hp) as (_ & Hd & Htr & [Hn|(Hr & Hv & Hb)]).
      * split; [now left | now split].
      * split; [right; left; eauto | now split].
    + rewrite handler_not_waiting; [split; [now right | now split]|].
      unfold future_done. destruct Hdone as [(f & -> & _)|(msg & -> & _)]; reflexivity.
  - unfold _handle_ble_disconnect, _fail_pending_notification.
    set (st1 := if bool_decide (_ble_client st = Some c)
                then set_ble_client None st else st).
    assert (Hf1 : _notify_future st1 = _notify_future st)
      by (unfold st1; case_bool_decide; reflexivity).
    assert (Ht1 : transport st1 = transport st)
      by (unfold st1; case_bool_decide; reflexivity).
    assert (Hd1 : data st1 = data st)
      by (unfold st1; case_bool_decide; reflexivity).
    clearbody st1. rewrite Hf1.
    destruct Hok as [Hp|[(f & Hr & Hv & Hb)|(msg & Hf & Hb)]].
    + rewrite Hp. unfold set_notify_buffer, set_notify_future. simpl.
      split; [|now split].
      right; right. eexists. split; reflexivity.
    + rewrite Hr. unfold set_notify_buffer, set_notify_future. simpl.
      split; [|now split].
      right; left. exists f. split; [simpl; congruence|].
      split; [exact Hv | reflexivity].
    + rewrite Hf. unfold set_notify_buffer, set_notify_future. simpl.
      split; [|now split].
      right; right. exists msg. split; [simpl; congruence | reflexivity].
Qed.

Lemma run_events_future_ok (evs : list Event) :
  forall st,
    future_ok st ->
    future_ok (run_events evs st) /\
    transport (run_events evs st) = transport st /\
    data (run_events evs st) = data st.
Proof.
  induction evs as [|ev evs IH]; intros st Hok; [now auto|].
  rewrite run_events_cons.
  destruct (handle_future_ok ev st Hok) as (Hok' & Htr & Hd).
  destruct (IH _ Hok') as (H1 & H2 & H3).
  split; [exact H1|]. split; congruence.
Qed.

(** Once the future is done, no callback changes it. *)
Lemma handle_done (ev : Event) (st : Coordinator) :
  future_done st = true -> _notify_future (handle ev st) = _notify_future st.
Proof.
  intros Hdone. destruct ev as [chunk|c]; simpl.
  - now rewrite handler_not_waiting.
  - unfold _handle_ble_disconnect, _fail_pending_notification, future_done in *.
    set (st1 := if bool_decide (_ble_client st = Some c)
                then set_ble_client None st else st).
    assert (Hf1 : _notify_future st1 = _notify_future st)
      by (unfold st1; case_bool_decide; reflexivity).
    clearbody st1. rewrite Hf1.
    destruct (_notify_future st) as [f|]; [rewrite Hdone|]; exact Hf1.
Qed.

Lemma run_events_done (evs : list Event) :
  forall st, future_done st = true ->
             _notify_future (run_events evs st) = _notify_future st.
Proof.
  induction evs as [|ev evs IH]; intros st Hdone; [reflexivity|].
  rewrite run_events_cons.
  pose proof (handle_done ev st Hdone) as Hf.
  rewrite IH; [exact Hf|]. unfold future_done in *. now rewrite Hf.
Qed.

Lemma future_ok_done (st : Coordinator) :
  future_ok st -> _notify_future st ≠ Some Pending -> future_done st = true.
Proof.
  unfold future_done.
  intros [Hp|[(f & -> & _)|(msg & -> & _)]] Hnp; [contradiction | reflexivity..].
Qed.

Lemma run_events_feed (chunks : list (list byte)) :
  forall st, run_events (Notification <$> chunks) st = feed chunks st.
Proof.
  induction chunks as [|chunk chunks IH]; intros st; [reflexivity|].
  rewrite fmap_cons, run_events_cons. cbn [handle].
  rewrite IH. reflexivity.
Qed.

(* ------------------------------------------------------------------ *)
(** ** Waiting for the response                                         *)
(* ------------------------------------------------------------------ *)

(** A wait that ends with the future resolved or failed by the callbacks
    in [evs] is the state those callbacks leave. *)
Lemma wait_for_completed (evs late : list Event) (st : Coordinator) :
  future_done (run_events evs st) = true ->
  wait_for evs late st = run_events evs st.
Proof. intros Hd. unfold wait_for. now rewrite Hd. Qed.

(** A wait that times out is cancelled, and stays so. *)
Lemma wait_for_timed_out (evs late : list Event) (st : Coordinator) :
  future_done (run_events evs st) = false ->
  wait_for evs late st
    = run_events late (set_notify_future (Some Cancelled) (run_events evs st)) /\
  _notify_future (wait_for evs late st) = Some Cancelled.
Proof.
  intros Hd. unfold wait_for. rewrite Hd. split; [reflexivity|].
  now rewrite run_events_done.
Qed.

(** The three ways a wait can end, with the transport and the decoded
    state as they were. *)
Lemma wait_for_future_ok (evs late : list Event) (st : Coordinator) :
  future_ok st ->
  (_notify_future (wait_for evs late st) = Some Cancelled \/
   future_ok (wait_for evs late st) /\
   _notify_future (wait_for evs late st) ≠ Some Pending) /\
  transport (wait_for evs late st) = transport st /\
  data (wait_for evs late st) = data st.
Proof.
  intros Hok.
  destruct (run_events_future_ok evs st Hok) as (Hok1 & Htr1 & Hd1).
  destruct (future_done (run_events evs st)) eqn:Hd.
  - rewrite (wait_for_completed evs late st Hd).
    split; [right; split; [exact Hok1|]|now split].
    intros Hp. unfold future_done in Hd. rewrite Hp in Hd. discriminate.
  - destruct (wait_for_timed_out evs late st Hd) as [Hw Hcan].
    split; [now left|]. rewrite Hw.
    destruct (run_events_keeps late
                (set_notify_future (Some Cancelled) (run_events evs st)))
      as [-> ->].
    now split.
Qed.



(* ------------------------------------------------------------------ *)
(** ** Invalidation, the except clauses and decoding                    *)
(* ------------------------------------------------------------------ *)

Lemma invalidate_same_client (c : client) (st : Coordinator) :
  _ble_client st = Some c ->
  _ble_client (_invalidate_client (Some c) st) = None /\
  transport (_invalidate_client (Some c) st)
    = transport st ++ [OpStopNotify c; OpDisconnect c].
Proof.
  intros Hc. unfold _invalidate_client.
  rewrite bool_decide_eq_false_2 by (intros H; apply H, Hc).
  now split.
Qed.

(** The guard of [_invalidate_client]: a stored handle other than the
    client passed in is left alone, and nothing is torn down. *)
Lemma invalidate_other_client (c : client) (st : Coordinator) :
  _ble_client st ≠ Some c -> _invalidate_client (Some c) st = st.
Proof.
  intros Hc. unfold _invalidate_client. now rewrite bool_decide_eq_true_2.
Qed.

(** Either way the client passed in is not the stored one afterwards. *)
Lemma invalidate_not_stored (c : client) (st : Coordinator) :
  _ble_client (_invalidate_client (Some c) st) ≠ Some c.
Proof.
  destruct (decide (_ble_client st = Some c)) as [Hc|Hc].
  - destruct (invalidate_same_client c st Hc) as [-> _]. discriminate.
  - now rewrite invalidate_other_client.
Qed.


Lemma fail_pending_keeps (err : CoExc) (st : Coordinator) :
  _ble_client (_fail_pending_notification err st) = _ble_client st /\
  transport (_fail_pending_notification err st) = transport st.
Proof.
  unfold _fail_pending_notification.
  destruct (_notify_future st) as [f|]; [destruct (done f)|]; now split.
Qed.

(** What an except clause does to the stored handle and the transport:
    the handle is never the request's client afterwards; it is cleared and
    the client torn down when it was the stored one, and otherwise the
    handle and the transport stay as they were. *)
Lemma except_policy (c : client) (err : CoExc) (st : Coordinator) :
  let st' := _invalidate_client (Some c) (_fail_pending_notification err st) in
  _ble_client st' ≠ Some c /\
  (_ble_client st = Some c ->
     _ble_client st' = None /\
     transport st' = transport st ++ [OpStopNotify c; OpDisconnect c]) /\
  (_ble_client st ≠ Some c ->
     _ble_client st' = _ble_client st /\ transport st' = transport st).
Proof.
  cbv zeta. destruct (fail_pending_keeps err st) as [Hk Ht].
  split; [apply invalidate_not_stored|]. split.
  - intros Hc.
    destruct (invalidate_same_client c (_fail_pending_notification err st))
      as [Hn Hops]; [congruence|].
    split; [exact Hn | congruence].
  - intros Hc. rewrite invalidate_other_client by congruence. now split.
Qed.

Lemma on_bleak_error_invalidates (c : client) (msg : string) (st : Coordinator) :
  _ble_client st = Some c ->
  fst (on_bleak_error c msg st)
    = inl (UpdateFailed ("BLE error while requesting state: " +:+ msg)) /\
  _ble_client (snd (on_bleak_error c msg st)) = None /\
  transport (snd (on_bleak_error c msg st))
    = transport st ++ [OpStopNotify c; OpDisconnect c].
Proof.
  intros Hc. split; [reflexivity|].
  exact (proj1 (proj2 (except_policy c (BleakError msg) st)) Hc).
Qed.

Lemma on_timeout_invalidates (c : client) (st : Coordinator) :
  _ble_client st = Some c ->
  _ble_client (snd (on_timeout c st)) = None /\
  transport (snd (on_timeout c st))
    = transport st ++ [OpStopNotify c; OpDisconnect c].
Proof.
  intros Hc. exact (proj1 (proj2 (except_policy c TimeoutError st)) Hc).
Qed.


Lemma decode_payload_valid (frame : list byte) (st : Coordinator) :
  valid_frame frame ->
  decode_payload frame st = (inr (decoded frame), set_data (decoded frame) st).
Proof.
  intros Hv. unfold decode_payload. now rewrite (update_valid _ _ Hv).
Qed.






(* ------------------------------------------------------------------ *)
(** ** Properties of the codec                                          *)
(* ------------------------------------------------------------------ *)

(** C1 (as the code has it): [update] raises [ValueError] (the malformed
    frame error) exactly when the first two bytes of the buffer are not the
    prefix, which covers every buffer shorter than two bytes; it returns
    normally exactly on a buffer with the prefix and at least 100 bytes;
    and on a buffer with the prefix and fewer than 100 bytes it raises
    [IndexError], not [ValueError]. *)
Theorem update_failure_kinds (data : list byte) (s : PranaState) :
  ((exists msg, fst (update data s) = inl (ValueError msg))
     <-> take 2 data ≠ COMMAND_PREFIX) /\
  (fst (update data s) = inl IndexError
     <-> take 2 data = COMMAND_PREFIX /\ (length data < 100)%nat) /\
  (fst (update data s) = inr tt
     <-> take 2 data = COMMAND_PREFIX /\ (100 <= length data)%nat).
Proof.
  destruct (decide (take 2 data = COMMAND_PREFIX)) as [Hpre|Hpre].
  - destruct (le_lt_dec 100 (length data)) as [Hlen|Hlen].
    + rewrite (update_valid data s (conj Hpre Hlen)). simpl.
      repeat split; try (intros [? ?]); try intros ?; try discriminate;
        try lia; try tauto.
    + rewrite (update_short data s Hpre Hlen).
      repeat split; try (intros [? ?]); try intros ?; try discriminate;
        try lia; try tauto.
  - rewrite (update_bad_prefix data s Hpre). simpl.
    repeat split; try (intros [? ?]); try intros ?; try discriminate;
      try tauto; eauto.
Qed.

(** C1 (counterexample to the property as specified): twelve bytes that begin with
    the prefix are shorter than 100 bytes, and [update] raises
    [IndexError] on them, which is not the malformed frame error. *)
Lemma update_short_frame_index_error :
  (length (COMMAND_PREFIX ++ replicate 10 x00) < 100)%nat /\
  fst (update (COMMAND_PREFIX ++ replicate 10 x00) PranaState_init)
    = inl IndexError /\
  (forall msg, fst (update (COMMAND_PREFIX ++ replicate 10 x00) PranaState_init)
    <> inl (ValueError msg)).
Proof.
  split; [vm_compute; lia|].
  split; [vm_compute; reflexivity|].
  intros msg. vm_compute. discriminate.
Qed.

(** C2: on a valid frame, [speed_in] and [speed_out] are the bytes at
    offsets 30 and 34 divided by ten, whatever the lock flag; [speed] is
    their maximum when [flows_locked] is false and the byte at offset 26
    divided by ten when it is true; so unlocked speeds 3 and 5 give 5. *)
Theorem update_speeds (data : list byte) (s : PranaState) :
  valid_frame data ->
  exists st, update data s = (inr tt, st) /\
    speed_in st = Some (at_index data 30 / 10) /\
    speed_out st = Some (at_index data 34 / 10) /\
    flows_locked st = Some (py_bool (at_index data 22)) /\
    (flows_locked st = Some false ->
       speed st = Some (Z.max (at_index data 30 / 10) (at_index data 34 / 10))) /\
    (flows_locked st = Some true -> speed st = Some (at_index data 26 / 10)) /\
    (flows_locked st = Some false -> speed_in st = Some 3 ->
       speed_out st = Some 5 -> speed st = Some 5).
Proof.
  intros Hv. exists (decoded data). split; [apply update_valid, Hv|].
  unfold decoded. unfold_indices. simpl.
  destruct (py_bool (at_index data 22)).
  - repeat split; intros; try discriminate; reflexivity.
  - repeat split; intros; try discriminate; try reflexivity.
    match goal with
    | Hi : Some _ = Some 3, Ho : Some _ = Some 5 |- _ =>
        injection Hi as ->; injection Ho as ->
    end.
    reflexivity.
Qed.

Lemma update_speeds_sample :
  valid_frame sample_frame /\
  exists st, update sample_frame PranaState_init = (inr tt, st) /\
    speed_in st = Some (at_index sample_frame 30 / 10) /\
    speed_out st = Some (at_index sample_frame 34 / 10) /\
    flows_locked st = Some (py_bool (at_index sample_frame 22)) /\
    (flows_locked st = Some false ->
       speed st = Some (Z.max (at_index sample_frame 30 / 10)
                              (at_index sample_frame 34 / 10))) /\
    (flows_locked st = Some true -> speed st = Some (at_index sample_frame 26 / 10)) /\
    (flows_locked st = Some false -> speed_in st = Some 3 ->
       speed_out st = Some 5 -> speed st = Some 5).
Proof.
  split; [split; [reflexivity | vm_compute; lia]|].
  apply (update_speeds sample_frame PranaState_init).
  split; [reflexivity | vm_compute; lia].
Defined.

(** C3: on a valid frame, [unpack] at each of the offsets of [temp_in],
    [temp_outside], [temp_out], [co2], [tvoc] and [pressure] is the two
    bytes there read as a big-endian signed 16-bit two's-complement
    integer and then masked with [0x3FFF], which leaves the low fourteen
    bits of the halfword (the sign is cut off); the
    temperatures are that value divided by ten, the other three the value
    itself; the halfword [00 C8] at the [temp_in] offset gives [20.0]. *)
Theorem update_masked_fields (data : list byte) (s : PranaState) :
  valid_frame data ->
  exists st, update data s = (inr tt, st) /\
    (forall key, In key [48; 51; 54; 61; 63; 77]%nat ->
       unpack data key
         = inr (Z.land (signed16 (at_index data key * 256 + at_index data (S key)))
                       0x3FFF) /\
       -32768 <= signed16 (at_index data key * 256 + at_index data (S key)) < 32768 /\
       signed16 (at_index data key * 256 + at_index data (S key)) mod 65536
         = at_index data key * 256 + at_index data (S key) /\
       field14 data key = (at_index data key * 256 + at_index data (S key)) mod 16384) /\
    temp_in st = Some (PrimFloat.div (float_of_int (field14 data 48)) 10%float) /\
    temp_outside st = Some (PrimFloat.div (float_of_int (field14 data 51)) 10%float) /\
    temp_out st = Some (PrimFloat.div (float_of_int (field14 data 54)) 10%float) /\
    co2 st = Some (field14 data 61) /\
    tvoc st = Some (field14 data 63) /\
    pressure st = Some (field14 data 77) /\
    (data !! 48%nat = Some x00 -> data !! 49%nat = Some xc8 ->
       temp_in st = Some 20%float).
Proof.
  intros Hv. exists (decoded data). split; [apply update_valid, Hv|].
  destruct Hv as [Hpre Hlen].
  split.
  { intros key Hkey.
    pose proof (signed16_spec _ (halfword_range data key)) as [Hrange Hmod].
    split; [|split; [exact Hrange|split; [exact Hmod|]]].
    - rewrite unpack_in_range; [reflexivity|].
      simpl in Hkey. intuition subst; lia.
    - unfold field14. rewrite land_signed16 by apply halfword_range.
      reflexivity. }
  unfold decoded. unfold_indices. simpl.
  repeat (split; [reflexivity|]).
  intros H48 H49. unfold field14, halfword, tenths.
  rewrite (at_index_lookup _ _ _ H48), (at_index_lookup _ _ _ H49).
  reflexivity.
Qed.

Lemma update_masked_fields_sample :
  valid_frame sample_frame /\
  exists st, update sample_frame PranaState_init = (inr tt, st) /\
    (forall key, In key [48; 51; 54; 61; 63; 77]%nat ->
       unpack sample_frame key
         = inr (Z.land (signed16 (at_index sample_frame key * 256
                                  + at_index sample_frame (S key))) 0x3FFF) /\
       -32768 <= signed16 (at_index sample_frame key * 256
                           + at_index sample_frame (S key)) < 32768 /\
       signed16 (at_index sample_frame key * 256 + at_index sample_frame (S key))
         mod 65536
         = at_index sample_frame key * 256 + at_index sample_frame (S key) /\
       field14 sample_frame key
         = (at_index sample_frame key * 256 + at_index sample_frame (S key)) mod 16384) /\
    temp_in st = Some (PrimFloat.div (float_of_int (field14 sample_frame 48)) 10%float) /\
    temp_outside st = Some (PrimFloat.div (float_of_int (field14 sample_frame 51)) 10%float) /\
    temp_out st = Some (PrimFloat.div (float_of_int (field14 sample_frame 54)) 10%float) /\
    co2 st = Some (field14 sample_frame 61) /\
    tvoc st = Some (field14 sample_frame 63) /\
    pressure st = Some (field14 sample_frame 77) /\
    (sample_frame !! 48%nat = Some x00 -> sample_frame !! 49%nat = Some xc8 ->
       temp_in st = Some 20%float).
Proof.
  split; [split; [reflexivity | vm_compute; lia]|].
  apply (update_masked_fields sample_frame PranaState_init).
  split; [reflexivity | vm_compute; lia].
Defined.

(** C4: on a valid frame the decoded brightness is 0 when the raw byte at
    offset 12 is 0 and otherwise one more than the position of its highest
    set bit, [floor(log2 raw) + 1]; a power of two [2^k], [0 <= k <= 6],
    gives [k + 1], so raw 8 gives 4 and raw 0 gives 0. *)
Theorem update_brightness (data : list byte) (s : PranaState) :
  valid_frame data ->
  exists st, update data s = (inr tt, st) /\
    (at_index data 12 = 0 -> brightness st = Some 0) /\
    (at_index data 12 <> 0 ->
       exists r, brightness st = Some r /\ r = Z.log2 (at_index data 12) + 1 /\
                 2 ^ (r - 1) <= at_index data 12 < 2 ^ r) /\
    (forall k, 0 <= k <= 6 -> at_index data 12 = 2 ^ k ->
       brightness st = Some (k + 1)) /\
    (at_index data 12 = 8 -> brightness st = Some 4).
Proof.
  intros Hv. exists (decoded data). split; [apply update_valid, Hv|].
  unfold decoded. unfold_indices. simpl. unfold int_log2_plus_1.
  pose proof (at_index_range data 12) as Hr.
  repeat split.
  - intros ->. reflexivity.
  - intros Hne. exists (Z.log2 (at_index data 12) + 1).
    destruct (Z.eqb_spec (at_index data 12) 0) as [?|_]; [contradiction|].
    split; [reflexivity|]. split; [reflexivity|].
    replace (Z.log2 (at_index data 12) + 1 - 1)
      with (Z.log2 (at_index data 12)) by lia.
    replace (Z.log2 (at_index data 12) + 1)
      with (Z.succ (Z.log2 (at_index data 12))) by lia.
    apply Z.log2_spec. lia.
  - intros k Hk ->.
    destruct (Z.eqb_spec (2 ^ k) 0) as [H0|_].
    + pose proof (Z.pow_pos_nonneg 2 k). lia.
    + now rewrite Z.log2_pow2 by lia.
  - intros ->. reflexivity.
Qed.

Lemma update_brightness_sample :
  valid_frame sample_frame /\
  exists st, update sample_frame PranaState_init = (inr tt, st) /\
    (at_index sample_frame 12 = 0 -> brightness st = Some 0) /\
    (at_index sample_frame 12 <> 0 ->
       exists r, brightness st = Some r /\
                 r = Z.log2 (at_index sample_frame 12) + 1 /\
                 2 ^ (r - 1) <= at_index sample_frame 12 < 2 ^ r) /\
    (forall k, 0 <= k <= 6 -> at_index sample_frame 12 = 2 ^ k ->
       brightness st = Some (k + 1)) /\
    (at_index sample_frame 12 = 8 -> brightness st = Some 4).
Proof.
  split; [split; [reflexivity | vm_compute; lia]|].
  apply (update_brightness sample_frame PranaState_init).
  split; [reflexivity | vm_compute; lia].
Defined.

(** C5: on a valid frame the mode is decided in a fixed order: byte 20
    equal to 1 gives auto; else byte 20 equal to 2 gives auto_plus; else
    byte 18 equal to 1 gives boost; else byte 16 equal to 1 gives night;
    else there is no mode.  An earlier test overrides all later ones. *)
Theorem update_mode_priority (data : list byte) (s : PranaState) :
  valid_frame data ->
  exists st, update data s = (inr tt, st) /\
    mode st =
      (if at_index data 20 =? 1 then Some "auto"%string
       else if at_index data 20 =? 2 then Some "auto_plus"%string
       else if at_index data 18 =? 1 then Some "boost"%string
       else if at_index data 16 =? 1 then Some "night"%string
       else None) /\
    (at_index data 20 = 1 -> mode st = Some "auto"%string) /\
    (at_index data 20 = 2 -> mode st = Some "auto_plus"%string) /\
    (at_index data 20 <> 1 -> at_index data 20 <> 2 -> at_index data 18 = 1 ->
       mode st = Some "boost"%string) /\
    (at_index data 20 <> 1 -> at_index data 20 <> 2 -> at_index data 18 <> 1 ->
       at_index data 16 = 1 -> mode st = Some "night"%string) /\
    (at_index data 20 <> 1 -> at_index data 20 <> 2 -> at_index data 18 <> 1 ->
       at_index data 16 <> 1 -> mode st = None).
Proof.
  intros Hv. exists (decoded data). split; [apply update_valid, Hv|].
  unfold decoded, mode_of. unfold_indices. simpl.
  split; [reflexivity|].
  destruct (Z.eqb_spec (at_index data 20) 1) as [E1|N1];
    [rewrite E1; repeat split; intros; congruence|].
  destruct (Z.eqb_spec (at_index data 20) 2) as [E2|N2];
    [repeat split; intros; congruence|].
  destruct (Z.eqb_spec (at_index data 18) 1) as [E3|N3];
    [repeat split; intros; congruence|].
  destruct (Z.eqb_spec (at_index data 16) 1) as [E4|N4];
    repeat split; intros; congruence.
Qed.

Lemma update_mode_priority_sample :
  valid_frame all_flags_frame /\
  exists st, update all_flags_frame PranaState_init = (inr tt, st) /\
    mode st =
      (if at_index all_flags_frame 20 =? 1 then Some "auto"%string
       else if at_index all_flags_frame 20 =? 2 then Some "auto_plus"%string
       else if at_index all_flags_frame 18 =? 1 then Some "boost"%string
       else if at_index all_flags_frame 16 =? 1 then Some "night"%string
       else None) /\
    (at_index all_flags_frame 20 = 1 -> mode st = Some "auto"%string) /\
    (at_index all_flags_frame 20 = 2 -> mode st = Some "auto_plus"%string) /\
    (at_index all_flags_frame 20 <> 1 -> at_index all_flags_frame 20 <> 2 ->
       at_index all_flags_frame 18 = 1 -> mode st = Some "boost"%string) /\
    (at_index all_flags_frame 20 <> 1 -> at_index all_flags_frame 20 <> 2 ->
       at_index all_flags_frame 18 <> 1 -> at_index all_flags_frame 16 = 1 ->
       mode st = Some "night"%string) /\
    (at_index all_flags_frame 20 <> 1 -> at_index all_flags_frame 20 <> 2 ->
       at_index all_flags_frame 18 <> 1 -> at_index all_flags_frame 16 <> 1 ->
       mode st = None).
Proof.
  split; [split; [reflexivity | vm_compute; lia]|].
  apply (update_mode_priority all_flags_frame PranaState_init).
  split; [reflexivity | vm_compute; lia].
Defined.

(** The payload of a command is the prefix followed by the integers it was
    built from, and building it succeeds whenever they are bytes. *)
Lemma bytes_of_ints_spec (command : list Z) :
  (Forall (fun x => 0 <= x < 256) command ->
     exists bs, bytes_of_ints command = inr bs) /\
  (forall bs, bytes_of_ints command = inr bs -> byte_to_Z <$> bs = command).
Proof.
  induction command as [|x r [IHok IHval]]; simpl.
  - split; [eauto|]. intros bs [= <-]. reflexivity.
  - split.
    + intros Hall. apply Forall_cons in Hall as [Hx Hr].
      destruct (IHok Hr) as [bs Hbs].
      replace ((0 <=? x) && (x <? 256)) with true by (symmetry; apply andb_true_iff; lia).
      destruct (Byte.of_N (Z.to_N x)) as [b|] eqn:Hb.
      * rewrite Hbs. simpl. eauto.
      * exfalso. pose proof (Byte.to_of_N_option_map (Z.to_N x)) as Hm.
        rewrite Hb in Hm. simpl in Hm.
        destruct (N.leb_spec (Z.to_N x) 255); [discriminate|lia].
    + intros bs. destruct ((0 <=? x) && (x <? 256)) eqn:Hx; [|discriminate].
      apply andb_true_iff in Hx as [H0 H1].
      destruct (Byte.of_N (Z.to_N x)) as [b|] eqn:Hb; [|discriminate].
      destruct (bytes_of_ints r) as [e|bs'] eqn:Hr; simpl; [discriminate|].
      intros [= <-]. simpl. f_equal.
      * unfold byte_to_Z. apply Byte.to_of_N in Hb. rewrite Hb. lia.
      * apply IHval. reflexivity.
Qed.

(** C6: for every level [1 <= L <= 10] the entry of the main, in and out
    speed tables is a command whose payload is [BE EF 04] followed by the
    byte [50 + L], [30 + L], [40 + L] respectively; the entry at level 0 is
    the toggle command ([0A], [0D], [10]); and the payload of any command
    is the prefix followed by the bytes it was built from. *)
Theorem speed_tables :
  exists main t_in t_out,
    SPEED = inr main /\ SPEED_IN = inr t_in /\ SPEED_OUT = inr t_out /\
    (forall L, 1 <= L <= 10 ->
       (exists c, main !! L = Some c /\
                  byte_to_Z <$> payload c = [0xBE; 0xEF; 0x04; 50 + L]) /\
       (exists c, t_in !! L = Some c /\
                  byte_to_Z <$> payload c = [0xBE; 0xEF; 0x04; 30 + L]) /\
       (exists c, t_out !! L = Some c /\
                  byte_to_Z <$> payload c = [0xBE; 0xEF; 0x04; 40 + L])) /\
    (exists c, main !! 0 = Some c /\ TOGGLE = inr c /\
               payload c = [xbe; xef; x04; x0a]) /\
    (exists c, t_in !! 0 = Some c /\ TOGGLE_IN = inr c /\
               payload c = [xbe; xef; x04; x0d]) /\
    (exists c, t_out !! 0 = Some c /\ TOGGLE_OUT = inr c /\
               payload c = [xbe; xef; x04; x10]) /\
    (forall command c, PranaCommand_init command = inr c ->
       byte_to_Z <$> payload c = [0xBE; 0xEF] ++ command) /\
    (forall command, Forall (fun x => 0 <= x < 256) command ->
       exists c, PranaCommand_init command = inr c).
Proof.
  pose (dict := fun r : result (gmap Z PranaCommand) =>
                  match r with inr m => m | inl _ => ∅ end).
  exists (dict SPEED), (dict SPEED_IN), (dict SPEED_OUT). subst dict.
  split; [vm_compute; reflexivity|].
  split; [vm_compute; reflexivity|].
  split; [vm_compute; reflexivity|].
  split.
  { intros L HL.
    assert (HL' : L = 1 \/ L = 2 \/ L = 3 \/ L = 4 \/ L = 5 \/ L = 6 \/ L = 7
                  \/ L = 8 \/ L = 9 \/ L = 10) by lia.
    repeat (destruct HL' as [->|HL']); try subst L;
      (split; [|split]); eexists; (split; [vm_compute; reflexivity|]);
      vm_compute; reflexivity. }
  split; [eexists; repeat split; vm_compute; reflexivity|].
  split; [eexists; repeat split; vm_compute; reflexivity|].
  split; [eexists; repeat split; vm_compute; reflexivity|].
  split.
  - intros command c. unfold PranaCommand_init.
    destruct (bytes_of_ints command) as [e|bs] eqn:Hbs; simpl; [discriminate|].
    intros [= <-]. simpl. do 2 f_equal.
    now apply bytes_of_ints_spec.
  - intros command Hall. unfold PranaCommand_init.
    destruct (proj1 (bytes_of_ints_spec command) Hall) as [bs ->].
    simpl. eauto.
Qed.

(** C10: whatever the buffer and the offset, a value returned by [unpack]
    lies in [0, 16383]; so on a valid frame [pressure], [co2] and [tvoc]
    are never negative, and neither are [temp_in], [temp_out] and
    [temp_outside]: a halfword with the sign bit set decodes to a positive
    value, so a temperature below zero has no decoded form. *)
Theorem unpack_never_negative (data : list byte) :
  (forall key v, unpack data key = inr v -> 0 <= v <= 16383) /\
  (forall key, (S key < length data)%nat ->
     exists v, unpack data key = inr v /\ 0 <= v <= 16383) /\
  (forall s, valid_frame data ->
     exists st p c v t_in t_out t_outside,
       update data s = (inr tt, st) /\
       pressure st = Some p /\ co2 st = Some c /\ tvoc st = Some v /\
       0 <= p <= 16383 /\ 0 <= c <= 16383 /\ 0 <= v <= 16383 /\
       temp_in st = Some t_in /\ temp_out st = Some t_out /\
       temp_outside st = Some t_outside /\
       PrimFloat.leb 0 t_in = true /\ PrimFloat.leb 0 t_out = true /\
       PrimFloat.leb 0 t_outside = true).
Proof.
  split; [|split].
  - intros key v. unfold unpack, unpack_from_be_h.
    destruct (data !! key) as [hi|]; [|discriminate].
    destruct (data !! S key) as [lo|]; [|discriminate].
    simpl. intros [= <-].
    pose proof (byte_to_Z_range hi). pose proof (byte_to_Z_range lo).
    rewrite land_signed16 by lia.
    pose proof (Z.mod_pos_bound (byte_to_Z hi * 256 + byte_to_Z lo) 16384). lia.
  - intros key Hkey. exists (field14 data key).
    split; [now apply unpack_in_range | apply field14_range].
  - intros s Hv.
    exists (decoded data), (field14 data 77), (field14 data 61), (field14 data 63),
      (tenths (field14 data 48)), (tenths (field14 data 54)),
      (tenths (field14 data 51)).
    split; [apply update_valid, Hv|].
    repeat (split; [first [reflexivity | apply field14_range]|]).
    repeat split; apply tenths_field_not_negative, field14_range.
Qed.

(** A frame whose halfwords at the temperature offsets have the sign bit
    set ([FF 38], which is -200 as a signed halfword). *)
Example negative_halfword_decodes_positive :
  exists st,
    update (frame_with [ (48%nat, xff); (49%nat, x38) ]) PranaState_init = (inr tt, st) /\
    temp_in st = Some 0x1.949999999999ap+10%float.
Proof. eexists. split; vm_compute; reflexivity. Qed.

(* ------------------------------------------------------------------ *)
(** ** Properties of the reassembler and of the state request           *)
(* ------------------------------------------------------------------ *)

(** C7: a valid 100-byte frame, cut into non-empty chunks in any way and
    fed in order to the handler while a request waits, resolves the
    request with exactly the frame, as feeding it whole does, so both
    decode to the same state; chunks that arrive before it on an empty
    accumulator and do not begin with [BE] are dropped with the
    accumulator left empty and change nothing. *)
Theorem reassembly_any_split (frame : list byte) (strays chunks : list (list byte))
    (c : client) (late : list Event) (st : Coordinator) cl d tr :
  valid_frame frame -> length frame = 100%nat ->
  Forall (fun chunk => chunk ≠ []) chunks -> concat chunks = frame ->
  Forall (fun chunk => take 1 chunk ≠ take 1 COMMAND_PREFIX) strays ->
  feed strays (mkCoordinator cl [] (Some Pending) d tr)
    = mkCoordinator cl [] (Some Pending) d tr /\
  feed (strays ++ chunks) (mkCoordinator cl [] (Some Pending) d tr)
    = mkCoordinator cl [] (Some (Resolved frame)) d tr /\
  feed [frame] (mkCoordinator cl [] (Some Pending) d tr)
    = mkCoordinator cl [] (Some (Resolved frame)) d tr /\
  fst (_async_request_state_locked c
         (mkEnv [] None (Notification <$> strays ++ chunks) late) st)
    = inr (decoded frame) /\
  fst (_async_request_state_locked c (mkEnv [] None [Notification frame] late) st)
    = inr (decoded frame).
Proof.
  intros Hv Hlen Hne Hcat Hstray.
  assert (Hnil : chunks ≠ []).
  { intros ->. simpl in Hcat. subst frame. simpl in Hlen. lia. }
  assert (Hframe_ne : frame ≠ []) by (intros ->; simpl in Hlen; lia).
  assert (Hwhole : Forall (fun chunk : list byte => chunk ≠ []) [frame])
    by (repeat constructor; assumption).
  assert (Hsplit : forall cl' d' tr',
            feed (strays ++ chunks) (mkCoordinator cl' [] (Some Pending) d' tr')
            = mkCoordinator cl' [] (Some (Resolved frame)) d' tr').
  { intros cl' d' tr'. unfold feed. rewrite foldl_app.
    fold (feed strays (mkCoordinator cl' [] (Some Pending) d' tr')).
    rewrite feed_strays by assumption.
    apply (feed_rest frame Hv Hlen chunks Hne); assumption. }
  assert (Hone : forall cl' d' tr',
            feed [frame] (mkCoordinator cl' [] (Some Pending) d' tr')
            = mkCoordinator cl' [] (Some (Resolved frame)) d' tr').
  { intros cl' d' tr'. apply (feed_rest frame Hv Hlen [frame] Hwhole);
      [discriminate | simpl; now rewrite app_nil_r]. }
  split; [now apply feed_strays|].
  split; [apply Hsplit|].
  split; [apply Hone|].
  destruct st as [cl0 buf0 fut0 d0 tr0].
  split.
  - unfold _async_request_state_locked.
    cbn [write_error during_write during_wait after_timeout run_events foldl].
    unfold set_notify_buffer, set_notify_future, call.
    cbn [_ble_client _notify_buffer _notify_future data transport].
    rewrite wait_for_completed; rewrite ?run_events_feed, ?Hsplit;
      [|reflexivity].
    cbn [_notify_future]. now rewrite decode_payload_valid.
  - unfold _async_request_state_locked.
    cbn [write_error during_write during_wait after_timeout run_events foldl].
    unfold set_notify_buffer, set_notify_future, call.
    cbn [_ble_client _notify_buffer _notify_future data transport].
    change [Notification frame] with (Notification <$> [frame]).
    rewrite wait_for_completed; rewrite ?run_events_feed, ?Hone;
      [|reflexivity].
    cbn [_notify_future]. now rewrite decode_payload_valid.
Qed.

Lemma reassembly_halves_sample :
  let strays := [[x00; xbe]; []] in
  let chunks := [take 50 sample_frame; drop 50 sample_frame] in
  let late := [Disconnected 1%nat] in
  let st0 := mkCoordinator (Some 1%nat) [] (Some Pending) PranaState_init [] in
  feed strays st0 = st0 /\
  feed (strays ++ chunks) st0
    = mkCoordinator (Some 1%nat) [] (Some (Resolved sample_frame)) PranaState_init [] /\
  feed [sample_frame] st0
    = mkCoordinator (Some 1%nat) [] (Some (Resolved sample_frame)) PranaState_init [] /\
  fst (_async_request_state_locked 1%nat
         (mkEnv [] None (Notification <$> strays ++ chunks) late) st0)
    = inr (decoded sample_frame) /\
  fst (_async_request_state_locked 1%nat
         (mkEnv [] None [Notification sample_frame] late) st0)
    = inr (decoded sample_frame).
Proof.
  apply (reassembly_any_split sample_frame [[x00; xbe]; []]
           [take 50 sample_frame; drop 50 sample_frame] 1%nat
           [Disconnected 1%nat]
           (mkCoordinator (Some 1%nat) [] (Some Pending) PranaState_init [])
           (Some 1%nat) PranaState_init []).
  - split; [reflexivity | vm_compute; lia].
  - reflexivity.
  - repeat (apply List.Forall_cons; [vm_compute; discriminate|]).
    apply List.Forall_nil.
  - reflexivity.
  - repeat (apply List.Forall_cons; [vm_compute; discriminate|]).
    apply List.Forall_nil.
Defined.

(** The same frame fed one byte at a time. *)
Example reassembly_single_bytes_sample :
  feed ((fun b => [b]) <$> sample_frame)
       (mkCoordinator (Some 1%nat) [] (Some Pending) PranaState_init [])
  = mkCoordinator (Some 1%nat) [] (Some (Resolved sample_frame)) PranaState_init [].
Proof. vm_compute. reflexivity. Qed.

(** C8 (as the code has it): when a non-empty chunk brings the accumulator
    of a waiting request to a hundred bytes or more and it begins with the
    prefix, the whole accumulator, surplus included, is emitted as the
    frame, and the accumulator is cleared, so no byte of it is seen by the
    next reassembly; decoding reads the first hundred bytes only, so the
    surplus does not change the decoded state. *)
Theorem handler_emits_accumulator (chunk buf : list byte) cl d tr :
  chunk ≠ [] ->
  take 2 (buf ++ chunk) = COMMAND_PREFIX ->
  (100 <= length (buf ++ chunk))%nat ->
  _ble_notification_handler chunk (mkCoordinator cl buf (Some Pending) d tr)
    = mkCoordinator cl [] (Some (Resolved (buf ++ chunk))) d tr /\
  (forall s, update (buf ++ chunk) s = update (take 100 (buf ++ chunk)) s) /\
  (forall s, update (buf ++ chunk) s = (inr tt, decoded (take 100 (buf ++ chunk)))).
Proof.
  intros Hne Hpre Hlen.
  assert (Hv : valid_frame (buf ++ chunk)) by (split; assumption).
  split; [|split].
  - rewrite handler_step; [now rewrite bool_decide_eq_true_2 | assumption | | auto].
    intros ->. simpl in Hpre. rewrite <- Hpre. now rewrite take_take.
  - intros s. symmetry. now apply update_take_100.
  - intros s. now rewrite (update_valid _ s Hv), decoded_take_100.
Qed.

Lemma handler_emits_accumulator_sample :
  _ble_notification_handler (drop 50 sample_frame ++ [x01; x02])
    (mkCoordinator (Some 1%nat) (take 50 sample_frame) (Some Pending) PranaState_init [])
    = mkCoordinator (Some 1%nat) []
        (Some (Resolved (take 50 sample_frame ++ drop 50 sample_frame ++ [x01; x02])))
        PranaState_init [] /\
  (forall s, update (take 50 sample_frame ++ drop 50 sample_frame ++ [x01; x02]) s
             = update (take 100 (take 50 sample_frame ++ drop 50 sample_frame
                                 ++ [x01; x02])) s) /\
  (forall s, update (take 50 sample_frame ++ drop 50 sample_frame ++ [x01; x02]) s
             = (inr tt, decoded (take 100 (take 50 sample_frame
                                           ++ drop 50 sample_frame ++ [x01; x02])))).
Proof.
  apply (handler_emits_accumulator (drop 50 sample_frame ++ [x01; x02])
           (take 50 sample_frame) (Some 1%nat) PranaState_init []).
  - vm_compute. discriminate.
  - reflexivity.
  - vm_compute. lia.
Defined.

(** C8 (counterexample to the property as specified): a chunk of 101 bytes on an
    empty accumulator is emitted whole, which is not its first 100 bytes. *)
Lemma handler_emits_surplus :
  _notify_future
    (_ble_notification_handler (sample_frame ++ [xff])
       (mkCoordinator (Some 1%nat) [] (Some Pending) PranaState_init []))
    = Some (Resolved (sample_frame ++ [xff])) /\
  length (sample_frame ++ [xff]) = 101%nat /\
  sample_frame ++ [xff] <> take 100 (sample_frame ++ [xff]).
Proof.
  split; [vm_compute; reflexivity|].
  split; [reflexivity|].
  intros H. apply (f_equal length) in H. vm_compute in H. discriminate.
Qed.



(** The outcomes on concrete runs: a silent transport times out and the
    session is invalidated; a payload without the prefix is surfaced as an
    invalid payload with the session as it was. *)
Example request_times_out :
  _async_request_state_locked 1%nat (mkEnv [] None [] [])
    (mkCoordinator (Some 1%nat) [] None PranaState_init [])
  = (inl (UpdateFailed "Timeout while waiting for Prana BLE state"),
     mkCoordinator None [] None PranaState_init
       [OpWrite 1%nat [xbe; xef; x05; x01; x00; x00; x00; x00; x5a];
        OpStopNotify 1%nat; OpDisconnect 1%nat]).
Proof. vm_compute. reflexivity. Qed.

Example decode_failure_keeps_session :
  decode_payload [x00; x01; x02]
    (mkCoordinator (Some 1%nat) [] None PranaState_init [])
  = (inl (UpdateFailed "Invalid state payload: Unexpected payload prefix"),
     mkCoordinator (Some 1%nat) [] None PranaState_init []).
Proof. vm_compute. reflexivity. Qed.

(** Callbacks that are queued when the wait is decided still run before
    the task resumes.  A disconnect callback after the frame is complete:
    the request returns the state and the stored handle is cleared.  A
    disconnect callback after the timeout has fired: the request raises
    the timeout, the handle is already cleared, and the guard of
    [_invalidate_client] tears nothing down. *)
Example late_disconnect_callback :
  _async_request_state_locked 1%nat
    (mkEnv [] None [Notification sample_frame; Disconnected 1%nat] [])
    (mkCoordinator (Some 1%nat) [] None PranaState_init [])
  = (inr (decoded sample_frame),
     mkCoordinator None [] None (decoded sample_frame)
       [OpWrite 1%nat request_payload]) /\
  _async_request_state_locked 1%nat (mkEnv [] None [] [Disconnected 1%nat])
    (mkCoordinator (Some 1%nat) [] None PranaState_init [])
  = (inl (UpdateFailed "Timeout while waiting for Prana BLE state"),
     mkCoordinator None [] None PranaState_init [OpWrite 1%nat request_payload]).
Proof. split; vm_compute; reflexivity. Qed.


(* ------------------------------------------------------------------ *)
(** ** Further properties of the codec                                  *)
(* ------------------------------------------------------------------ *)

(** X1: a successful [update] overwrites every attribute: the state it
    leaves depends on the frame only, not on the state before. *)
Theorem update_forgets_previous_state (data : list byte) (s1 s2 : PranaState) :
  valid_frame data ->
  update data s1 = update data s2 /\ fst (update data s1) = inr tt.
Proof.
  intros Hv. now rewrite (update_valid data s1 Hv), (update_valid data s2 Hv).
Qed.

Lemma update_forgets_previous_state_sample :
  update sample_frame PranaState_init = update sample_frame (decoded all_flags_frame) /\
  fst (update sample_frame PranaState_init) = inr tt.
Proof.
  apply (update_forgets_previous_state sample_frame PranaState_init
           (decoded all_flags_frame)).
  split; [reflexivity | vm_compute; lia].
Defined.

(** X2: [update] is not atomic.  A buffer with the prefix and between 11
    and 99 bytes raises [IndexError] after [power] has been overwritten
    from byte 10, while the attributes assigned after the read at offset
    99 keep their old values: the state is left half updated. *)
Theorem update_partial_on_short_frame (data : list byte) (s : PranaState) :
  take 2 data = COMMAND_PREFIX -> (10 < length data < 100)%nat ->
  fst (update data s) = inl IndexError /\
  power (snd (update data s)) = Some (py_bool (at_index data 10)) /\
  display (snd (update data s)) = display s /\
  humidity (snd (update data s)) = humidity s /\
  pressure (snd (update data s)) = pressure s /\
  temp_in (snd (update data s)) = temp_in s /\
  temp_outside (snd (update data s)) = temp_outside s /\
  temp_out (snd (update data s)) = temp_out s /\
  co2 (snd (update data s)) = co2 s /\
  tvoc (snd (update data s)) = tvoc s.
Proof.
  intros Hpre [H10 Hlen]. split; [apply update_short; [assumption | lia]|].
  unfold update.
  rewrite bool_decide_eq_false_2 by (intros Hne; apply Hne, Hpre).
  unfold update_speed. unfold_indices.
  rewrite (getitem_in_range data 10) by lia.
  destruct (le_lt_dec (length data) 28) as [H28|H28].
  { rewrite (getitem_out_of_range data 28) by lia.
    cbv [bind lift assign attr snd]. simpl_state. now repeat split. }
  rewrite (getitem_in_range data 28) by lia.
  destruct (le_lt_dec (length data) 32) as [H32|H32].
  { rewrite (getitem_out_of_range data 32) by lia.
    cbv [bind lift assign attr snd]. simpl_state. now repeat split. }
  rewrite (getitem_in_range data 32), (getitem_in_range data 14) by lia.
  destruct (le_lt_dec (length data) 42) as [H42|H42].
  { rewrite (getitem_out_of_range data 42) by lia.
    cbv [bind lift assign attr snd]. simpl_state. now repeat split. }
  rewrite update_mode_valid by lia.
  rewrite (getitem_in_range data 42), (getitem_in_range data 22),
    (getitem_in_range data 30), (getitem_in_range data 34),
    (getitem_in_range data 12) by lia.
  rewrite (getitem_out_of_range data 99) by lia.
  rewrite (getitem_in_range data 26) by lia.
  cbv [bind lift assign attr].
  repeat (rewrite at_index_truediv; cbv beta iota).
  unfold default, from_option; simpl_state.
  destruct (py_bool (at_index data 22));
    repeat (rewrite at_index_truediv; cbv beta iota);
    cbv [snd]; simpl_state; now repeat split.
Qed.

Lemma update_partial_on_short_frame_sample :
  fst (update (take 50 sample_frame) (decoded all_flags_frame)) = inl IndexError /\
  power (snd (update (take 50 sample_frame) (decoded all_flags_frame)))
    = Some (py_bool (at_index (take 50 sample_frame) 10)) /\
  display (snd (update (take 50 sample_frame) (decoded all_flags_frame)))
    = display (decoded all_flags_frame) /\
  humidity (snd (update (take 50 sample_frame) (decoded all_flags_frame)))
    = humidity (decoded all_flags_frame) /\
  pressure (snd (update (take 50 sample_frame) (decoded all_flags_frame)))
    = pressure (decoded all_flags_frame) /\
  temp_in (snd (update (take 50 sample_frame) (decoded all_flags_frame)))
    = temp_in (decoded all_flags_frame) /\
  temp_outside (snd (update (take 50 sample_frame) (decoded all_flags_frame)))
    = temp_outside (decoded all_flags_frame) /\
  temp_out (snd (update (take 50 sample_frame) (decoded all_flags_frame)))
    = temp_out (decoded all_flags_frame) /\
  co2 (snd (update (take 50 sample_frame) (decoded all_flags_frame)))
    = co2 (decoded all_flags_frame) /\
  tvoc (snd (update (take 50 sample_frame) (decoded all_flags_frame)))
    = tvoc (decoded all_flags_frame).
Proof.
  apply (update_partial_on_short_frame (take 50 sample_frame)
           (decoded all_flags_frame)).
  - reflexivity.
  - vm_compute. lia.
Defined.

(** The speed attributes do change on such a frame once it reaches their
    offsets: the decoded state is a mixture of old and new values. *)
Example short_frame_mixes_states :
  let st := snd (update (take 50 sample_frame) (decoded all_flags_frame)) in
  fst (update (take 50 sample_frame) (decoded all_flags_frame)) = inl IndexError /\
  speed_in st = Some 3 /\ mode st = None /\
  mode (decoded all_flags_frame) = Some "auto_plus"%string /\
  humidity st = Some (-128).
Proof. vm_compute. repeat split. Qed.

(** X3: the ranges of the decoded integers.  On a valid frame the three
    speeds lie in [0, 25], the brightness in [0, 8] and the humidity in
    [-128, 127] (the byte at offset 60 minus 128); with the flows unlocked
    [speed] is at least both [speed_in] and [speed_out]. *)
Theorem decoded_ranges (data : list byte) (s : PranaState) :
  valid_frame data ->
  exists st v v_in v_out b h,
    update data s = (inr tt, st) /\
    speed st = Some v /\ speed_in st = Some v_in /\ speed_out st = Some v_out /\
    brightness st = Some b /\ humidity st = Some h /\
    0 <= v <= 25 /\ 0 <= v_in <= 25 /\ 0 <= v_out <= 25 /\
    0 <= b <= 8 /\ h = at_index data 60 - 128 /\ -128 <= h <= 127 /\
    (flows_locked st = Some false -> v_in <= v /\ v_out <= v).
Proof.
  intros Hv.
  pose proof (at_index_range data 26) as H26.
  pose proof (at_index_range data 30) as H30.
  pose proof (at_index_range data 34) as H34.
  pose proof (at_index_range data 12) as H12.
  pose proof (at_index_range data 60) as H60.
  eexists (decoded data), _, _, _, _, _.
  split; [apply update_valid, Hv|].
  unfold decoded. unfold_indices. simpl.
  do 5 (split; [reflexivity|]).
  assert (Hdiv : forall x, 0 <= x <= 255 -> 0 <= x / 10 <= 25).
  { intros x Hx. split; [apply Z.div_pos; lia|].
    assert (x / 10 < 26) by (apply Z.div_lt_upper_bound; lia). lia. }
  pose proof (Hdiv _ H26). pose proof (Hdiv _ H30). pose proof (Hdiv _ H34).
  split; [destruct (py_bool (at_index data 22)); lia|].
  split; [lia|]. split; [lia|].
  split.
  { unfold int_log2_plus_1. destruct (Z.eqb_spec (at_index data 12) 0); [lia|].
    pose proof (Z.log2_nonneg (at_index data 12)).
    assert (Z.log2 (at_index data 12) < 8); [|lia].
    apply Z.log2_lt_pow2; [lia|]. change (2 ^ 8) with 256. lia. }
  split; [reflexivity|]. split; [lia|].
  destruct (py_bool (at_index data 22)); [discriminate|]. intros _. lia.
Qed.

Lemma decoded_ranges_sample :
  exists st v v_in v_out b h,
    update sample_frame PranaState_init = (inr tt, st) /\
    speed st = Some v /\ speed_in st = Some v_in /\ speed_out st = Some v_out /\
    brightness st = Some b /\ humidity st = Some h /\
    0 <= v <= 25 /\ 0 <= v_in <= 25 /\ 0 <= v_out <= 25 /\
    0 <= b <= 8 /\ h = at_index sample_frame 60 - 128 /\ -128 <= h <= 127 /\
    (flows_locked st = Some false -> v_in <= v /\ v_out <= v).
Proof.
  apply (decoded_ranges sample_frame PranaState_init).
  split; [reflexivity | vm_compute; lia].
Defined.

(** X4: [PranaSetCommand(b)] raises [ValueError] exactly when [b] is not a
    byte; otherwise the command has the four-byte payload [BE EF 04 b]
    and no name. *)
Theorem set_command_bytes (last_byte : Z) :
  (0 <= last_byte < 256 <->
     exists c, PranaSetCommand last_byte = inr c /\
               byte_to_Z <$> payload c = [0xBE; 0xEF; 0x04; last_byte] /\
               name c = None) /\
  (~ 0 <= last_byte < 256 <->
     PranaSetCommand last_byte = inl (ValueError "bytes must be in range(0, 256)")).
Proof.
  unfold PranaSetCommand, PranaCommand_init, SET_BYTE.
  destruct (decide (0 <= last_byte < 256)) as [Hb|Hb].
  - assert (Hall : Forall (fun x => 0 <= x < 256) [4; last_byte])
      by (repeat constructor; lia).
    destruct (proj1 (bytes_of_ints_spec [4; last_byte]) Hall) as [bs Hbs].
    pose proof (proj2 (bytes_of_ints_spec [4; last_byte]) bs Hbs) as Hval.
    rewrite Hbs. cbn [rbind]. split; split; try tauto; try discriminate.
    intros _. eexists. split; [reflexivity|]. cbn [payload name].
    split; [|reflexivity]. rewrite fmap_app, Hval. reflexivity.
  - split; split; try tauto.
    + intros (c & Hc & _). exfalso. revert Hc. simpl.
      replace ((0 <=? last_byte) && (last_byte <? 256)) with false
        by (symmetry; apply andb_false_iff; lia).
      discriminate.
    + intros _. simpl.
      replace ((0 <=? last_byte) && (last_byte <? 256)) with false
        by (symmetry; apply andb_false_iff; lia).
      reflexivity.
Qed.

(* ------------------------------------------------------------------ *)
(** ** The command tables as dictionaries                               *)
(* ------------------------------------------------------------------ *)

Lemma dict_build_lookup_notin {V : Type} (items : list (Z * result V)) :
  forall (acc m : gmap Z V) (k : Z),
    dict_build items acc = inr m -> k ∉ items.*1 -> m !! k = acc !! k.
Proof.
  induction items as [|[k' rv] items IH]; intros acc m k Hb Hk; simpl in *.
  - now injection Hb as ->.
  - destruct rv as [e|v]; simpl in Hb; [discriminate|].
    apply not_elem_of_cons in Hk as [Hne Hk].
    rewrite (IH _ _ _ Hb Hk). now apply lookup_insert_ne.
Qed.

Lemma elem_of_range (n k : Z) : k ∈ range n <-> 0 <= k < n.
Proof.
  unfold range. rewrite list_elem_of_fmap. split.
  - intros (i & -> & Hi). apply elem_of_seq in Hi. lia.
  - intros Hk. exists (Z.to_nat k). split; [lia|]. apply elem_of_seq. lia.
Qed.

Lemma range_table_keys {V : Type} (f : Z -> result V) (n : Z) :
  ((fun i => (i, f i)) <$> range n).*1 = range n.
Proof.
  rewrite <- list_fmap_compose. apply list_fmap_id.
Qed.

(** A table built over [range n] has no entry outside [0 <= k < n]. *)
Lemma range_table_outside {V : Type} (f : Z -> result V) (n : Z) (m : gmap Z V) (k : Z) :
  dict_build ((fun i => (i, f i)) <$> range n) ∅ = inr m ->
  ~ 0 <= k < n -> m !! k = None.
Proof.
  intros Hb Hk.
  rewrite (dict_build_lookup_notin _ _ _ k Hb); [apply lookup_empty|].
  rewrite range_table_keys, elem_of_range. exact Hk.
Qed.

(** X5: the keys of the tables.  The three speed tables have an entry
    exactly for the levels 0 to 10 and the brightness table exactly for 0
    to 6, where level [k] is the set command with byte [0x6E + k]; a
    lookup with [get] outside these ranges gives [None]. *)
Theorem table_domains :
  exists main t_in t_out bright,
    SPEED = inr main /\ SPEED_IN = inr t_in /\ SPEED_OUT = inr t_out /\
    BRIGHTNESS = inr bright /\
    forall k,
      (is_Some (main !! k) <-> 0 <= k <= 10) /\
      (is_Some (t_in !! k) <-> 0 <= k <= 10) /\
      (is_Some (t_out !! k) <-> 0 <= k <= 10) /\
      (is_Some (bright !! k) <-> 0 <= k <= 6) /\
      (0 <= k <= 6 ->
         exists c, bright !! k = Some c /\
                   byte_to_Z <$> payload c = [0xBE; 0xEF; 0x04; 0x6E + k]).
Proof.
  pose (dict := fun r : result (gmap Z PranaCommand) =>
                  match r with inr m => m | inl _ => ∅ end).
  exists (dict SPEED), (dict SPEED_IN), (dict SPEED_OUT), (dict BRIGHTNESS).
  assert (Hm : SPEED = inr (dict SPEED)) by (vm_compute; reflexivity).
  assert (Hi : SPEED_IN = inr (dict SPEED_IN)) by (vm_compute; reflexivity).
  assert (Ho : SPEED_OUT = inr (dict SPEED_OUT)) by (vm_compute; reflexivity).
  assert (Hb : BRIGHTNESS = inr (dict BRIGHTNESS)) by (vm_compute; reflexivity).
  do 4 (split; [assumption|]).
  intros k.
  assert (Hin : forall t,
             (t = SPEED \/ t = SPEED_IN \/ t = SPEED_OUT) ->
             is_Some (dict t !! k) <-> 0 <= k <= 10).
  { intros t Ht. split.
    - intros Hsome. destruct (decide (0 <= k < MAX_SPEED + 1)) as [Hk|Hk];
        [unfold MAX_SPEED in Hk; lia|].
      exfalso. destruct Hsome as [c Hc].
      destruct Ht as [->|[->| ->]].
      + rewrite (range_table_outside _ _ _ k Hm Hk) in Hc. discriminate.
      + rewrite (range_table_outside _ _ _ k Hi Hk) in Hc. discriminate.
      + rewrite (range_table_outside _ _ _ k Ho Hk) in Hc. discriminate.
    - intros Hk.
      assert (Hk' : k = 0 \/ k = 1 \/ k = 2 \/ k = 3 \/ k = 4 \/ k = 5 \/ k = 6
                    \/ k = 7 \/ k = 8 \/ k = 9 \/ k = 10) by lia.
      destruct Ht as [->|[->| ->]];
        repeat (destruct Hk' as [->|Hk']); try subst k;
        eexists; vm_compute; reflexivity. }
  split; [apply Hin; auto|]. split; [apply Hin; auto|]. split; [apply Hin; auto|].
  assert (Hbright : 0 <= k <= 6 ->
            exists c, dict BRIGHTNESS !! k = Some c /\
                      byte_to_Z <$> payload c = [0xBE; 0xEF; 0x04; 0x6E + k]).
  { intros Hk.
    assert (Hk' : k = 0 \/ k = 1 \/ k = 2 \/ k = 3 \/ k = 4 \/ k = 5 \/ k = 6) by lia.
    repeat (destruct Hk' as [->|Hk']); try subst k;
      eexists; (split; [vm_compute; reflexivity|]); vm_compute; reflexivity. }
  split; [|exact Hbright].
  split.
  - intros Hsome. destruct (decide (0 <= k < MAX_BRIGHTNESS + 1)) as [Hk|Hk];
      [unfold MAX_BRIGHTNESS in Hk; lia|].
    exfalso. destruct Hsome as [c Hc].
    rewrite (range_table_outside _ _ _ k Hb Hk) in Hc. discriminate.
  - intros Hk. destruct (Hbright Hk) as (c & -> & _). eauto.
Qed.

(** X6: no two commands share an encoding.  The 58 commands the module
    defines (speed tables, brightness, display, presets, switch toggles
    and the state request) have pairwise different payloads, so a payload
    on the wire determines the control and its level. *)
Theorem command_payloads_distinct :
  length all_commands = 58%nat /\ NoDup (payload <$> all_commands).
Proof.
  split; [vm_compute; reflexivity|].
  apply (bool_decide_unpack _). vm_compute. exact I.
Qed.

(* ------------------------------------------------------------------ *)
(** ** Further properties of the reassembler and of the request         *)
(* ------------------------------------------------------------------ *)

Lemma accumulator_ok_nil : accumulator_ok [].
Proof.
  split; [simpl; lia|]. split; [congruence | simpl; lia].
Qed.

Lemma handler_accumulator_ok (chunk : list byte) (st : Coordinator) :
  accumulator_ok (_notify_buffer st) ->
  accumulator_ok (_notify_buffer (_ble_notification_handler chunk st)).
Proof.
  intros (Hlen & Hfirst & Hpre).
  assert (Hsame : accumulator_ok (_notify_buffer st)) by (split; [|split]; assumption).
  unfold _ble_notification_handler, _EXPECTED_STATE_BYTES.
  destruct (_notify_future st) as [future|]; [|exact Hsame].
  destruct (done future) eqn:Hdone; [exact Hsame|].
  cbn [negb].
  repeat case_bool_decide;
    cbn [andb _notify_buffer set_notify_buffer set_notify_future] in *;
    change (length COMMAND_PREFIX) with 2%nat in *;
    try exact Hsame; try apply accumulator_ok_nil.
  all: split; [|split]; try lia.
  all: try (intros _;
            destruct (decide (_notify_buffer st = [])) as [Hb|Hb];
            [ rewrite Hb in *; simpl;
              destruct (decide (take 1 chunk = take 1 COMMAND_PREFIX));
              [assumption | contradiction]
            | rewrite take_1_prefix by assumption; now apply Hfirst ]).
  all: try (intros Hl;
            destruct (decide (take 2 (_notify_buffer st ++ chunk) = COMMAND_PREFIX));
            [assumption | simpl in *; first [contradiction | lia]]).
Qed.

(** X7: the accumulator invariant.  Whatever callbacks run, in whatever
    state of the future, the accumulator stays shorter than a frame,
    begins with [BE] when it is not empty, and begins with the full prefix
    once it holds two bytes. *)
Theorem accumulator_invariant (evs : list Event) (st : Coordinator) :
  accumulator_ok (_notify_buffer st) ->
  accumulator_ok (_notify_buffer (run_events evs st)).
Proof.
  revert st. induction evs as [|ev evs IH]; intros st Hok; [exact Hok|].
  unfold run_events in *. simpl. apply IH.
  destruct ev as [chunk|c]; simpl.
  - now apply handler_accumulator_ok.
  - apply accumulator_ok_nil.
Qed.

Lemma accumulator_invariant_sample :
  accumulator_ok
    (_notify_buffer
       (run_events [Notification [x00]; Notification (take 50 sample_frame);
                    Notification [xbe; x00]; Notification [xbe]]
          (mkCoordinator None [] (Some Pending) PranaState_init []))).
Proof.
  apply (accumulator_invariant
           [Notification [x00]; Notification (take 50 sample_frame);
            Notification [xbe; x00]; Notification [xbe]]
           (mkCoordinator None [] (Some Pending) PranaState_init [])).
  split; [simpl; lia|]. split; [simpl; congruence | simpl; lia].
Defined.

Lemma invalidate_post (c : option client) (st : Coordinator) :
  _notify_future (_invalidate_client c st) = _notify_future st /\
  _notify_buffer (_invalidate_client c st) = _notify_buffer st /\
  data (_invalidate_client c st) = data st.
Proof.
  unfold _invalidate_client.
  destruct c as [x|]; [case_bool_decide|]; simpl;
    try (destruct (_ble_client st)); now repeat split.
Qed.

Lemma invalidate_transport (c : client) (st : Coordinator) :
  transport (_invalidate_client (Some c) st) = transport st \/
  transport (_invalidate_client (Some c) st)
    = transport st ++ [OpStopNotify c; OpDisconnect c].
Proof.
  unfold _invalidate_client. case_bool_decide; simpl; auto.
Qed.

Lemma fail_pending_post (err : CoExc) (st : Coordinator) :
  _notify_buffer (_fail_pending_notification err st) = [] /\
  data (_fail_pending_notification err st) = data st.
Proof.
  unfold _fail_pending_notification.
  destruct (_notify_future st) as [f|]; [destruct (done f)|]; now split.
Qed.

(** The two [except] clauses leave no future and no accumulated bytes,
    keep the decoded state, and at most tear the client down. *)
Lemma on_bleak_error_post (c : client) (msg : string) (st : Coordinator) :
  _notify_future (snd (on_bleak_error c msg st)) = None /\
  _notify_buffer (snd (on_bleak_error c msg st)) = [] /\
  data (snd (on_bleak_error c msg st)) = data st /\
  (transport (snd (on_bleak_error c msg st)) = transport st \/
   transport (snd (on_bleak_error c msg st))
     = transport st ++ [OpStopNotify c; OpDisconnect c]).
Proof.
  unfold on_bleak_error. cbn [snd].
  set (st1 := _fail_pending_notification (BleakError msg) st).
  destruct (invalidate_post (Some c) st1) as (_ & Hb & Hd).
  destruct (fail_pending_post (BleakError msg) st) as (Hb1 & Hd1).
  destruct (fail_pending_keeps (BleakError msg) st) as (_ & Ht1).
  split; [reflexivity|].
  split; [change (_notify_buffer (_invalidate_client (Some c) st1) = []);
          now rewrite Hb|].
  split; [change (data (_invalidate_client (Some c) st1) = data st);
          now rewrite Hd|].
  change (transport (_invalidate_client (Some c) st1) = transport st \/
          transport (_invalidate_client (Some c) st1)
            = transport st ++ [OpStopNotify c; OpDisconnect c]).
  rewrite <- Ht1. apply invalidate_transport.
Qed.

Lemma on_timeout_post (c : client) (st : Coordinator) :
  _notify_future (snd (on_timeout c st)) = None /\
  _notify_buffer (snd (on_timeout c st)) = [] /\
  data (snd (on_timeout c st)) = data st /\
  (transport (snd (on_timeout c st)) = transport st \/
   transport (snd (on_timeout c st))
     = transport st ++ [OpStopNotify c; OpDisconnect c]).
Proof.
  unfold on_timeout. cbn [snd].
  set (st1 := _fail_pending_notification TimeoutError st).
  destruct (invalidate_post (Some c) st1) as (_ & Hb & Hd).
  destruct (fail_pending_post TimeoutError st) as (Hb1 & Hd1).
  destruct (fail_pending_keeps TimeoutError st) as (_ & Ht1).
  split; [reflexivity|].
  split; [change (_notify_buffer (_invalidate_client (Some c) st1) = []);
          now rewrite Hb|].
  split; [change (data (_invalidate_client (Some c) st1) = data st);
          now rewrite Hd|].
  change (transport (_invalidate_client (Some c) st1) = transport st \/
          transport (_invalidate_client (Some c) st1)
            = transport st ++ [OpStopNotify c; OpDisconnect c]).
  rewrite <- Ht1. apply invalidate_transport.
Qed.

(** Everything a request leaves behind, for any coordinator state and any
    environment. *)
Lemma request_post (c : client) (env : Env) (st : Coordinator) :
  _notify_future (snd (_async_request_state_locked c env st)) = None /\
  _notify_buffer (snd (_async_request_state_locked c env st)) = [] /\
  (transport (snd (_async_request_state_locked c env st))
     = transport st ++ [OpWrite c request_payload] \/
   transport (snd (_async_request_state_locked c env st))
     = transport st ++ [OpWrite c request_payload; OpStopNotify c; OpDisconnect c]) /\
  ((exists frame, valid_frame frame /\
      fst (_async_request_state_locked c env st) = inr (decoded frame) /\
      data (snd (_async_request_state_locked c env st)) = decoded frame) \/
   (fst (_async_request_state_locked c env st)
      = inl (UpdateFailed "Timeout while waiting for Prana BLE state") \/
    exists msg, fst (_async_request_state_locked c env st)
      = inl (UpdateFailed ("BLE error while requesting state: " +:+ msg))) /\
   data (snd (_async_request_state_locked c env st)) = data st).
Proof.
  unfold _async_request_state_locked.
  set (st1 := set_notify_buffer [] (set_notify_future (Some Pending) st)).
  assert (Hok1 : future_ok st1) by (left; reflexivity).
  destruct (run_events_future_ok (during_write env) st1 Hok1) as (Hokw & Htrw & Hdw).
  set (stw := run_events (during_write env) st1) in *.
  set (st2 := call [OpWrite c request_payload] stw).
  assert (Hok2 : future_ok st2) by exact Hokw.
  assert (Htr2 : transport st2 = transport st ++ [OpWrite c request_payload])
    by (unfold st2; simpl; now rewrite Htrw).
  assert (Hd2 : data st2 = data st) by exact Hdw.
  clearbody st2. clear Hokw Htrw Hdw Hok1. clearbody stw. clear stw st1.
  assert (Hbleak : forall msg st3,
            transport st3 = transport st ++ [OpWrite c request_payload] ->
            data st3 = data st ->
            _notify_future (snd (on_bleak_error c msg st3)) = None /\
            _notify_buffer (snd (on_bleak_error c msg st3)) = [] /\
            (transport (snd (on_bleak_error c msg st3))
               = transport st ++ [OpWrite c request_payload] \/
             transport (snd (on_bleak_error c msg st3))
               = transport st ++ [OpWrite c request_payload; OpStopNotify c;
                                  OpDisconnect c]) /\
            ((exists frame, valid_frame frame /\
                fst (on_bleak_error c msg st3) = inr (decoded frame) /\
                data (snd (on_bleak_error c msg st3)) = decoded frame) \/
             (fst (on_bleak_error c msg st3)
                = inl (UpdateFailed "Timeout while waiting for Prana BLE state") \/
              exists msg', fst (on_bleak_error c msg st3)
                = inl (UpdateFailed ("BLE error while requesting state: " +:+ msg'))) /\
             data (snd (on_bleak_error c msg st3)) = data st)).
  { intros msg st3 Htr3 Hd3.
    destruct (on_bleak_error_post c msg st3) as (Hf & Hb & Hd & Ht).
    split; [exact Hf|]. split; [exact Hb|].
    split.
    - destruct Ht as [Ht|Ht]; rewrite Ht, Htr3; [now left | right].
      now rewrite <- app_assoc.
    - right. split; [right; exists msg; reflexivity | congruence]. }
  assert (Htimeout : forall st3,
            transport st3 = transport st ++ [OpWrite c request_payload] ->
            data st3 = data st ->
            _notify_future (snd (on_timeout c st3)) = None /\
            _notify_buffer (snd (on_timeout c st3)) = [] /\
            (transport (snd (on_timeout c st3))
               = transport st ++ [OpWrite c request_payload] \/
             transport (snd (on_timeout c st3))
               = transport st ++ [OpWrite c request_payload; OpStopNotify c;
                                  OpDisconnect c]) /\
            ((exists frame, valid_frame frame /\
                fst (on_timeout c st3) = inr (decoded frame) /\
                data (snd (on_timeout c st3)) = decoded frame) \/
             (fst (on_timeout c st3)
                = inl (UpdateFailed "Timeout while waiting for Prana BLE state") \/
              exists msg', fst (on_timeout c st3)
                = inl (UpdateFailed ("BLE error while requesting state: " +:+ msg'))) /\
             data (snd (on_timeout c st3)) = data st)).
  { intros st3 Htr3 Hd3.
    destruct (on_timeout_post c st3) as (Hf & Hb & Hd & Ht).
    split; [exact Hf|]. split; [exact Hb|].
    split.
    - destruct Ht as [Ht|Ht]; rewrite Ht, Htr3; [now left | right].
      now rewrite <- app_assoc.
    - right. split; [left; reflexivity | congruence]. }
  destruct (write_error env) as [msg|]; [now apply Hbleak|].
  destruct (wait_for_future_ok (during_wait env) (after_timeout env) st2 Hok2)
    as (Hcase & Htr3 & Hd3).
  set (st3 := wait_for (during_wait env) (after_timeout env) st2) in *.
  clearbody st3.
  rewrite Htr2 in Htr3. rewrite Hd2 in Hd3.
  destruct Hcase as [Hcan|[[Hp|[(f & Hr & Hv & Hb)|(msg & Hf & Hb)]] Hnp]].
  - rewrite Hcan. now apply Htimeout.
  - contradiction.
  - rewrite Hr. rewrite (decode_payload_valid f _ Hv). cbn [fst snd].
    split; [reflexivity|]. split; [exact Hb|]. split; [left; exact Htr3|].
    left. exists f. split; [exact Hv|]. split; reflexivity.
  - rewrite Hf. now apply Hbleak.
Qed.

(** X8: the outcomes of a state request.  Whatever the coordinator state
    and whatever arrives, a request either returns the decoded state of a
    valid frame, which is then the coordinator's data, or raises
    [UpdateFailed] for a timeout or a BLE error and keeps the data it had.
    A payload that fails to decode is never surfaced: the handler only
    delivers valid frames. *)
Theorem request_outcomes (c : client) (env : Env) (st : Coordinator) :
  (exists frame, valid_frame frame /\
     fst (_async_request_state_locked c env st) = inr (decoded frame) /\
     data (snd (_async_request_state_locked c env st)) = decoded frame) \/
  (fst (_async_request_state_locked c env st)
     = inl (UpdateFailed "Timeout while waiting for Prana BLE state") \/
   exists msg, fst (_async_request_state_locked c env st)
     = inl (UpdateFailed ("BLE error while requesting state: " +:+ msg))) /\
  data (snd (_async_request_state_locked c env st)) = data st.
Proof. exact (proj2 (proj2 (proj2 (request_post c env st)))). Qed.

(** X9: what a state request leaves behind.  In every case the future
    slot is empty again and the accumulator is empty, and the transport
    has seen exactly one write of the request payload on the client,
    followed either by nothing or by the teardown of that client. *)
Theorem request_cleanup (c : client) (env : Env) (st : Coordinator) :
  _notify_future (snd (_async_request_state_locked c env st)) = None /\
  _notify_buffer (snd (_async_request_state_locked c env st)) = [] /\
  (transport (snd (_async_request_state_locked c env st))
     = transport st ++ [OpWrite c request_payload] \/
   transport (snd (_async_request_state_locked c env st))
     = transport st ++ [OpWrite c request_payload; OpStopNotify c; OpDisconnect c]).
Proof.
  destruct (request_post c env st) as (H1 & H2 & H3 & _). now repeat split.
Qed.



(* ------------------------------------------------------------------ *)
(** ** Connecting, polling and shutting down                            *)
(* ------------------------------------------------------------------ *)

Lemma open_session_post (address : string) (env : ConnEnv) (st : Coordinator) :
  _ble_client st = None ->
  (forall c, fst (open_session address env st) = inr c ->
     _ble_client (snd (open_session address env st)) = Some c /\
     established env = inr c /\
     _notify_buffer (snd (open_session address env st)) = [] /\
     transport (snd (open_session address env st)) = transport st) /\
  (forall e, fst (open_session address env st) = inl e ->
     (exists msg, e = BleakError msg) /\
     _ble_client (snd (open_session address env st)) = None /\
     (forall nc, device_found env = true -> established env = inr nc ->
        transport (snd (open_session address env st))
          = transport st ++ [OpStopNotify nc; OpDisconnect nc])) /\
  data (snd (open_session address env st)) = data st /\
  _notify_future (snd (open_session address env st)) = _notify_future st.
Proof.
  intros Hnone. unfold open_session.
  destruct (device_found env); simpl.
  2:{ split; [intros c; discriminate|].
      split; [|now split].
      intros e [= <-]. split; [eauto|]. split; [exact Hnone|].
      intros nc; discriminate. }
  destruct (established env) as [msg|nc]; simpl.
  { split; [intros c; discriminate|].
    split; [|now split].
    intros e [= <-]. split; [eauto|]. split; [reflexivity|].
    intros nc _; discriminate. }
  destruct (start_notify_error env) as [msg|]; simpl.
  - split; [intros c; discriminate|].
    split; [|now split].
    intros e [= <-]. split; [eauto|]. split; [reflexivity|].
    now intros nc' _ [= ->].
  - split; [|split; [intros e; discriminate | now split]].
    now intros c [= ->].
Qed.

(** What [_ensure_client] guarantees with an address configured. *)
Lemma ensure_client_facts (address : string) (env : ConnEnv) (st : Coordinator) :
  address ≠ EmptyString ->
  (forall c, fst (_ensure_client address env st) = inr c ->
     _ble_client (snd (_ensure_client address env st)) = Some c /\
     ((_ble_client st = Some c /\ is_connected env c = true /\
       snd (_ensure_client address env st) = st) \/
      (established env = inr c /\
       _notify_buffer (snd (_ensure_client address env st)) = []))) /\
  (forall e, fst (_ensure_client address env st) = inl e ->
     (exists msg, e = BleakError msg) /\
     _ble_client (snd (_ensure_client address env st)) = None /\
     (forall nc, device_found env = true -> established env = inr nc ->
        exists ops, transport (snd (_ensure_client address env st))
                    = transport st ++ ops ++ [OpStopNotify nc; OpDisconnect nc])) /\
  (forall c0, _ble_client st = Some c0 -> is_connected env c0 = false ->
     exists ops, transport (snd (_ensure_client address env st))
                 = transport st ++ OpDisconnect c0 :: ops) /\
  data (snd (_ensure_client address env st)) = data st /\
  _notify_future (snd (_ensure_client address env st)) = _notify_future st.
Proof.
  intros Haddr. unfold _ensure_client.
  rewrite bool_decide_eq_false_2 by exact Haddr.
  destruct (_ble_client st) as [c0|] eqn:Hcl.
  - destruct (is_connected env c0) eqn:Hconn.
    + simpl. split; [|split; [|split; [|now split]]].
      * intros c [= ->]. split; [exact Hcl|]. now left.
      * intros e; discriminate.
      * intros c0' [= <-]. congruence.
    + set (st1 := set_ble_client None (call [OpDisconnect c0] st)).
      assert (Hn1 : _ble_client st1 = None) by reflexivity.
      destruct (open_session_post address env st1 Hn1) as (Hok & Herr & Hd & Hf).
      split; [|split; [|split; [|split]]].
      * intros c Hc. destruct (Hok c Hc) as (H1 & H2 & H3 & _).
        split; [exact H1|]. right. now split.
      * intros e He. destruct (Herr e He) as (H1 & H2 & H3).
        split; [exact H1|]. split; [exact H2|].
        intros nc Hdev Hest. exists [OpDisconnect c0].
        rewrite (H3 nc Hdev Hest). unfold st1. simpl.
        now rewrite <- app_assoc.
      * intros c0' [= <-] _.
        destruct (fst (open_session address env st1)) as [e|c] eqn:Hr.
        -- destruct (Herr e eq_refl) as (_ & _ & H3).
           destruct (device_found env) eqn:Hdev.
           ++ destruct (established env) as [msg|nc] eqn:Hest.
              ** exists []. unfold open_session. rewrite Hdev, Hest. reflexivity.
              ** exists [OpStopNotify nc; OpDisconnect nc].
                 rewrite (H3 nc eq_refl eq_refl). unfold st1. simpl.
                 now rewrite <- app_assoc.
           ++ exists []. unfold open_session. rewrite Hdev. reflexivity.
        -- destruct (Hok c eq_refl) as (_ & _ & _ & H4).
           exists []. rewrite H4. reflexivity.
      * exact Hd.
      * exact Hf.
  - assert (Hn : _ble_client st = None) by exact Hcl.
    destruct (open_session_post address env st Hn) as (Hok & Herr & Hd & Hf).
    split; [|split; [|split; [|split]]].
    + intros c Hc. destruct (Hok c Hc) as (H1 & H2 & H3 & _).
      split; [exact H1|]. right. now split.
    + intros e He. destruct (Herr e He) as (H1 & H2 & H3).
      split; [exact H1|]. split; [exact H2|].
      intros nc Hdev Hest. exists []. now rewrite (H3 nc Hdev Hest).
    + intros c0 [=].
    + exact Hd.
    + exact Hf.
Qed.

(** X11: [_ensure_client] never returns a client that is not the stored
    one, and never leaves a handle behind when it fails.  With an address
    configured: on success the stored handle is the returned client,
    either the connected one that was stored (nothing else changes) or
    the newly established one (the accumulator is then empty); every
    failure is a [BleakError] with the stored handle cleared, and a client
    that was already established is released ([stop_notify], then
    [disconnect]).  A stored client that is no longer connected is
    disconnected first.  The decoded state and the future are untouched. *)
Theorem ensure_client_post (address : string) (env : ConnEnv) (st : Coordinator) :
  address ≠ EmptyString ->
  (forall c, fst (_ensure_client address env st) = inr c ->
     _ble_client (snd (_ensure_client address env st)) = Some c /\
     ((_ble_client st = Some c /\ is_connected env c = true /\
       snd (_ensure_client address env st) = st) \/
      (established env = inr c /\
       _notify_buffer (snd (_ensure_client address env st)) = []))) /\
  (forall e, fst (_ensure_client address env st) = inl e ->
     (exists msg, e = BleakError msg) /\
     _ble_client (snd (_ensure_client address env st)) = None /\
     (forall nc, device_found env = true -> established env = inr nc ->
        exists ops, transport (snd (_ensure_client address env st))
                    = transport st ++ ops ++ [OpStopNotify nc; OpDisconnect nc])) /\
  (forall c0, _ble_client st = Some c0 -> is_connected env c0 = false ->
     exists ops, transport (snd (_ensure_client address env st))
                 = transport st ++ OpDisconnect c0 :: ops) /\
  data (snd (_ensure_client address env st)) = data st /\
  _notify_future (snd (_ensure_client address env st)) = _notify_future st.
Proof. exact (ensure_client_facts address env st). Qed.

Lemma ensure_client_post_sample :
  let env := mkConnEnv (fun _ => false) true (inr 2%nat) (Some "no notify"%string) in
  let st := mkCoordinator (Some 1%nat) [xbe] None PranaState_init [] in
  (forall c, fst (_ensure_client "AA:BB" env st) = inr c ->
     _ble_client (snd (_ensure_client "AA:BB" env st)) = Some c /\
     ((_ble_client st = Some c /\ is_connected env c = true /\
       snd (_ensure_client "AA:BB" env st) = st) \/
      (established env = inr c /\
       _notify_buffer (snd (_ensure_client "AA:BB" env st)) = []))) /\
  (forall e, fst (_ensure_client "AA:BB" env st) = inl e ->
     (exists msg, e = BleakError msg) /\
     _ble_client (snd (_ensure_client "AA:BB" env st)) = None /\
     (forall nc, device_found env = true -> established env = inr nc ->
        exists ops, transport (snd (_ensure_client "AA:BB" env st))
                    = transport st ++ ops ++ [OpStopNotify nc; OpDisconnect nc])) /\
  (forall c0, _ble_client st = Some c0 -> is_connected env c0 = false ->
     exists ops, transport (snd (_ensure_client "AA:BB" env st))
                 = transport st ++ OpDisconnect c0 :: ops) /\
  data (snd (_ensure_client "AA:BB" env st)) = data st /\
  _notify_future (snd (_ensure_client "AA:BB" env st)) = _notify_future st.
Proof.
  apply (ensure_client_post "AA:BB"
           (mkConnEnv (fun _ => false) true (inr 2%nat) (Some "no notify"%string))
           (mkCoordinator (Some 1%nat) [xbe] None PranaState_init [])).
  discriminate.
Defined.

(** A stale client is dropped and the new one released when subscribing
    fails: the whole run on concrete values. *)
Example ensure_client_releases_sample :
  _ensure_client "AA:BB"
    (mkConnEnv (fun _ => false) true (inr 2%nat) (Some "no notify"%string))
    (mkCoordinator (Some 1%nat) [xbe] None PranaState_init [])
  = (inl (BleakError "no notify"),
     mkCoordinator None [xbe] None PranaState_init
       [OpDisconnect 1%nat; OpStopNotify 2%nat; OpDisconnect 2%nat]).
Proof. vm_compute. reflexivity. Qed.

(** X12: [async_shutdown] releases the session and is idempotent.  After
    it the stored handle is cleared and the accumulator is empty; a
    pending request is failed with the BLE error "Coordinator shutdown"; a
    stored client is torn down, and without one the transport is not
    touched; shutting down again changes nothing. *)
Theorem shutdown_releases (st : Coordinator) :
  _ble_client (async_shutdown st) = None /\
  _notify_buffer (async_shutdown st) = [] /\
  (_notify_future st = Some Pending ->
     _notify_future (async_shutdown st)
       = Some (Failed (BleakError "Coordinator shutdown"))) /\
  (forall f, _notify_future st = Some f -> done f = true ->
     _notify_future (async_shutdown st) = Some f) /\
  (forall c, _ble_client st = Some c ->
     transport (async_shutdown st) = transport st ++ [OpStopNotify c; OpDisconnect c]) /\
  (_ble_client st = None -> transport (async_shutdown st) = transport st) /\
  data (async_shutdown st) = data st /\
  async_shutdown (async_shutdown st) = async_shutdown st.
Proof.
  destruct st as [cl buf fut d tr].
  unfold async_shutdown, _invalidate_client, _fail_pending_notification.
  destruct cl as [c|]; destruct fut as [[| | |]|]; simpl.
  all: split; [reflexivity|]; split; [reflexivity|].
  all: split; [first [reflexivity | discriminate]|].
  all: split; [intros f Hf Hd;
               first [ discriminate Hf
                     | injection Hf as <-; first [discriminate Hd | reflexivity] ]|].
  all: split; [intros c' Hc'; first [discriminate | now injection Hc' as ->]|].
  all: split; [first [discriminate | reflexivity]|].
  all: split; reflexivity.
Qed.
(* ------------------------------------------------------------------ *)
(** ** Polling and sending                                              *)
(* ------------------------------------------------------------------ *)



(** A poll that receives half a frame: it times out, the new client is
    torn down, and the data stay as they were. *)
Example poll_times_out_on_half_a_frame :
  _async_update_data "AA:BB" (mkConnEnv (fun _ => true) true (inr 2%nat) None) id
    (mkEnv [] None [Notification (take 50 sample_frame)] [])
    (mkCoordinator None [] None PranaState_init [])
  = (inl (UpdateFailed "Timeout while waiting for Prana BLE state"),
     mkCoordinator None [] None PranaState_init
       [OpWrite 2%nat request_payload; OpStopNotify 2%nat; OpDisconnect 2%nat]).
Proof. vm_compute. reflexivity. Qed.

(** A poll that finds client 1 connected and then waits for the operation
    lock while another task replaces the session by client 3: the request
    is written to client 1, times out, and the guard of
    [_invalidate_client] leaves client 3 stored and tears nothing down. *)
Example poll_keeps_newer_client :
  _async_update_data "AA:BB" (mkConnEnv (fun _ => true) true (inr 2%nat) None)
    (set_ble_client (Some 3%nat)) (mkEnv [] None [] [])
    (mkCoordinator (Some 1%nat) [] None PranaState_init [])
  = (inl (UpdateFailed "Timeout while waiting for Prana BLE state"),
     mkCoordinator (Some 3%nat) [] None PranaState_init
       [OpWrite 1%nat request_payload]).
Proof. vm_compute. reflexivity. Qed.



(** Sending on a connected client: one write of the payload; a write that
    fails tears the client down; and a write that fails on a client that
    was replaced while the task waited for the operation lock leaves the
    newer client stored. *)
Example send_command_sample :
  async_send_command "AA:BB" (mkConnEnv (fun _ => true) true (inr 2%nat) None) id
    (mkCommand [xbe; xef; x04; x33] None) [] None
    (mkCoordinator (Some 1%nat) [] None PranaState_init [])
  = (inr tt, mkCoordinator (Some 1%nat) [] None PranaState_init
               [OpWrite 1%nat [xbe; xef; x04; x33]]) /\
  async_send_command "AA:BB" (mkConnEnv (fun _ => true) true (inr 2%nat) None) id
    (mkCommand [xbe; xef; x04; x33] None) [] (Some "gone"%string)
    (mkCoordinator (Some 1%nat) [] None PranaState_init [])
  = (inl (UpdateFailed "BLE error while sending command: gone"),
     mkCoordinator None [] None PranaState_init
       [OpWrite 1%nat [xbe; xef; x04; x33]; OpStopNotify 1%nat; OpDisconnect 1%nat]) /\
  async_send_command "AA:BB" (mkConnEnv (fun _ => true) true (inr 2%nat) None)
    (set_ble_client (Some 3%nat))
    (mkCommand [xbe; xef; x04; x33] None) [] (Some "gone"%string)
    (mkCoordinator (Some 1%nat) [] None PranaState_init [])
  = (inl (UpdateFailed "BLE error while sending command: gone"),
     mkCoordinator (Some 3%nat) [] None PranaState_init
       [OpWrite 1%nat [xbe; xef; x04; x33]]).
Proof. repeat split; vm_compute; reflexivity. Qed.

(* ------------------------------------------------------------------ *)
(** ** The fan entity                                                   *)
(* ------------------------------------------------------------------ *)

Lemma all_counts_spec (p : Z -> Z -> bool) (n : nat) (lo : Z) :
  all_counts p n lo = true ->
  forall count u, 1 <= count <= 10 -> lo <= u < lo + Z.of_nat n -> p count u = true.
Proof.
  unfold all_counts. cbn [forallb]. intros Hall count u Hc Hu.
  repeat (apply andb_true_iff in Hall as [?H Hall]).
  assert (Hcases : count = 1 \/ count = 2 \/ count = 3 \/ count = 4 \/ count = 5
                   \/ count = 6 \/ count = 7 \/ count = 8 \/ count = 9 \/ count = 10)
    by lia.
  repeat (destruct Hcases as [->|Hcases]); try subst count;
    eapply all_from_spec; eauto.
Qed.

Lemma percentage_checked (count speed : Z) :
  1 <= count <= 10 -> 0 <= speed <= 25 -> percentage_check count speed = true.
Proof.
  intros Hc Hs.
  assert (Hall : all_counts percentage_check 26 0 = true) by (vm_compute; reflexivity).
  apply (all_counts_spec _ _ _ Hall); lia.
Qed.

Lemma level_checked (count pct : Z) :
  1 <= count <= 10 -> 1 <= pct <= 100 -> level_check count pct = true.
Proof.
  intros Hc Hp.
  assert (Hall : all_counts level_check 100 1 = true) by (vm_compute; reflexivity).
  apply (all_counts_spec _ _ _ Hall); lia.
Qed.

Lemma round_trip_checked (count level : Z) :
  1 <= count <= 10 -> 0 <= level <= 10 -> round_trip_check count level = true.
Proof.
  intros Hc Hl.
  assert (Hall : all_counts round_trip_check 11 0 = true) by (vm_compute; reflexivity).
  apply (all_counts_spec _ _ _ Hall); lia.
Qed.

(** The level does not depend on the key or the table of the entity, and
    a percentage above 100 counts as 100. *)
Lemma percentage_to_level_count (self : PranaFanEntity) (pct : Z) :
  _percentage_to_level self pct = level_of_percentage (_attr_speed_count self) pct.
Proof. reflexivity. Qed.

Lemma level_of_percentage_clamped (count pct : Z) :
  100 <= pct -> level_of_percentage count pct = level_of_percentage count 100.
Proof.
  intros Hp. unfold level_of_percentage, _percentage_to_level. cbn [_attr_speed_count].
  replace (pct <=? 0) with false by (symmetry; apply Z.leb_gt; lia).
  replace (100 <=? 0) with false by reflexivity.
  now replace (Z.max 0 (Z.min pct 100)) with (Z.max 0 (Z.min 100 100)) by lia.
Qed.

(** The attribute a fan reads, for the three keys. *)
Lemma fan_speed_attribute (table : gmap Z PranaCommand) (count : Z) (s : PranaState) :
  _current_speed_level (mkFan EmptyString table count) s = inr (py_opt VInt (speed s)) /\
  _current_speed_level (mkFan "in" table count) s = inr (py_opt VInt (speed_in s)) /\
  _current_speed_level (mkFan "out" table count) s = inr (py_opt VInt (speed_out s)) /\
  is_on (mkFan EmptyString table count) s = inr (py_opt VBool (power s)) /\
  is_on (mkFan "in" table count) s = inr (py_opt VBool (power_in s)) /\
  is_on (mkFan "out" table count) s = inr (py_opt VBool (power_out s)).
Proof. repeat split. Qed.

Lemma percentage_unfold (self : PranaFanEntity) (s : PranaState) (v : Z) :
  _current_speed_level self s = inr (VInt v) -> 1 <= _attr_speed_count self ->
  percentage self s =
    match percentage_of_level (_attr_speed_count self) v with
    | inl e => inl (Py e)
    | inr p => inr (Some p)
    end.
Proof.
  intros Hv Hc. unfold percentage, percentage_of_level. rewrite Hv.
  replace (_attr_speed_count self <=? 0) with false by (symmetry; apply Z.leb_gt; lia).
  destruct (py_round _); reflexivity.
Qed.

(** X15: the percentage of a fan.  For a decoded speed level [v] between
    0 and 25 (the range [update] gives) and a speed count of at most 10,
    [percentage] is an integer from 0 to 100; with a count of 0 or less it
    is 0, so the division by the count is never a division by zero; with a
    count from 1 on it is 0 exactly for level 0 and 100 for every level at
    or above the count. *)
Theorem percentage_range (self : PranaFanEntity) (s : PranaState) (v : Z) :
  _current_speed_level self s = inr (VInt v) ->
  _attr_speed_count self <= 10 -> 0 <= v <= 25 ->
  exists p, percentage self s = inr (Some p) /\ 0 <= p <= 100 /\
            (_attr_speed_count self <= 0 -> p = 0) /\
            (1 <= _attr_speed_count self ->
               (p = 0 <-> v = 0) /\ (_attr_speed_count self <= v -> p = 100)).
Proof.
  intros Hv Hc Hr.
  destruct (Z.le_gt_cases (_attr_speed_count self) 0) as [Hz|Hpos].
  - exists 0. unfold percentage. rewrite Hv.
    replace (_attr_speed_count self <=? 0) with true by (symmetry; apply Z.leb_le; lia).
    split; [reflexivity|]. split; [lia|]. split; [reflexivity | lia].
  - rewrite (percentage_unfold self s v Hv) by lia.
    assert (Hc' : 1 <= _attr_speed_count self <= 10) by lia.
    pose proof (percentage_checked _ v Hc' Hr) as Hchk.
    unfold percentage_check in Hchk.
    destruct (percentage_of_level (_attr_speed_count self) v) as [e|p];
      [discriminate|].
    apply andb_true_iff in Hchk as [Hchk H4].
    apply andb_true_iff in Hchk as [Hchk H3].
    apply andb_true_iff in Hchk as [H1 H2].
    exists p. split; [reflexivity|]. split; [lia|]. split; [lia|].
    intros _. split.
    + apply Bool.eqb_prop in H3. split; intros Hz.
      * apply Z.eqb_eq. rewrite <- H3. now apply Z.eqb_eq.
      * apply Z.eqb_eq. rewrite H3. now apply Z.eqb_eq.
    + intros Hge. destruct (Z.leb_spec (_attr_speed_count self) v); [|lia].
      simpl in H4. now apply Z.eqb_eq.
Qed.

Lemma percentage_range_sample :
  exists p, percentage (mkFan "in" ∅ 5) (decoded sample_frame) = inr (Some p) /\
            0 <= p <= 100 /\
            (_attr_speed_count (mkFan "in" ∅ 5) <= 0 -> p = 0) /\
            (1 <= _attr_speed_count (mkFan "in" ∅ 5) ->
               (p = 0 <-> 3 = 0) /\ (_attr_speed_count (mkFan "in" ∅ 5) <= 3 -> p = 100)).
Proof.
  apply (percentage_range (mkFan "in" ∅ 5) (decoded sample_frame) 3).
  - reflexivity.
  - simpl. lia.
  - lia.
Defined.

Example percentage_of_sample :
  percentage (mkFan "in" ∅ 5) (decoded sample_frame) = inr (Some 60) /\
  percentage (mkFan "out" ∅ 5) (decoded sample_frame) = inr (Some 100) /\
  percentage (mkFan EmptyString ∅ 3) (decoded sample_frame) = inr (Some 100) /\
  percentage (mkFan EmptyString ∅ 5) PranaState_init = inr None.
Proof. vm_compute. repeat split. Qed.

Lemma level_of_percentage_range (count pct : Z) :
  1 <= count <= 10 -> 1 <= pct ->
  exists level, level_of_percentage count pct = inr level /\ 1 <= level <= count.
Proof.
  intros Hc Hp.
  assert (Hgoal : forall q, 1 <= q <= 100 ->
            exists level, level_of_percentage count q = inr level /\
                          1 <= level <= count).
  { intros q Hq. pose proof (level_checked count q Hc Hq) as Hchk.
    unfold level_check in Hchk.
    destruct (level_of_percentage count q) as [e|level]; [discriminate|].
    apply andb_true_iff in Hchk as [Hchk _].
    apply andb_true_iff in Hchk as [H1 H2].
    exists level. split; [reflexivity | lia]. }
  destruct (Z.le_gt_cases pct 100) as [Hle|Hgt].
  - apply Hgoal. lia.
  - rewrite level_of_percentage_clamped by lia. apply Hgoal. lia.
Qed.

Example py_round_half_even :
  py_round 0.5%float = inr 0 /\ py_round 1.5%float = inr 2 /\
  py_round 2.5%float = inr 2 /\ py_round (-2.5)%float = inr (-2) /\
  py_round 0.75%float = inr 1 /\ py_round 60%float = inr 60.
Proof. vm_compute. repeat split. Qed.

(** X16: the level of a percentage.  For a speed count from 0 to 10,
    [_percentage_to_level] gives level 0 for a percentage of 0 or less and
    for a count of 0; for a positive percentage (also above 100) and a
    positive count it gives a level from 1 to the count, which is the
    count itself from 100 on. *)
Theorem percentage_to_level_range (self : PranaFanEntity) (pct : Z) :
  0 <= _attr_speed_count self <= 10 ->
  exists level,
    _percentage_to_level self pct = inr level /\
    (pct <= 0 \/ _attr_speed_count self = 0 -> level = 0) /\
    (1 <= pct -> 1 <= _attr_speed_count self ->
       1 <= level <= _attr_speed_count self /\
       (100 <= pct -> level = _attr_speed_count self)).
Proof.
  intros Hc.
  destruct (decide (pct <= 0 \/ _attr_speed_count self = 0)) as [Hz|Hnz].
  - exists 0. split; [|split; [reflexivity | lia]].
    unfold _percentage_to_level.
    replace ((pct <=? 0) || (_attr_speed_count self =? 0)) with true; [reflexivity|].
    symmetry. apply orb_true_iff.
    destruct Hz; [left; apply Z.leb_le | right; apply Z.eqb_eq]; assumption.
  - assert (Hc' : 1 <= _attr_speed_count self <= 10) by lia.
    rewrite percentage_to_level_count.
    assert (Hgoal : forall q, 1 <= q <= 100 ->
              exists level, level_of_percentage (_attr_speed_count self) q = inr level /\
                            1 <= level <= _attr_speed_count self /\
                            (100 <= q -> level = _attr_speed_count self)).
    { intros q Hq. pose proof (level_checked _ q Hc' Hq) as Hchk.
      unfold level_check in Hchk.
      destruct (level_of_percentage (_attr_speed_count self) q) as [e|level];
        [discriminate|].
      apply andb_true_iff in Hchk as [Hchk H3].
      apply andb_true_iff in Hchk as [H1 H2].
      exists level. split; [reflexivity|]. split; [lia|].
      intros Hq'. assert (q = 100) as -> by lia. simpl in H3.
      now apply Z.eqb_eq. }
    destruct (Z.le_gt_cases pct 100) as [Hle|Hgt].
    + destruct (Hgoal pct) as (level & H1 & H2 & H3); [lia|].
      exists level. split; [exact H1|]. split; [intros Hz; tauto|].
      intros _ _. split; [exact H2 | exact H3].
    + rewrite level_of_percentage_clamped by lia.
      destruct (Hgoal 100) as (level & H1 & H2 & H3); [lia|].
      exists level. split; [exact H1|]. split; [intros Hz; tauto|].
      intros _ _. split; [exact H2|]. intros _. apply H3. lia.
Qed.

Lemma percentage_to_level_range_sample :
  exists level,
    _percentage_to_level (mkFan EmptyString ∅ 5) 250 = inr level /\
    (250 <= 0 \/ _attr_speed_count (mkFan EmptyString ∅ 5) = 0 -> level = 0) /\
    (1 <= 250 -> 1 <= _attr_speed_count (mkFan EmptyString ∅ 5) ->
       1 <= level <= _attr_speed_count (mkFan EmptyString ∅ 5) /\
       (100 <= 250 -> level = _attr_speed_count (mkFan EmptyString ∅ 5))).
Proof.
  apply (percentage_to_level_range (mkFan EmptyString ∅ 5) 250). simpl. lia.
Defined.

(** X17: level, percentage and back.  For a speed count from 1 to 10 and
    a decoded level between 0 and the count, the percentage the entity
    reports is mapped back to the same level by [_percentage_to_level]:
    setting the reported percentage does not change the speed. *)
Theorem level_percentage_round_trip (self : PranaFanEntity) (s : PranaState) (level : Z) :
  1 <= _attr_speed_count self <= 10 ->
  0 <= level <= _attr_speed_count self ->
  _current_speed_level self s = inr (VInt level) ->
  exists p, percentage self s = inr (Some p) /\
            _percentage_to_level self p = inr level.
Proof.
  intros Hc Hl Hv.
  rewrite (percentage_unfold self s level Hv) by lia.
  assert (Hchk : round_trip_check (_attr_speed_count self) level = true)
    by (apply round_trip_checked; lia).
  unfold round_trip_check in Hchk.
  replace (level <=? _attr_speed_count self) with true in Hchk
    by (symmetry; apply Z.leb_le; lia).
  simpl in Hchk.
  destruct (percentage_of_level (_attr_speed_count self) level) as [e|p];
    [discriminate|].
  exists p. split; [reflexivity|].
  rewrite percentage_to_level_count.
  destruct (level_of_percentage (_attr_speed_count self) p) as [e|level'];
    [discriminate|].
  apply Z.eqb_eq in Hchk. now subst.
Qed.

Lemma level_percentage_round_trip_sample :
  exists p, percentage (mkFan "in" ∅ 7) (decoded sample_frame) = inr (Some p) /\
            _percentage_to_level (mkFan "in" ∅ 7) p = inr 3.
Proof.
  apply (level_percentage_round_trip (mkFan "in" ∅ 7) (decoded sample_frame) 3).
  - simpl. lia.
  - simpl. lia.
  - reflexivity.
Defined.

Lemma fan_entities_tables (count : Z) :
  fan_entities count = inr ((fun x => x.1.1) <$> fans_with_opcodes count).
Proof. vm_compute. reflexivity. Qed.

(** The entries of the three speed tables, by fan. *)
Lemma fan_table_entry (count L : Z) (fan : PranaFanEntity) (base toggle : Z) :
  (fan, base, toggle) ∈ fans_with_opcodes count -> 0 <= L <= 10 ->
  exists c, speed_cmd fan !! L = Some c /\
            byte_to_Z <$> payload c
              = [0xBE; 0xEF; 0x04; if L =? 0 then toggle else base + L].
Proof.
  intros Hfan HL. unfold fans_with_opcodes in Hfan.
  assert (HL' : L = 0 \/ L = 1 \/ L = 2 \/ L = 3 \/ L = 4 \/ L = 5 \/ L = 6 \/ L = 7
                \/ L = 8 \/ L = 9 \/ L = 10) by lia.
  repeat (apply elem_of_cons in Hfan as [Hfan|Hfan]);
    [injection Hfan as -> -> -> ..| now apply elem_of_nil in Hfan];
    cbn [speed_cmd];
    repeat (destruct HL' as [->|HL']); try subst L;
    eexists; (split; [vm_compute; reflexivity|]); vm_compute; reflexivity.
Qed.

Lemma fan_count (count : Z) (fan : PranaFanEntity) (base toggle : Z) :
  (fan, base, toggle) ∈ fans_with_opcodes count -> _attr_speed_count fan = count.
Proof.
  intros Hfan. unfold fans_with_opcodes in Hfan.
  repeat (apply elem_of_cons in Hfan as [Hfan|Hfan]);
    [injection Hfan as -> -> -> ..| now apply elem_of_nil in Hfan]; reflexivity.
Qed.

(** X18: the command of a percentage.  For a speed count from 1 to 10 and
    a percentage of 1 or more, [async_set_percentage] on each of the three
    fans sends a command that exists in the fan's table: the set command
    with byte base + level (base 50, 30, 40 for the main, in and out fan),
    where level is the level of the percentage, between 1 and the count. It
    never passes [None] to [async_send_command] and never sends a toggle. *)
Theorem set_percentage_command (count pct : Z) (s : PranaState) :
  1 <= count <= 10 -> 1 <= pct ->
  fan_entities count = inr ((fun x => x.1.1) <$> fans_with_opcodes count) /\
  exists level,
    1 <= level <= count /\
    forall fan base toggle, (fan, base, toggle) ∈ fans_with_opcodes count ->
      _percentage_to_level fan pct = inr level /\
      exists c, async_set_percentage fan s pct = inr (Command (Some c)) /\
                byte_to_Z <$> payload c = [0xBE; 0xEF; 0x04; base + level].
Proof.
  intros Hc Hp. split; [apply fan_entities_tables|].
  destruct (level_of_percentage_range count pct Hc Hp) as (level & Hlevel & Hl).
  exists level. split; [exact Hl|].
  intros fan base toggle Hfan.
  pose proof (fan_count count fan base toggle Hfan) as Hcount.
  assert (Hlv : _percentage_to_level fan pct = inr level)
    by (rewrite percentage_to_level_count, Hcount; exact Hlevel).
  split; [exact Hlv|].
  destruct (fan_table_entry count level fan base toggle Hfan) as (c & Hlook & Hbytes);
    [lia|].
  exists c. unfold async_set_percentage. rewrite Hlv.
  replace (level =? 0) with false in * by (symmetry; apply Z.eqb_neq; lia).
  rewrite Hlook. split; [reflexivity | exact Hbytes].
Qed.

Lemma set_percentage_command_sample :
  fan_entities 5 = inr ((fun x => x.1.1) <$> fans_with_opcodes 5) /\
  exists level,
    1 <= level <= 5 /\
    forall fan base toggle, (fan, base, toggle) ∈ fans_with_opcodes 5 ->
      _percentage_to_level fan 50 = inr level /\
      exists c, async_set_percentage fan PranaState_init 50 = inr (Command (Some c)) /\
                byte_to_Z <$> payload c = [0xBE; 0xEF; 0x04; base + level].
Proof.
  apply (set_percentage_command 5 50 PranaState_init); lia.
Defined.

Example set_percentage_half_of_five :
  async_set_percentage (mkFan "in" (table_of SPEED_IN) 5) PranaState_init 50
  = inr (Command (Some (mkCommand [xbe; xef; x04; x20] None))).
Proof. vm_compute. reflexivity. Qed.

(** X19: a fan is toggled only when its power flag differs from what is
    asked.  With [v] the power attribute the fan reads, [async_turn_off]
    and a percentage of 0 or less send the fan's toggle command (byte 0A,
    0D or 10) when [v] is true and nothing otherwise; [async_turn_on]
    without arguments sends it when [v] is not true (also when there is no
    decoded state yet) and nothing otherwise. *)
Theorem fan_toggle_only_on_change (count : Z) (s : PranaState) (v : PyVal)
    (fan : PranaFanEntity) (base toggle : Z) :
  (fan, base, toggle) ∈ fans_with_opcodes count ->
  is_on fan s = inr v ->
  exists c,
    byte_to_Z <$> payload c = [0xBE; 0xEF; 0x04; toggle] /\
    fan_async_turn_off fan s
      = inr (if truthy v then Command (Some c) else Nothing) /\
    fan_async_turn_on fan s None None
      = inr (if truthy v then Nothing else Command (Some c)) /\
    (forall pct, pct <= 0 ->
       async_set_percentage fan s pct
         = inr (if truthy v then Command (Some c) else Nothing)).
Proof.
  intros Hfan Hon.
  destruct (fan_table_entry count 0 fan base toggle Hfan) as (c & Hlook & Hbytes);
    [lia|].
  exists c. split; [exact Hbytes|].
  assert (Hoff : fan_async_turn_off fan s
                 = inr (if truthy v then Command (Some c) else Nothing)).
  { unfold fan_async_turn_off. rewrite Hon, Hlook. now destruct (truthy v). }
  split; [exact Hoff|]. split.
  - unfold fan_async_turn_on. rewrite Hon, Hlook. now destruct (truthy v).
  - intros pct Hpct. unfold async_set_percentage, _percentage_to_level.
    replace (pct <=? 0) with true by (symmetry; apply Z.leb_le; lia).
    simpl. exact Hoff.
Qed.

Lemma fan_toggle_only_on_change_sample :
  exists c,
    byte_to_Z <$> payload c = [0xBE; 0xEF; 0x04; 0x0D] /\
    fan_async_turn_off (mkFan "in" (table_of SPEED_IN) 5) (decoded sample_frame)
      = inr (if truthy (VBool false) then Command (Some c) else Nothing) /\
    fan_async_turn_on (mkFan "in" (table_of SPEED_IN) 5) (decoded sample_frame) None None
      = inr (if truthy (VBool false) then Nothing else Command (Some c)) /\
    (forall pct, pct <= 0 ->
       async_set_percentage (mkFan "in" (table_of SPEED_IN) 5) (decoded sample_frame) pct
         = inr (if truthy (VBool false) then Command (Some c) else Nothing)).
Proof.
  apply (fan_toggle_only_on_change 5 (decoded sample_frame) (VBool false)
           (mkFan "in" (table_of SPEED_IN) 5) 30 0x0D).
  - unfold fans_with_opcodes. apply elem_of_cons. right. apply elem_of_cons. now left.
  - reflexivity.
Defined.

(* ------------------------------------------------------------------ *)
(** ** Number, select, preset and switch entities                       *)
(* ------------------------------------------------------------------ *)

Lemma str_dict_build_lookup_notin {V : Type} (items : list (string * result V)) :
  forall (acc m : gmap string V) (k : string),
    str_dict_build items acc = inr m -> k ∉ items.*1 -> m !! k = acc !! k.
Proof.
  induction items as [|[k' rv] items IH]; intros acc m k Hb Hk; simpl in *.
  - now injection Hb as ->.
  - destruct rv as [e|v]; simpl in Hb; [discriminate|].
    apply not_elem_of_cons in Hk as [Hne Hk].
    rewrite (IH _ _ _ Hb Hk). now apply lookup_insert_ne.
Qed.

(** The loop of [_build_display_mappings] appends the names of the items
    and leaves every other label as it was. *)
Lemma display_mappings_loop_spec (items : list (Z * PranaCommand)) :
  forall options table options' table',
    display_mappings_loop items options table = inr (options', table') ->
    exists names, options' = options ++ names /\
                  forall o, o ∉ names -> table' !! o = table !! o.
Proof.
  induction items as [|[raw_key command] items IH];
    intros options table options' table' Hloop; simpl in Hloop.
  - injection Hloop as <- <-. exists []. split; [now rewrite app_nil_r | reflexivity].
  - destruct (name command) as [nm|]; [|discriminate].
    destruct (IH _ _ _ _ Hloop) as (names & -> & Hkeep).
    exists (nm :: names). split; [now rewrite <- app_assoc|].
    intros o Ho. apply not_elem_of_cons in Ho as [Hne Ho].
    rewrite (Hkeep o Ho). now apply lookup_insert_ne.
Qed.

Lemma BRIGHTNESS_is_dict : BRIGHTNESS = inr (table_of BRIGHTNESS).
Proof. vm_compute. reflexivity. Qed.

Lemma DISPLAY_table : DISPLAY = inr (table_of DISPLAY).
Proof. vm_compute. reflexivity. Qed.

(** The preset table as the insertions that build it. *)
Lemma MODE_value :
  MODE = inr (<["boost"%string := mkCommand [xbe; xef; x04; x07] (Some "boost"%string)]>
             (<["night"%string := mkCommand [xbe; xef; x04; x06] (Some "night"%string)]>
             (<["auto_plus"%string
                  := mkCommand [xbe; xef; x04; x44] (Some "auto_plus"%string)]>
             (<["auto"%string := mkCommand [xbe; xef; x04; x43] (Some "auto"%string)]>
                ∅)))).
Proof.
  assert (H1 : PranaDisplayCommand "auto" 0x43
               = inr (mkCommand [xbe; xef; x04; x43] (Some "auto"%string)))
    by (vm_compute; reflexivity).
  assert (H2 : PranaDisplayCommand "auto_plus" 0x44
               = inr (mkCommand [xbe; xef; x04; x44] (Some "auto_plus"%string)))
    by (vm_compute; reflexivity).
  assert (H3 : PranaDisplayCommand "night" 0x06
               = inr (mkCommand [xbe; xef; x04; x06] (Some "night"%string)))
    by (vm_compute; reflexivity).
  assert (H4 : PranaDisplayCommand "boost" 0x07
               = inr (mkCommand [xbe; xef; x04; x07] (Some "boost"%string)))
    by (vm_compute; reflexivity).
  unfold MODE. rewrite H1, H2, H3, H4. reflexivity.
Qed.

Lemma MODE_is_dict : MODE = inr (table_of MODE).
Proof. rewrite MODE_value. reflexivity. Qed.

Ltac lookup_inserted :=
  repeat first [ apply lookup_insert_eq | rewrite lookup_insert_ne by discriminate ].

(** What a preset name sends. *)
Lemma preset_sent (m : string) (op : Z) :
  (m, op) ∈ preset_opcodes ->
  exists c, async_set_preset_mode m = inr (Command (Some c)) /\
            byte_to_Z <$> payload c = [0xBE; 0xEF; 0x04; op] /\
            name c = Some m.
Proof.
  intros Hop. unfold async_set_preset_mode. rewrite MODE_value.
  unfold preset_opcodes in Hop.
  repeat (apply elem_of_cons in Hop as [Hop|Hop]);
    [injection Hop as -> -> ..| now apply elem_of_nil in Hop].
  - exists (mkCommand [xbe; xef; x04; x43] (Some "auto"%string)).
    split; [|split; reflexivity].
    replace (_ !! "auto"%string)
      with (Some (mkCommand [xbe; xef; x04; x43] (Some "auto"%string)));
      [reflexivity|]. symmetry. lookup_inserted.
  - exists (mkCommand [xbe; xef; x04; x44] (Some "auto_plus"%string)).
    split; [|split; reflexivity].
    replace (_ !! "auto_plus"%string)
      with (Some (mkCommand [xbe; xef; x04; x44] (Some "auto_plus"%string)));
      [reflexivity|]. symmetry. lookup_inserted.
  - exists (mkCommand [xbe; xef; x04; x06] (Some "night"%string)).
    split; [|split; reflexivity].
    replace (_ !! "night"%string)
      with (Some (mkCommand [xbe; xef; x04; x06] (Some "night"%string)));
      [reflexivity|]. symmetry. lookup_inserted.
  - exists (mkCommand [xbe; xef; x04; x07] (Some "boost"%string)).
    split; [|split; reflexivity].
    replace (_ !! "boost"%string)
      with (Some (mkCommand [xbe; xef; x04; x07] (Some "boost"%string)));
      [reflexivity|]. symmetry. lookup_inserted.
Qed.

(** The items of the display table in the order of [sorted]. *)
Lemma sorted_display_items :
  sorted_items (table_of DISPLAY) =
    [ (0, mkCommand [xbe; xef; x04; x62] (Some "fan"%string));
      (1, mkCommand [xbe; xef; x04; x5b] (Some "temp_in"%string));
      (2, mkCommand [xbe; xef; x04; x5c] (Some "temp_out"%string));
      (3, mkCommand [xbe; xef; x04; x5d] (Some "co2"%string));
      (4, mkCommand [xbe; xef; x04; x5e] (Some "tvoc"%string));
      (5, mkCommand [xbe; xef; x04; x5f] (Some "humidity"%string));
      (6, mkCommand [xbe; xef; x04; x60] (Some "efficiency"%string));
      (7, mkCommand [xbe; xef; x04; x61] (Some "pressure"%string));
      (9, mkCommand [xbe; xef; x04; x63] (Some "date"%string));
      (10, mkCommand [xbe; xef; x04; x64] (Some "time"%string)) ].
Proof. vm_compute. reflexivity. Qed.

Lemma build_display_mappings_value :
  exists table,
    _build_display_mappings = inr (display_labels, table) /\
    (forall o, o ∉ display_labels -> table !! o = None) /\
    (forall code c nm, (code, c) ∈ sorted_items (table_of DISPLAY) ->
       name c = Some nm -> table !! nm = Some c).
Proof.
  unfold _build_display_mappings. rewrite DISPLAY_table, sorted_display_items.
  cbn [display_mappings_loop name app].
  eexists. split; [reflexivity|]. split.
  - intros o Ho. unfold display_labels in Ho.
    repeat (rewrite lookup_insert_ne by (intros <-; apply Ho; set_solver)).
    apply lookup_empty.
  - intros code c nm Hin Hnm.
    repeat (apply elem_of_cons in Hin as [Hin|Hin]);
      [injection Hin as -> -> ..| now apply elem_of_nil in Hin];
      cbn [name] in Hnm; injection Hnm as <-; lookup_inserted.
Qed.

(** A successful [update] is the decoding of a valid frame. *)
Lemma update_ok_inv (data : list byte) (s s' : PranaState) :
  update data s = (inr tt, s') -> valid_frame data /\ s' = decoded data.
Proof.
  intros Hu.
  destruct (decide (take 2 data = COMMAND_PREFIX)) as [Hpre|Hpre].
  - destruct (le_lt_dec 100 (length data)) as [Hlen|Hlen].
    + assert (Hv : valid_frame data) by (split; assumption).
      split; [exact Hv|]. rewrite (update_valid data s Hv) in Hu. congruence.
    + pose proof (update_short data s Hpre Hlen) as Hshort.
      rewrite Hu in Hshort. discriminate.
  - rewrite (update_bad_prefix data s Hpre) in Hu. discriminate.
Qed.

(** X20: which brightness the number entity accepts.  With [n] the
    integer part [int(value)] of the value, [async_set_native_value] sends
    the set command with byte 6E + n when n is from 0 to 6, and raises
    [ValueError] (sending nothing) for every other n: a fractional value is
    truncated toward zero, not rounded or rejected. *)
Theorem set_native_value_accepts (show : float -> string) (value : float) (n : Z) :
  int_of_float value = inr n ->
  (0 <= n <= 6 ->
     exists c, async_set_native_value show value = inr (Command (Some c)) /\
               byte_to_Z <$> payload c = [0xBE; 0xEF; 0x04; 0x6E + n]) /\
  (~ 0 <= n <= 6 ->
     async_set_native_value show value
       = inl (Py (ValueError ("Unsupported brightness " +:+ show value)))).
Proof.
  intros Hn. unfold async_set_native_value. rewrite Hn, BRIGHTNESS_is_dict. split.
  - intros Hk.
    assert (Hk' : n = 0 \/ n = 1 \/ n = 2 \/ n = 3 \/ n = 4 \/ n = 5 \/ n = 6) by lia.
    clear Hn.
    repeat (destruct Hk' as [->|Hk']); try subst n;
      eexists; (split; [vm_compute; reflexivity|]); vm_compute; reflexivity.
  - intros Hk.
    rewrite (range_table_outside _ _ _ n BRIGHTNESS_is_dict); [reflexivity|].
    unfold MAX_BRIGHTNESS. lia.
Qed.

Lemma set_native_value_accepts_sample :
  (0 <= 6 <= 6 ->
     exists c, async_set_native_value (fun _ => "6.5"%string) 6.5%float
                 = inr (Command (Some c)) /\
               byte_to_Z <$> payload c = [0xBE; 0xEF; 0x04; 0x6E + 6]) /\
  (~ 0 <= 6 <= 6 ->
     async_set_native_value (fun _ => "6.5"%string) 6.5%float
       = inl (Py (ValueError ("Unsupported brightness " +:+ "6.5")))).
Proof.
  apply (set_native_value_accepts (fun _ => "6.5"%string) 6.5%float 6).
  vm_compute. reflexivity.
Defined.

Example set_native_value_samples :
  async_set_native_value (fun _ => "-0.5"%string) (-0.5)%float
    = inr (Command (Some (mkCommand [xbe; xef; x04; x6e] None))) /\
  async_set_native_value (fun _ => "7.0"%string) 7%float
    = inl (Py (ValueError "Unsupported brightness 7.0")) /\
  async_set_native_value (fun _ => "-1.0"%string) (-1)%float
    = inl (Py (ValueError "Unsupported brightness -1.0")) /\
  async_set_native_value (fun _ => "nan"%string) nan
    = inl (Py (ValueError "cannot convert float NaN to integer")) /\
  async_set_native_value (fun _ => "inf"%string) infinity = inl (Py OverflowError).
Proof. vm_compute. repeat split. Qed.

(** X21: the options of the display select.  [_build_display_mappings]
    gives the ten display names in the order of their codes; an option is
    accepted by [async_select_option] exactly when it is one of them, the
    command sent then carries that name, and every other option raises
    [ValueError]. *)
Theorem select_option_accepts :
  exists table,
    _build_display_mappings = inr (display_labels, table) /\
    forall o,
      (o ∈ display_labels <->
         exists c, async_select_option o = inr (Command (Some c)) /\ name c = Some o) /\
      (o ∉ display_labels <->
         async_select_option o
           = inl (Py (ValueError ("Unsupported display option: " +:+ o)))).
Proof.
  destruct build_display_mappings_value as (table & Hb & Hout & Hitems).
  exists table. split; [exact Hb|].
  intros o.
  assert (Hin : o ∈ display_labels ->
            exists c, async_select_option o = inr (Command (Some c)) /\ name c = Some o).
  { intros Ho.
    assert (Hc : exists code c, (code, c) ∈ sorted_items (table_of DISPLAY) /\
                                name c = Some o).
    { rewrite sorted_display_items. unfold display_labels in Ho.
      repeat (apply elem_of_cons in Ho as [->|Ho]);
        [..| now apply elem_of_nil in Ho];
        eexists _, (mkCommand _ (Some _)); (split; [|reflexivity]);
        repeat first [ apply list_elem_of_here | apply list_elem_of_further ]. }
    destruct Hc as (code & c & Hitem & Hname).
    exists c. split; [|exact Hname].
    unfold async_select_option. rewrite Hb, (Hitems code c o Hitem Hname). reflexivity. }
  assert (Hnot : o ∉ display_labels ->
            async_select_option o
              = inl (Py (ValueError ("Unsupported display option: " +:+ o)))).
  { intros Ho. unfold async_select_option. rewrite Hb, (Hout o Ho). reflexivity. }
  split; split.
  - exact Hin.
  - intros (c & Hc & _). destruct (decide (o ∈ display_labels)) as [Ho|Ho]; [exact Ho|].
    rewrite (Hnot Ho) in Hc. discriminate.
  - exact Hnot.
  - intros He Ho. destruct (Hin Ho) as (c & Hc & _). rewrite Hc in He. discriminate.
Qed.

Lemma display_name_selectable (code : Z) (nm : string) :
  display_name code = Some nm ->
  exists table c, DISPLAY = inr table /\ table !! code = Some c /\
                  name c = Some nm /\
                  async_select_option nm = inr (Command (Some c)).
Proof.
  intros Hd. exists (table_of DISPLAY).
  pose proof DISPLAY_table as Ht.
  destruct build_display_mappings_value as (table & Hb & _ & Hitems).
  unfold display_name in Hd. rewrite Ht in Hd.
  destruct (table_of DISPLAY !! code) as [c|] eqn:Hc; [|discriminate].
  simpl in Hd. exists c. split; [exact Ht|]. split; [reflexivity|].
  split; [exact Hd|].
  unfold async_select_option. rewrite Hb.
  rewrite (Hitems code c nm); [reflexivity| |exact Hd].
  rewrite sorted_display_items.
  destruct (decide (code ∈ [0; 1; 2; 3; 4; 5; 6; 7; 9; 10])) as [Hin|Hout].
  - repeat (apply elem_of_cons in Hin as [->|Hin]);
      [..| now apply elem_of_nil in Hin];
      vm_compute in Hc; injection Hc as <-;
      repeat first [ apply list_elem_of_here | apply list_elem_of_further ].
  - rewrite (dict_build_lookup_notin _ ∅ (table_of DISPLAY) code Ht Hout),
      lookup_empty in Hc.
    discriminate.
Qed.

(** X22: the display shown can be selected.  When [update] succeeds and
    leaves a display name, [async_select_option] accepts that name and
    sends the command of the display code in the frame (byte 99): selecting
    the current option re-sends the current display. *)
Theorem decoded_display_selectable (data : list byte) (s s' : PranaState) (nm : string) :
  update data s = (inr tt, s') ->
  display s' = Some nm ->
  exists table c,
    DISPLAY = inr table /\
    table !! at_index data STATE_INDEX_DISPLAY = Some c /\
    name c = Some nm /\
    async_select_option nm = inr (Command (Some c)).
Proof.
  intros Hu Hd. destruct (update_ok_inv data s s' Hu) as [_ ->].
  apply display_name_selectable. exact Hd.
Qed.

Lemma decoded_display_selectable_sample :
  exists table c,
    DISPLAY = inr table /\
    table !! at_index sample_frame STATE_INDEX_DISPLAY = Some c /\
    name c = Some "fan"%string /\
    async_select_option "fan" = inr (Command (Some c)).
Proof.
  apply (decoded_display_selectable sample_frame PranaState_init (decoded sample_frame)).
  - apply update_valid, sample_frame_valid.
  - vm_compute. reflexivity.
Defined.

(** X23: the presets.  [async_set_preset_mode] accepts exactly the four
    names auto, auto_plus, night and boost, sending the set command with
    byte 43, 44, 06 and 07; [async_turn_on] with a preset does the same
    whatever the percentage, and every other name raises [ValueError]. *)
Theorem preset_mode_accepts (m : string) :
  (forall op, (m, op) ∈ preset_opcodes ->
     exists c, async_set_preset_mode m = inr (Command (Some c)) /\
               byte_to_Z <$> payload c = [0xBE; 0xEF; 0x04; op] /\
               forall self s pct,
                 fan_async_turn_on self s pct (Some m) = inr (Command (Some c))) /\
  (m ∈ preset_opcodes.*1 <-> exists c, async_set_preset_mode m = inr (Command (Some c))) /\
  (m ∉ preset_opcodes.*1 <->
     async_set_preset_mode m = inl (Py (ValueError ("Unsupported preset mode " +:+ m)))).
Proof.
  assert (Hin : forall op, (m, op) ∈ preset_opcodes ->
            exists c, async_set_preset_mode m = inr (Command (Some c)) /\
                      byte_to_Z <$> payload c = [0xBE; 0xEF; 0x04; op] /\
                      forall self s pct,
                        fan_async_turn_on self s pct (Some m) = inr (Command (Some c))).
  { intros op Hop. destruct (preset_sent m op Hop) as (c & Hc & Hbytes & _).
    exists c. split; [exact Hc|]. split; [exact Hbytes|].
    intros self s pct. unfold fan_async_turn_on. exact Hc. }
  assert (Hnot : m ∉ preset_opcodes.*1 ->
            async_set_preset_mode m
              = inl (Py (ValueError ("Unsupported preset mode " +:+ m)))).
  { intros Hm. unfold async_set_preset_mode.
    pose proof MODE_is_dict as Ht. rewrite Ht.
    rewrite (str_dict_build_lookup_notin _ ∅ (table_of MODE) m Ht Hm), lookup_empty.
    reflexivity. }
  assert (Hsome : m ∈ preset_opcodes.*1 ->
            exists c, async_set_preset_mode m = inr (Command (Some c))).
  { intros Hm. apply list_elem_of_fmap in Hm as ([m' op] & -> & Hop).
    destruct (Hin op Hop) as (c & Hc & _). eauto. }
  split; [exact Hin|]. split; split.
  - exact Hsome.
  - intros (c & Hc). destruct (decide (m ∈ preset_opcodes.*1)) as [Hm|Hm]; [exact Hm|].
    rewrite (Hnot Hm) in Hc. discriminate.
  - exact Hnot.
  - intros He Hm. destruct (Hsome Hm) as (c & Hc). rewrite Hc in He. discriminate.
Qed.

(** X24: the mode shown is a preset.  When [update] succeeds and leaves a
    mode, that mode is one of the four preset names, so
    [async_set_preset_mode] accepts it. *)
Theorem decoded_mode_is_preset (data : list byte) (s s' : PranaState) (m : string) :
  update data s = (inr tt, s') ->
  mode s' = Some m ->
  m ∈ preset_opcodes.*1 /\
  exists c, async_set_preset_mode m = inr (Command (Some c)) /\ name c = Some m.
Proof.
  intros Hu Hm. destruct (update_ok_inv data s s' Hu) as [_ ->].
  unfold decoded in Hm. cbn [mode] in Hm. unfold mode_of in Hm.
  assert (Hop : exists op, (m, op) ∈ preset_opcodes).
  { unfold preset_opcodes.
    repeat (match type of Hm with
            | (if ?b then _ else _) = _ => destruct b
            end);
      first [discriminate Hm | injection Hm as <-]; eexists;
      repeat first [ apply list_elem_of_here | apply list_elem_of_further ]. }
  destruct Hop as [op Hop]. split.
  - apply list_elem_of_fmap. exists (m, op). split; [reflexivity | exact Hop].
  - destruct (preset_sent m op Hop) as (c & Hc & _ & Hname). eauto.
Qed.

Lemma decoded_mode_is_preset_sample :
  "auto_plus"%string ∈ preset_opcodes.*1 /\
  exists c, async_set_preset_mode "auto_plus" = inr (Command (Some c)) /\
            name c = Some "auto_plus"%string.
Proof.
  apply (decoded_mode_is_preset all_flags_frame PranaState_init
           (decoded all_flags_frame)).
  - apply update_valid. split; [reflexivity | vm_compute; lia].
  - vm_compute. reflexivity.
Defined.

(** X25: nothing is unknown after a poll.  When [update] succeeds, the
    [native_value] of every sensor, of every switch and of the brightness
    number exists as an attribute of the state and is not [None]; only the
    mode and the display name can be [None] after a successful decoding. *)
Theorem entities_known_after_update (data : list byte) (s s' : PranaState) (key : string) :
  update data s = (inr tt, s') ->
  key ∈ SENSOR_DESCRIPTIONS ++ switch_opcodes.*1 ++ ["brightness"%string] ->
  exists v, native_value (Some s') key = inr v /\ v <> VNone.
Proof.
  intros Hu Hkey. destruct (update_ok_inv data s s' Hu) as [_ ->].
  unfold SENSOR_DESCRIPTIONS, switch_opcodes in Hkey. simpl in Hkey.
  repeat (apply elem_of_cons in Hkey as [->|Hkey]);
    [..| now apply elem_of_nil in Hkey];
    eexists; (split; [reflexivity|]); discriminate.
Qed.

Lemma entities_known_after_update_sample :
  exists v, native_value (Some (decoded sample_frame)) "pressure" = inr v /\ v <> VNone.
Proof.
  apply (entities_known_after_update sample_frame PranaState_init
           (decoded sample_frame) "pressure").
  - apply update_valid, sample_frame_valid.
  - vm_compute. set_solver.
Defined.

(** X26: a switch is toggled only when its flag differs from what is
    asked.  The three switches read mini_heating, winter_mode and
    flows_locked and own the toggle commands with byte 05, 16 and 09;
    [async_turn_on] sends the toggle when the flag read is not true (also
    when there is no data) and nothing otherwise, [async_turn_off] sends it
    when the flag is true and nothing otherwise; reading the flag never
    raises. *)
Theorem switch_toggle_only_on_change (data : option PranaState) :
  exists descs,
    SWITCH_ENTITY_DESCRIPTIONS = inr descs /\
    switch_key <$> descs = switch_opcodes.*1 /\
    forall d, d ∈ descs ->
      exists v op,
        (switch_key d, op) ∈ switch_opcodes /\
        byte_to_Z <$> payload (toggle_cmd d) = [0xBE; 0xEF; 0x04; op] /\
        switch_is_on d data = inr v /\
        (data = None -> v = VNone) /\
        switch_async_turn_on d data
          = inr (if truthy v then Nothing else Command (Some (toggle_cmd d))) /\
        switch_async_turn_off d data
          = inr (if truthy v then Command (Some (toggle_cmd d)) else Nothing).
Proof.
  eexists. split; [vm_compute; reflexivity|]. split; [reflexivity|].
  intros d Hd.
  repeat (apply elem_of_cons in Hd as [->|Hd]); [..| now apply elem_of_nil in Hd].
  - exists (match data with Some st => py_opt VBool (mini_heating st) | None => VNone end),
      0x05.
    split; [unfold switch_opcodes; set_solver|]. split; [reflexivity|].
    destruct data as [st|].
    + split; [reflexivity|]. split; [discriminate|].
      unfold switch_async_turn_on, switch_async_turn_off, switch_is_on, native_value.
      cbn [switch_key toggle_cmd].
      change (getattr st "mini_heating") with
        (inr (py_opt VBool (mini_heating st)) : EntityExc + PyVal).
      split; now destruct (truthy _).
    + repeat split.
  - exists (match data with Some st => py_opt VBool (winter_mode st) | None => VNone end),
      0x16.
    split; [unfold switch_opcodes; set_solver|]. split; [reflexivity|].
    destruct data as [st|].
    + split; [reflexivity|]. split; [discriminate|].
      unfold switch_async_turn_on, switch_async_turn_off, switch_is_on, native_value.
      cbn [switch_key toggle_cmd].
      change (getattr st "winter_mode") with
        (inr (py_opt VBool (winter_mode st)) : EntityExc + PyVal).
      split; now destruct (truthy _).
    + repeat split.
  - exists (match data with Some st => py_opt VBool (flows_locked st) | None => VNone end),
      0x09.
    split; [unfold switch_opcodes; set_solver|]. split; [reflexivity|].
    destruct data as [st|].
    + split; [reflexivity|]. split; [discriminate|].
      unfold switch_async_turn_on, switch_async_turn_off, switch_is_on, native_value.
      cbn [switch_key toggle_cmd].
      change (getattr st "flows_locked") with
        (inr (py_opt VBool (flows_locked st)) : EntityExc + PyVal).
      split; now destruct (truthy _).
    + repeat split.
Qed.
